(** * fido_host.client: the FIDO client layer, embedded in Rocq

    A shallow embedding of [src/fido_host/client.py]: the client-data
    blob, the polling driver, the legacy U2F client and the FIDO2 client
    with its CTAP2 path and its CTAP1 down-conversion.

    Conventions.
    - Python [bytes] are [list byte]; a Python [str] is held as a Rocq
      [string] carrying its UTF-8 encoding, so [str.encode()] and
      [bytes.decode()] are the two directions of the same representation.
    - A Python exception is a value of [exn]; a call that may raise returns
      a [result].  Code that talks to the authenticator runs in the monad
      [M], which threads the [World]: the device, a millisecond clock and
      the transcript of every command sent to the device with its reply.
    - Durations are integers in milliseconds: Python's [30] (seconds) is
      [30000] here and [0.25] is [250].
    - The only loop without a structural bound is the polling loop; it
      takes fuel, and a run that exhausts it yields [None]. *)

From Stdlib Require Import ZArith NArith Lia.
From Stdlib.Strings Require Import Byte String Ascii.
From stdpp Require Import base option list strings gmap pretty.

Set Default Proof Using "Type".

Definition bytes := list byte.

(** Dynamically typed values that the client only passes through, puts
    into a JSON document or into a CBOR-bound structure. A dict keeps
    insertion order, as Python's does. *)
#[warnings="-register-all"]
Inductive pyval :=
| PNone
| PBool (b : bool)
| PInt (n : Z)
| PStr (s : string)
| PBytes (b : bytes)
| PList (l : list pyval)
| PDict (d : list (string * pyval)).

Definition str_encode (s : string) : bytes := list_byte_of_string s.
Definition bytes_decode (b : bytes) : string := string_of_list_byte b.

(** ** Exceptions *)

(** [ClientError.ERR] *)
Inductive ERR := OTHER_ERROR | BAD_REQUEST | CONFIGURATION_UNSUPPORTED
               | DEVICE_INELIGIBLE | TIMEOUT.

Definition ERR_value (c : ERR) : Z :=
  match c with
  | OTHER_ERROR => 1
  | BAD_REQUEST => 2
  | CONFIGURATION_UNSUPPORTED => 3
  | DEVICE_INELIGIBLE => 4
  | TIMEOUT => 5
  end.

(** Modelled from the spec: the codes of [CtapError.ERR] (module [.hid],
    not among the sources) that client.py raises, as section 7 lists them
    (UNSUPPORTED_OPTION, CREDENTIAL_EXCLUDED, NO_CREDENTIALS, plus all
    device-reported codes, here [CTAP_STATUS]). *)
Inductive CTAP_ERR := UNSUPPORTED_OPTION | CREDENTIAL_EXCLUDED | NO_CREDENTIALS
                    | CTAP_STATUS (code : Z).

Inductive exn :=
| ApduError (code : Z)
| CtapError (code : CTAP_ERR)
| ClientError (code : ERR)
| ValueError (msg : string)
| KeyError (key : string)
| TypeError (msg : string)
| PyException (cls msg : string).

#[global] Instance ERR_eq_dec : EqDecision ERR.
Proof. solve_decision. Defined.

#[global] Instance CTAP_ERR_eq_dec : EqDecision CTAP_ERR.
Proof. solve_decision. Defined.

#[global] Instance exn_eq_dec : EqDecision exn.
Proof. solve_decision. Defined.

Inductive result (A : Type) :=
| Ok (a : A)
| Raise (e : exn).
Arguments Ok {A} a.
Arguments Raise {A} e.

#[global] Instance result_ret : MRet result := @Ok.
#[global] Instance result_bind : MBind result := λ A B f r,
  match r with
  | Ok a => f a
  | Raise e => Raise e
  end.

(** [ClientError.ERR(code)]: the member whose value is [code]; the enum
    raises ValueError for any other code. *)
Definition ERR_of_value (code : Z) : result ERR :=
  if (code =? 1)%Z then Ok OTHER_ERROR
  else if (code =? 2)%Z then Ok BAD_REQUEST
  else if (code =? 3)%Z then Ok CONFIGURATION_UNSUPPORTED
  else if (code =? 4)%Z then Ok DEVICE_INELIGIBLE
  else if (code =? 5)%Z then Ok TIMEOUT
  else Raise (ValueError "not a valid ClientError.ERR").

(** [ClientError(code)]: [__init__] stores [ClientError.ERR(code)]. *)
Definition ClientError_new (code : Z) : result exn :=
  c ← ERR_of_value code;
  Ok (ClientError c).

(** [ERR.__call__]: a member called, as in [ClientError.ERR.TIMEOUT()],
    is [ClientError(self)]; the member is an int of its value. *)
Definition ERR_call (c : ERR) : result exn := ClientError_new (ERR_value c).

(** [d[k]] on a dict with string keys. *)
Definition getitem {V} (d : gmap string V) (k : string) : result V :=
  match d !! k with
  | Some v => Ok v
  | None => Raise (KeyError k)
  end.

(** [v[k]] on a dynamically typed value. *)
Fixpoint assoc (k : string) (d : list (string * pyval)) : option pyval :=
  match d with
  | [] => None
  | (k', v) :: d' => if String.eqb k k' then Some v else assoc k d'
  end.

Definition py_getitem (v : pyval) (k : string) : result pyval :=
  match v with
  | PDict d =>
      match assoc k d with
      | Some x => Ok x
      | None => Raise (KeyError k)
      end
  | PStr _ | PBytes _ | PList _ => Raise (TypeError "indices must be integers")
  | _ => Raise (TypeError "object is not subscriptable")
  end.

(** ** Collaborators

    The modules client.py imports.  Their code is not part of this
    file's subject; each is an interface, and everything below holds for
    every implementation of it. *)

(** [.utils]: hashing and the websafe (unpadded base64url) codec. *)
Class Utils := {
  sha256 : bytes → bytes;
  hmac_sha256 : bytes → bytes → bytes;
  websafe_encode : bytes → string;
  websafe_decode : string → result bytes;
}.

(** [json] *)
Class JsonLib := {
  json_dumps : pyval → result string;
  json_loads : string → result pyval;
}.

(** [.rpid]: the origin verifiers. A verifier may return or raise. *)
Definition verifier := string → string → result bool.

Class Rpid := {
  verify_rp_id : verifier;
  verify_app_id : verifier;
}.

(** ** Data exchanged with the authenticator *)

(** Modelled from the spec: the registration response of module [.u2f]
    (section 6.2: key_handle, public_key, certificate, signature). It is
    a [bytes] subclass; [reg_raw] is the byte string itself, which [b64]
    encodes. *)
Record RegistrationData := {
  reg_raw : bytes;
  public_key : bytes;
  key_handle : bytes;
  certificate : bytes;
  reg_signature : bytes;
}.

(** Modelled from the spec: the signature response of module [.u2f]
    (section 6.2: user_presence, counter, signature), with [sig_raw] the
    byte string itself. *)
Record SignatureData := {
  sig_raw : bytes;
  user_presence : Z;
  counter : Z;
  sig_signature : bytes;
}.

(** A credential descriptor, a relying party: Python dicts. *)
Abbreviation descriptor := (gmap string pyval).

(** The objects of module [.fido2], which is not among the sources, are
    kept as the records of the arguments their [create] takes. *)

(** Modelled from the spec: [AttestedCredentialData.create(aaguid,
    credential_id, public_key)] (section 3: aaguid, credId, COSE public
    key). *)
Record AttestedCredentialData := {
  aaguid : bytes;
  credential_id : bytes;
  cose_key : list (Z * pyval);
}.

(** Modelled from the spec: [AuthenticatorData.create(rp_id_hash, flags,
    counter, credential_data)] (section 3: rpIdHash, flags, signCount,
    optional attested credential data). *)
Record AuthenticatorData := {
  rp_id_hash : bytes;
  flags : Z;
  sign_count : Z;
  credential_data : option AttestedCredentialData;
}.

(** Modelled from the spec: [AttestationObject.create(fmt, auth_data,
    att_stmt)] (section 3: fmt, authData, attStmt). *)
Record AttestationObject := {
  fmt : string;
  auth_data : AuthenticatorData;
  att_statement : list (string * pyval);
}.

(** Modelled from the spec: [AssertionResponse.create(credential,
    auth_data, signature)] and what [CTAP2.get_assertion] returns
    (section 3: credential, authData, signature, user; section 6.2: an
    optional number_of_credentials). *)
Record AssertionResponse := {
  credential : option descriptor;
  assertion_auth_data : AuthenticatorData;
  assertion_signature : bytes;
  user : option pyval;
  number_of_credentials : option Z;
}.

(** Modelled from the spec: what [CTAP2.get_info] returns, as far as
    client.py reads it (section 6.2: pin_protocols, options). *)
Record Info := {
  pin_protocols : list Z;
  options : gmap string bool;
}.

(** The argument lists of [CTAP2.make_credential] and
    [CTAP2.get_assertion], in the order client.py passes them. *)
Record MakeCredentialArgs := {
  mc_client_data_hash : bytes;
  mc_rp : gmap string string;
  mc_user : pyval;
  mc_key_params : list (list (string * pyval));
  mc_exclude_list : option (list descriptor);
  mc_extensions : option pyval;
  mc_options : option (list (string * bool));
  mc_pin_auth : option bytes;
  mc_pin_protocol : option Z;
  mc_timeout : option Z;
}.

Record GetAssertionArgs := {
  ga_rp_id : string;
  ga_client_data_hash : bytes;
  ga_allow_list : option (list descriptor);
  ga_extensions : option pyval;
  ga_options : option (list (string * bool));
  ga_pin_auth : option bytes;
  ga_pin_protocol : option Z;
  ga_timeout : option Z;
}.

(** One command sent to the authenticator, with what came back. *)
Inductive Exchange :=
| XGetVersion (r : result string)
| XRegister (client_param app_param : bytes) (r : result RegistrationData)
| XAuthenticate (client_param app_param : bytes) (key_handle : pyval)
    (check_only : bool) (r : result SignatureData)
| XGetInfo (r : result Info)
| XGetPinToken (pin : string) (r : result bytes)
| XMakeCredential (a : MakeCredentialArgs) (r : result AttestationObject)
| XGetAssertion (a : GetAssertionArgs) (r : result AssertionResponse)
| XGetNextAssertion (r : result AssertionResponse).

(** ** The authenticator

    A device is a state of type [Dev]; a command maps the state to a
    reply, the next state and the time the round trip took (ms). *)
Definition reply (Dev A : Type) : Type := result A * Dev * N.

(** [.u2f]: the CTAP1 transport and the status word client.py compares
    against, [APDU.USE_NOT_SATISFIED]. *)
Class U2f (Dev : Type) := {
  USE_NOT_SATISFIED : Z;
  dev_get_version : Dev → reply Dev string;
  dev_register : bytes → bytes → Dev → reply Dev RegistrationData;
  dev_authenticate : bytes → bytes → pyval → bool → Dev → reply Dev SignatureData;
}.

(** [.fido2]: the CTAP2 transport and PIN protocol 1. [CTAP2_new] is the
    constructor [CTAP2(device)], which raises [ValueError] on a device
    without CTAP2. *)
Class Fido2 (Dev : Type) := {
  CTAP2_new : Dev → result unit;
  dev_get_info : Dev → reply Dev Info;
  dev_get_pin_token : string → Dev → reply Dev bytes;
  dev_make_credential : MakeCredentialArgs → Dev → reply Dev AttestationObject;
  dev_get_assertion : GetAssertionArgs → Dev → reply Dev AssertionResponse;
  dev_get_next_assertion : Dev → reply Dev AssertionResponse;
}.

(** Modelled from the spec: [PinProtocolV1.VERSION] of module [.fido2]
    ("PIN protocol version 1", "set pin_protocol = 1"). *)
Definition PinProtocolV1_VERSION : Z := 1.

(** ** The world and the monad of device code *)

Record World (Dev : Type) := {
  now : Z;
  device : Dev;
  log : list Exchange;
}.
Arguments now {Dev} w.
Arguments device {Dev} w.
Arguments log {Dev} w.

Definition M (Dev A : Type) : Type := World Dev → option (result A * World Dev).

#[global] Instance M_ret {Dev} : MRet (M Dev) := λ A a w, Some (Ok a, w).
#[global] Instance M_bind {Dev} : MBind (M Dev) := λ A B f m w,
  match m w with
  | Some (Ok a, w') => f a w'
  | Some (Raise e, w') => Some (Raise e, w')
  | None => None
  end.

Definition raise {Dev A} (e : exn) : M Dev A := λ w, Some (Raise e, w).

Definition lift {Dev A} (r : result A) : M Dev A := λ w, Some (r, w).

(** [try: m  except <the exceptions h is defined on>: h e]. An exception
    [h] does not handle propagates. *)
Definition try_except {Dev A} (m : M Dev A) (h : exn → option (M Dev A)) : M Dev A :=
  λ w, match m w with
       | Some (Raise e, w') =>
           match h e with
           | Some k => k w'
           | None => Some (Raise e, w')
           end
       | other => other
       end.

(** Send one command: run the device, advance the clock by the round
    trip, and append the exchange to the transcript. *)
Definition command {Dev A} (run : Dev → reply Dev A) (x : result A → Exchange)
  : M Dev A :=
  λ w, let '(r, d, dt) := run (device w) in
       Some (r, {| now := now w + Z.of_N dt; device := d; log := log w ++ [x r] |}).

Module CTAP1.
Section ctap1.
Context {Dev : Type} `{!U2f Dev}.

Definition get_version : M Dev string :=
  command dev_get_version XGetVersion.

Definition register (client_param app_param : bytes) : M Dev RegistrationData :=
  command (dev_register client_param app_param) (XRegister client_param app_param).

Definition authenticate (client_param app_param : bytes) (key_handle : pyval)
    (check_only : bool) : M Dev SignatureData :=
  command (dev_authenticate client_param app_param key_handle check_only)
          (XAuthenticate client_param app_param key_handle check_only).
End ctap1.
End CTAP1.

Module CTAP2.
Section ctap2.
Context {Dev : Type} `{!Fido2 Dev}.

Definition get_info : M Dev Info := command dev_get_info XGetInfo.

Definition get_pin_token (pin : string) : M Dev bytes :=
  command (dev_get_pin_token pin) (XGetPinToken pin).

Definition make_credential (a : MakeCredentialArgs) : M Dev AttestationObject :=
  command (dev_make_credential a) (XMakeCredential a).

Definition get_assertion (a : GetAssertionArgs) : M Dev AssertionResponse :=
  command (dev_get_assertion a) (XGetAssertion a).

Definition get_next_assertion : M Dev AssertionResponse :=
  command dev_get_next_assertion XGetNextAssertion.
End ctap2.
End CTAP2.

(** ** ClientData *)

Module ClientData.
Record t := {
  raw : bytes;          (* the bytes object itself *)
  data : pyval;         (* self.data *)
  origin : pyval;       (* self.origin *)
}.

Section client_data.
Context `{!Utils, !JsonLib}.

(** [ClientData(data)]: [__init__] parses the bytes and reads
    [self.data['origin']]. *)
Definition new (b : bytes) : result t :=
  d ← json_loads (bytes_decode b);
  o ← py_getitem d "origin";
  Ok {| raw := b; data := d; origin := o |}.

Definition b64 (self : t) : string := websafe_encode (raw self).

Definition hash (self : t) : bytes := sha256 (raw self).

(** [ClientData.build]: the keyword arguments, in call order. *)
Definition build (kwargs : list (string * pyval)) : result t :=
  s ← json_dumps (PDict kwargs);
  new (str_encode s).

Definition from_b64 (s : string) : result t :=
  b ← websafe_decode s;
  new b.
End client_data.
End ClientData.

(** ** The polling driver *)

(** The scoped [Timeout] of module [.utils], which is not among the
    sources, after section 9 of the specification: a scoped timeout
    event object with a wait(delay) that becomes a no-op after expiry;
    deadline = now + timeout; while now < deadline, try op and on
    USE_NOT_SATISFIED sleep min(delay, deadline - now). *)
Module Timeout.
(** Modelled from the spec: the event [Timeout] yields; it is set from
    its deadline on. *)
Record event := { deadline : Z }.

Section timeout.
Context {Dev : Type}.

(** Modelled from the spec: [with Timeout(t) as event], which starts
    the budget [t] at the current time. *)
Definition enter (t : Z) : M Dev event :=
  λ w, Some (Ok {| deadline := now w + t |}, w).

(** Modelled from the spec: [event.is_set()], true once the deadline
    is reached. *)
Definition is_set (ev : event) : M Dev bool :=
  λ w, Some (Ok (deadline ev <=? now w)%Z, w).

(** Modelled from the spec: [event.wait(d)], which returns when the
    event is set or after [d], whichever comes first, and at once when
    the event is already set. *)
Definition wait (ev : event) (d : Z) : M Dev unit :=
  λ w, Some (Ok tt,
             if (deadline ev <=? now w)%Z then w
             else {| now := Z.min (now w + Z.max 0 d) (deadline ev);
                     device := device w; log := log w |}).
End timeout.
End Timeout.

(** [timeout or 30]: [None] and [0] are both falsy. *)
Definition timeout_or_30 (timeout : option Z) : Z :=
  match timeout with
  | Some t => if (t =? 0)%Z then 30000%Z else t
  | None => 30000%Z
  end.

Section polling.
Context {Dev : Type} `{!U2f Dev} {A : Type}.

(** The [while not event.is_set()] loop of [_call_polling]. *)
Fixpoint poll_loop (fuel : nat) (poll_delay : Z) (event : Timeout.event)
    (func : M Dev A) : M Dev A :=
  match fuel with
  | O => λ _, None
  | S fuel' =>
      set ← Timeout.is_set event;
      if set : bool then raise (ClientError TIMEOUT)
      else try_except func (λ e,
             match e with
             | ApduError code =>
                 Some (if (code =? USE_NOT_SATISFIED)%Z
                       then Timeout.wait event poll_delay;;
                            poll_loop fuel' poll_delay event func
                       else raise (ApduError code))
             | _ => None
             end)
  end.

Definition _call_polling (fuel : nat) (poll_delay : Z) (timeout : option Z)
    (func : M Dev A) : M Dev A :=
  event ← Timeout.enter (timeout_or_30 timeout);
  poll_loop fuel poll_delay event func.
End polling.

(** ** U2fClient *)

Abbreviation registered_key := (gmap string string).
Abbreviation register_request := (gmap string string).

Definition dummy_param : bytes := replicate 32 x00.

Module U2fClient.
Record t := {
  poll_delay : Z;
  origin : string;
  _verify : verifier;
}.

Section u2f_client.
Context `{!Utils, !JsonLib, !Rpid} {Dev : Type} `{!U2f Dev}.

(** [__init__(self, device, origin, verify=verify_app_id)]; the device
    is the one of the world. *)
Definition __init__ (origin : string) (verify : verifier) : t :=
  {| poll_delay := 250; origin := origin; _verify := verify_app_id |}.

Definition _verify_app_id (self : t) (app_id : string) : M Dev unit :=
  match _verify self app_id (origin self) with
  | Ok true => mret tt
  | _ => raise (ClientError BAD_REQUEST)
  end.

(** The first loop of [register], over [registered_keys]. *)
Fixpoint check_registered_keys (self : t) (app_id version : string)
    (registered_keys : list registered_key) : M Dev unit :=
  match registered_keys with
  | [] => mret tt
  | key :: rest =>
      kv ← lift (getitem key "version");
      if negb (String.eqb kv version)
      then check_registered_keys self app_id version rest
      else
        let key_app_id := default app_id (key !! "appId") in
        let app_param := sha256 (str_encode key_app_id) in
        _verify_app_id self key_app_id;;
        kh ← lift (getitem key "keyHandle");
        key_handle ← lift (websafe_decode kh);
        try_except
          (CTAP1.authenticate dummy_param app_param (PBytes key_handle) true;;
           raise (ClientError DEVICE_INELIGIBLE))
          (λ e, match e with
                | ApduError code =>
                    Some (if (code =? USE_NOT_SATISFIED)%Z
                          then raise (ClientError DEVICE_INELIGIBLE)
                          else mret tt)
                | _ => None
                end);;
        check_registered_keys self app_id version rest
  end.

(** The second loop of [register]: the challenge of the first request
    of the device's version. *)
Fixpoint find_challenge (version : string)
    (register_requests : list register_request) : result string :=
  match register_requests with
  | [] => Raise (ClientError DEVICE_INELIGIBLE)
  | request :: rest =>
      rv ← getitem request "version";
      if String.eqb rv version then getitem request "challenge"
      else find_challenge version rest
  end.

Definition register (fuel : nat) (self : t) (app_id : string)
    (register_requests : list register_request)
    (registered_keys : list registered_key) (timeout : option Z)
  : M Dev (gmap string string) :=
  _verify_app_id self app_id;;
  version ← CTAP1.get_version;
  check_registered_keys self app_id version registered_keys;;
  challenge ← lift (find_challenge version register_requests);
  client_data ← lift (ClientData.build
    [("typ", PStr "navigator.id.finishEnrollment");
     ("challenge", PStr challenge);
     ("origin", PStr (origin self))]);
  let app_param := sha256 (str_encode app_id) in
  reg_data ← _call_polling fuel (poll_delay self) timeout
               (CTAP1.register (ClientData.hash client_data) app_param);
  mret ({[ "registrationData" := websafe_encode (reg_raw reg_data);
           "clientData" := ClientData.b64 client_data ]} : gmap string string).

(** The loop of [sign]; it ends at the first key that signs and
    returns the signature with that key. *)
Fixpoint sign_keys (fuel : nat) (self : t) (app_id : string)
    (client_data : ClientData.t) (version : string) (timeout : option Z)
    (registered_keys : list registered_key)
  : M Dev (SignatureData * registered_key) :=
  match registered_keys with
  | [] => raise (ClientError DEVICE_INELIGIBLE)
  | key :: rest =>
      kv ← lift (getitem key "version");
      if String.eqb kv version then
        let key_app_id := default app_id (key !! "appId") in
        _verify_app_id self key_app_id;;
        kh ← lift (getitem key "keyHandle");
        key_handle ← lift (websafe_decode kh);
        let app_param := sha256 (str_encode key_app_id) in
        try_except
          (signature_data ← _call_polling fuel (poll_delay self) timeout
             (CTAP1.authenticate (ClientData.hash client_data) app_param
                (PBytes key_handle) false);
           mret (signature_data, key))
          (λ e, match e with
                | ApduError _ =>
                    Some (sign_keys fuel self app_id client_data version timeout rest)
                | _ => None
                end)
      else sign_keys fuel self app_id client_data version timeout rest
  end.

Definition sign (fuel : nat) (self : t) (app_id : string) (challenge : pyval)
    (registered_keys : list registered_key) (timeout : option Z)
  : M Dev (gmap string string) :=
  client_data ← lift (ClientData.build
    [("typ", PStr "navigator.id.getAssertion");
     ("challenge", challenge);
     ("origin", PStr (origin self))]);
  version ← CTAP1.get_version;
  '(signature_data, key) ← sign_keys fuel self app_id client_data version
                            timeout registered_keys;
  kh ← lift (getitem key "keyHandle");
  mret ({[ "clientData" := ClientData.b64 client_data;
           "signatureData" := websafe_encode (sig_raw signature_data);
           "keyHandle" := kh ]} : gmap string string).
End u2f_client.
End U2fClient.

(** ** Fido2Client *)

(** [CRED_ALGO] *)
Definition ES256 : Z := -7.
Definition RS256 : Z := -257.

(** Truth value of an optional string ([if pin:]). *)
Definition truthy (s : option string) : bool :=
  match s with
  | Some s => negb (String.eqb s "")
  | None => false
  end.

(** Truth value of an optional list ([not allow_list] is its negation). *)
Definition nonempty {A} (l : option (list A)) : bool :=
  match l with
  | Some (_ :: _) => true
  | _ => false
  end.

Module Fido2Client.
(** Which pair of bound methods [__init__] stored in
    [_do_make_credential] and [_do_get_assertion]. *)
Inductive transport := Ctap2 | Ctap1.

Record t := {
  ctap1_poll_delay : Z;
  origin : string;
  _verify : verifier;
  ctap : transport;
}.

Section fido2_client.
Context `{!Utils, !JsonLib, !Rpid} {Dev : Type} `{!U2f Dev, !Fido2 Dev}.

(** [__init__(self, device, origin, verify=verify_rp_id)] *)
Definition __init__ (origin : string) (verify : verifier) : M Dev t :=
  λ w, match CTAP2_new (device w) with
       | Ok _ =>
           Some (Ok {| ctap1_poll_delay := 250; origin := origin;
                       _verify := verify; ctap := Ctap2 |}, w)
       | Raise (ValueError _) =>
           Some (Ok {| ctap1_poll_delay := 250; origin := origin;
                       _verify := verify; ctap := Ctap1 |}, w)
       | Raise e => Some (Raise e, w)
       end.

Definition _verify_rp_id (self : t) (rp_id : string) : M Dev unit :=
  match _verify self rp_id (origin self) with
  | Ok true => mret tt
  | _ => raise (ClientError BAD_REQUEST)
  end.

(** The PIN block, which [_ctap2_make_credential] and
    [_ctap2_get_assertion] both contain verbatim; it yields
    [(pin_auth, pin_protocol)]. *)
Definition pin_block (client_data : ClientData.t) (info : Info)
    (pin : option string) : M Dev (option bytes * option Z) :=
  if truthy pin then
    let pin_protocol := PinProtocolV1_VERSION in
    if negb (bool_decide (pin_protocol ∈ pin_protocols info))
    then raise (ValueError "Device does not support PIN protocol 1!")
    else
      pin_token ← CTAP2.get_pin_token (default "" pin);
      mret (Some (take 16 (hmac_sha256 pin_token (ClientData.hash client_data))),
            Some pin_protocol)
  else if default false (options info !! "clientPin")
  then raise (ValueError "PIN required!")
  else mret (None, None).

(** The options block, likewise shared. *)
Definition options_block (rk uv : bool) : option (list (string * bool)) :=
  if negb (rk || uv) then None
  else Some ((if rk then [("rk", true)] else [])
             ++ (if uv then [("uv", true)] else [])).

Definition _ctap2_make_credential (self : t) (client_data : ClientData.t)
    (rp : gmap string string) (user : pyval) (algos : list Z)
    (exclude_list : option (list descriptor)) (extensions : option pyval)
    (rk uv : bool) (pin : option string) (timeout : option Z)
  : M Dev AttestationObject :=
  let key_params :=
    (λ alg, [("type", PStr "public-key"); ("alg", PInt alg)]) <$> algos in
  info ← CTAP2.get_info;
  '(pin_auth, pin_protocol) ← pin_block client_data info pin;
  let options := options_block rk uv in
  CTAP2.make_credential
    {| mc_client_data_hash := ClientData.hash client_data;
       mc_rp := rp; mc_user := user; mc_key_params := key_params;
       mc_exclude_list := exclude_list; mc_extensions := extensions;
       mc_options := options; mc_pin_auth := pin_auth;
       mc_pin_protocol := pin_protocol; mc_timeout := timeout |}.

(** The loop of [_ctap1_make_credential] over [exclude_list or []]. *)
Fixpoint check_exclude_list (app_param : bytes)
    (exclude_list : list descriptor) : M Dev unit :=
  match exclude_list with
  | [] => mret tt
  | cred :: rest =>
      key_handle ← lift (getitem cred "id");
      try_except
        (CTAP1.authenticate dummy_param app_param key_handle true;;
         raise (CtapError CREDENTIAL_EXCLUDED))
        (λ e, match e with
              | ApduError code =>
                  Some (if (code =? USE_NOT_SATISFIED)%Z
                        then raise (CtapError CREDENTIAL_EXCLUDED)
                        else mret tt)
              | _ => None
              end);;
      check_exclude_list app_param rest
  end.

(** The attestation object [_ctap1_make_credential] returns for a
    registration response. *)
Definition u2f_attestation (app_param : bytes) (reg_resp : RegistrationData)
  : AttestationObject :=
  {| fmt := "fido-u2f";
     auth_data :=
       {| rp_id_hash := app_param;
          flags := 0x41;
          sign_count := 0;
          credential_data := Some
            {| aaguid := replicate 16 x00;
               credential_id := key_handle reg_resp;
               cose_key :=
                 [(1, PInt 2);
                  (3, PInt (-7));
                  (-1, PInt 1);
                  (-2, PBytes (take 32 (drop 1 (public_key reg_resp))));
                  (-3, PBytes (take 32 (drop 33 (public_key reg_resp))))]%Z |} |};
     att_statement :=
       [("x5c", PList [PBytes (certificate reg_resp)]);
        ("sig", PBytes (reg_signature reg_resp))] |}.

Definition _ctap1_make_credential (fuel : nat) (self : t)
    (client_data : ClientData.t)
    (rp : gmap string string) (user : pyval) (algos : list Z)
    (exclude_list : option (list descriptor)) (extensions : option pyval)
    (rk uv : bool) (pin : option string) (timeout : option Z)
  : M Dev AttestationObject :=
  if rk || uv then raise (CtapError UNSUPPORTED_OPTION)
  else
    rp_id ← lift (getitem rp "id");
    let app_param := sha256 (str_encode rp_id) in
    check_exclude_list app_param (default [] exclude_list);;
    reg_resp ← _call_polling fuel (ctap1_poll_delay self) timeout
                 (CTAP1.register (ClientData.hash client_data) app_param);
    mret (u2f_attestation app_param reg_resp).

Definition _do_make_credential (fuel : nat) (self : t) :=
  match ctap self with
  | Ctap2 => _ctap2_make_credential self
  | Ctap1 => _ctap1_make_credential fuel self
  end.

Definition make_credential (fuel : nat) (self : t)
    (rp : gmap string string) (user : pyval) (challenge : pyval)
    (algos : list Z)
    (exclude_list : option (list descriptor)) (extensions : option pyval)
    (rk uv : bool) (pin : option string) (timeout : option Z)
  : M Dev (AttestationObject * ClientData.t) :=
  rp_id ← lift (getitem rp "id");
  _verify_rp_id self rp_id;;
  client_data ← lift (ClientData.build
    [("type", PStr "webauthn.create");
     ("clientExtensions", PDict []);
     ("challenge", challenge);
     ("origin", PStr (origin self))]);
  attestation ← _do_make_credential fuel self client_data rp user algos
                  exclude_list extensions rk uv pin timeout;
  mret (attestation, client_data).

(** The loop [for _ in range(n): assertions.append(get_next_assertion())]. *)
Fixpoint get_next_assertions (n : nat) (assertions : list AssertionResponse)
  : M Dev (list AssertionResponse) :=
  match n with
  | O => mret assertions
  | S n' =>
      a ← CTAP2.get_next_assertion;
      get_next_assertions n' (assertions ++ [a])
  end.

(** [x or 1] on an optional integer. *)
Definition or_1 (x : option Z) : Z :=
  match x with
  | Some n => if (n =? 0)%Z then 1%Z else n
  | None => 1%Z
  end.

Definition _ctap2_get_assertion (self : t) (client_data : ClientData.t)
    (rp_id : string) (allow_list : option (list descriptor))
    (extensions : option pyval) (rk uv : bool) (pin : option string)
    (timeout : option Z) : M Dev (list AssertionResponse) :=
  info ← CTAP2.get_info;
  '(pin_auth, pin_protocol) ← pin_block client_data info pin;
  let options := options_block rk uv in
  first ← CTAP2.get_assertion
    {| ga_rp_id := rp_id;
       ga_client_data_hash := ClientData.hash client_data;
       ga_allow_list := allow_list; ga_extensions := extensions;
       ga_options := options; ga_pin_auth := pin_auth;
       ga_pin_protocol := pin_protocol; ga_timeout := timeout |};
  get_next_assertions (Z.to_nat (or_1 (number_of_credentials first) - 1)) [first].

(** The loop of [_ctap1_get_assertion] over [allow_list]. *)
Fixpoint try_allow_list (fuel : nat) (self : t) (client_param app_param : bytes)
    (timeout : option Z) (allow_list : list descriptor)
  : M Dev (list AssertionResponse) :=
  match allow_list with
  | [] => raise (CtapError NO_CREDENTIALS)
  | cred :: rest =>
      try_except
        (key_handle ← lift (getitem cred "id");
         auth_resp ← _call_polling fuel (ctap1_poll_delay self) timeout
                       (CTAP1.authenticate client_param app_param key_handle false);
         mret [ {| credential := Some cred;
                   assertion_auth_data :=
                     {| rp_id_hash := app_param;
                        flags := Z.land (user_presence auth_resp) 0x01;
                        sign_count := counter auth_resp;
                        credential_data := None |};
                   assertion_signature := sig_signature auth_resp;
                   user := None;
                   number_of_credentials := None |} ])
        (λ e, match e with
              | ApduError _ =>
                  Some (try_allow_list fuel self client_param app_param timeout rest)
              | _ => None
              end)
  end.

Definition _ctap1_get_assertion (fuel : nat) (self : t)
    (client_data : ClientData.t)
    (rp_id : string) (allow_list : option (list descriptor))
    (extensions : option pyval) (rk uv : bool) (pin : option string)
    (timeout : option Z) : M Dev (list AssertionResponse) :=
  if rk || uv || negb (nonempty allow_list)
  then raise (CtapError UNSUPPORTED_OPTION)
  else
    let app_param := sha256 (str_encode rp_id) in
    let client_param := ClientData.hash client_data in
    try_allow_list fuel self client_param app_param timeout (default [] allow_list).

Definition _do_get_assertion (fuel : nat) (self : t) :=
  match ctap self with
  | Ctap2 => _ctap2_get_assertion self
  | Ctap1 => _ctap1_get_assertion fuel self
  end.

Definition get_assertion (fuel : nat) (self : t) (rp_id : string)
    (challenge : pyval) (allow_list : option (list descriptor))
    (extensions : option pyval) (rk uv : bool) (pin : option string)
    (timeout : option Z) : M Dev (list AssertionResponse * ClientData.t) :=
  _verify_rp_id self rp_id;;
  client_data ← lift (ClientData.build
    [("type", PStr "webauthn.get");
     ("clientExtensions", PDict []);
     ("challenge", challenge);
     ("origin", PStr (origin self))]);
  assertions ← _do_get_assertion fuel self client_data rp_id allow_list
                 extensions rk uv pin timeout;
  mret (assertions, client_data).
End fido2_client.
End Fido2Client.


(** * Reference collaborators

    One implementation of each interface, used to run the model on
    concrete ceremonies: SHA-256 and HMAC (FIPS 180-4, RFC 2104), unpadded
    base64url, Python's [json] on the values of [pyval], and a scripted
    authenticator. *)

Module SHA256.
Open Scope N_scope.

Definition w32 (x : N) : N := N.land x 0xFFFFFFFF.
Definition add32 (x y : N) : N := w32 (x + y).
Definition rotr (n x : N) : N := N.lor (N.shiftr x n) (w32 (N.shiftl x (32 - n))).
Definition shr (n x : N) : N := N.shiftr x n.
Definition not32 (x : N) : N := N.lxor x 0xFFFFFFFF.
Definition Ch (x y z : N) : N := N.lxor (N.land x y) (N.land (not32 x) z).
Definition Maj (x y z : N) : N :=
  N.lxor (N.lxor (N.land x y) (N.land x z)) (N.land y z).
Definition Sigma0 x := N.lxor (N.lxor (rotr 2 x) (rotr 13 x)) (rotr 22 x).
Definition Sigma1 x := N.lxor (N.lxor (rotr 6 x) (rotr 11 x)) (rotr 25 x).
Definition sigma0 x := N.lxor (N.lxor (rotr 7 x) (rotr 18 x)) (shr 3 x).
Definition sigma1 x := N.lxor (N.lxor (rotr 17 x) (rotr 19 x)) (shr 10 x).

(** The round constants and the initial hash value (FIPS 180-4, 4.2.2
    and 5.3.3): the first 32 bits of the fractional parts of the cube
    roots, respectively square roots, of the first primes. *)
Definition is_prime (n : N) : bool :=
  (2 <=? n) && forallb (λ d, negb (n mod d =? 0))
                 (filter (λ d, d * d ≤ n) (N.of_nat <$> seq 2 (N.to_nat n - 2))).

Definition primes : list N := filter (λ n, is_prime n = true) (N.of_nat <$> seq 2 310).

(** The integer cube root of a number below 2^123, bit by bit. *)
Definition cube_root (n : N) : N :=
  fold_left (λ r b, let r' := r + N.shiftl 1 (N.of_nat b) in
                    if r' * r' * r' <=? n then r' else r)
            (reverse (seq 0 41)) 0.

Definition K : list N :=
  Eval vm_compute in (λ p, w32 (cube_root (N.shiftl p 96))) <$> primes.

Definition H0 : list N :=
  Eval vm_compute in (λ p, w32 (N.sqrt (N.shiftl p 64))) <$> take 8 primes.

Fixpoint be_to_N (bs : bytes) (acc : N) : N :=
  match bs with
  | [] => acc
  | b :: bs' => be_to_N bs' (acc * 256 + Byte.to_N b)
  end.

Definition byte_of_N (n : N) : byte :=
  match Byte.of_N (N.land n 0xFF) with
  | Some b => b
  | None => x00
  end.

Fixpoint N_to_be (len : nat) (n : N) : bytes :=
  match len with
  | O => []
  | S len' => byte_of_N (N.shiftr n (8 * N.of_nat len')) :: N_to_be len' n
  end.

Definition pad (msg : bytes) : bytes :=
  let l := length msg in
  let k := ((64 - ((l + 9) mod 64)) mod 64)%nat in
  msg ++ [x80] ++ replicate k x00 ++ N_to_be 8 (8 * N.of_nat l).

Fixpoint words (n : nat) (bs : bytes) : list N :=
  match n with
  | O => []
  | S n' => be_to_N (take 4 bs) 0 :: words n' (drop 4 bs)
  end.

(** [w] holds the sixteen most recent schedule words, oldest first. *)
Fixpoint schedule (n : nat) (w : list N) : list N :=
  match n with
  | O => []
  | S n' =>
      let at_ i := nth i w 0 in
      let x := add32 (add32 (sigma1 (at_ 14%nat)) (at_ 9%nat))
                     (add32 (sigma0 (at_ 1%nat)) (at_ 0%nat)) in
      x :: schedule n' (drop 1 w ++ [x])
  end.

Definition round (s : list N) (kw : N * N) : list N :=
  match s with
  | [a; b; c; d; e; f; g; h] =>
      let t1 := add32 (add32 (add32 h (Sigma1 e)) (add32 (Ch e f g) (fst kw))) (snd kw) in
      let t2 := add32 (Sigma0 a) (Maj a b c) in
      [add32 t1 t2; a; b; c; add32 d t1; e; f; g]
  | _ => s
  end.

Definition compress (h : list N) (block : bytes) : list N :=
  let w16 := words 16 block in
  let w := w16 ++ schedule 48 w16 in
  zip_with add32 h (fold_left round (zip K w) h).

Fixpoint blocks (n : nat) (h : list N) (bs : bytes) : list N :=
  match n with
  | O => h
  | S n' => blocks n' (compress h (take 64 bs)) (drop 64 bs)
  end.

Definition digest (msg : bytes) : bytes :=
  let p := pad msg in
  mjoin (N_to_be 4 <$> blocks (length p / 64) H0 p).

Definition hmac (key msg : bytes) : bytes :=
  let key' := if decide (64 < length key)%nat then digest key else key in
  let key'' := key' ++ replicate (64 - length key') x00 in
  let xor_with c := (λ b, byte_of_N (N.lxor (Byte.to_N b) c)) <$> key'' in
  digest (xor_with 0x5c ++ digest (xor_with 0x36 ++ msg)).
End SHA256.

Module Base64url.
Open Scope N_scope.

Definition alphabet : string :=
  "ABCDEFGHIJKLMNOPQRSTUVWXYZabcdefghijklmnopqrstuvwxyz0123456789-_".

Definition enc6 (n : N) : ascii :=
  match String.get (N.to_nat (N.land n 63)) alphabet with
  | Some c => c
  | None => "A"%char
  end.

Definition dec6 (c : ascii) : option N :=
  let n := N_of_ascii c in
  if (65 <=? n) && (n <=? 90) then Some (n - 65)
  else if (97 <=? n) && (n <=? 122) then Some (n - 71)
  else if (48 <=? n) && (n <=? 57) then Some (n + 4)
  else if n =? 45 then Some 62
  else if n =? 95 then Some 63
  else None.

Fixpoint encode (bs : bytes) : string :=
  match bs with
  | [] => EmptyString
  | [a] =>
      let n := Byte.to_N a in
      String (enc6 (N.shiftr n 2)) (String (enc6 (N.shiftl n 4)) EmptyString)
  | [a; b] =>
      let n := Byte.to_N a * 256 + Byte.to_N b in
      String (enc6 (N.shiftr n 10)) (String (enc6 (N.shiftr n 4))
        (String (enc6 (N.shiftl n 2)) EmptyString))
  | a :: b :: c :: rest =>
      let n := (Byte.to_N a * 256 + Byte.to_N b) * 256 + Byte.to_N c in
      String (enc6 (N.shiftr n 18)) (String (enc6 (N.shiftr n 12))
        (String (enc6 (N.shiftr n 6)) (String (enc6 n) (encode rest))))
  end.

Fixpoint sextets (s : string) : option (list N) :=
  match s with
  | EmptyString => Some []
  | String c r => n ← dec6 c; ns ← sextets r; Some (n :: ns)
  end.

Fixpoint group (fuel : nat) (ns : list N) : option bytes :=
  match fuel, ns with
  | _, [] => Some []
  | _, [_] => None
  | _, [a; b] => Some [SHA256.byte_of_N (N.shiftr (a * 64 + b) 4)]
  | _, [a; b; c] =>
      let n := (a * 64 + b) * 64 + c in
      Some [SHA256.byte_of_N (N.shiftr n 10); SHA256.byte_of_N (N.shiftr n 2)]
  | S fuel', a :: b :: c :: d :: rest =>
      let n := ((a * 64 + b) * 64 + c) * 64 + d in
      r ← group fuel' rest;
      Some (SHA256.byte_of_N (N.shiftr n 16) :: SHA256.byte_of_N (N.shiftr n 8)
            :: SHA256.byte_of_N n :: r)
  | O, _ => None
  end.

(** Text over the base64url alphabet whose length is not 1 modulo 4;
    anything else is [None]. *)
Definition decode (s : string) : option bytes :=
  ns ← sextets s; group (length ns) ns.
End Base64url.

Module Json.
Open Scope string_scope.
Open Scope N_scope.

Definition dquote : ascii := "034"%char.

Definition hexdigit (n : N) : ascii :=
  ascii_of_N (if n <? 10 then 48 + n else 87 + n).

Definition u_escape (cp : N) : string :=
  "\u" +:+ String (hexdigit (N.land (N.shiftr cp 12) 15))
            (String (hexdigit (N.land (N.shiftr cp 8) 15))
              (String (hexdigit (N.land (N.shiftr cp 4) 15))
                (String (hexdigit (N.land cp 15)) EmptyString))).

Definition escape_cp (cp : N) : string :=
  if cp <? 0x10000 then u_escape cp
  else let v := cp - 0x10000 in
       u_escape (0xD800 + N.shiftr v 10) +:+ u_escape (0xDC00 + N.land v 0x3FF).

(** The text of a str is held as its UTF-8 bytes; [escape] walks it one
    code point at a time, as the encoder does under ensure_ascii. *)
Fixpoint escape (fuel : nat) (s : string) : string :=
  match fuel, s with
  | S fuel', String c r =>
      let n := N_of_ascii c in
      let cont k := N.land (N_of_ascii (default "000"%char (String.get k r))) 0x3F in
      let skip k := String.substring k (String.length r) r in
      if n =? 34 then "\" +:+ String dquote (escape fuel' r)
      else if n =? 92 then "\\" +:+ escape fuel' r
      else if n =? 10 then "\n" +:+ escape fuel' r
      else if n =? 13 then "\r" +:+ escape fuel' r
      else if n =? 9 then "\t" +:+ escape fuel' r
      else if n =? 8 then "\b" +:+ escape fuel' r
      else if n =? 12 then "\f" +:+ escape fuel' r
      else if (32 <=? n) && (n <=? 126) then String c (escape fuel' r)
      else if n <? 0x80 then u_escape n +:+ escape fuel' r
      else if n <? 0xE0 then
        escape_cp (N.land n 0x1F * 64 + cont 0%nat) +:+ escape fuel' (skip 1%nat)
      else if n <? 0xF0 then
        escape_cp ((N.land n 0x0F * 64 + cont 0%nat) * 64 + cont 1%nat)
          +:+ escape fuel' (skip 2%nat)
      else
        escape_cp (((N.land n 0x07 * 64 + cont 0%nat) * 64 + cont 1%nat) * 64 + cont 2%nat)
          +:+ escape fuel' (skip 3%nat)
  | _, _ => EmptyString
  end.

Definition quote (s : string) : string :=
  String dquote (escape (String.length s) s) +:+ String dquote EmptyString.

(** [json.dumps] with the default separators; [None] for a value that
    is not JSON serializable ([bytes]). *)
Fixpoint dumps (v : pyval) : option string :=
  match v with
  | PNone => Some "null"
  | PBool true => Some "true"
  | PBool false => Some "false"
  | PInt n => Some (pretty n)
  | PStr s => Some (quote s)
  | PBytes _ => None
  | PList l =>
      items ← (fix go l := match l with
                           | [] => Some []
                           | x :: l' => a ← dumps x; r ← go l'; Some (a :: r)
                           end) l;
      Some ("[" +:+ String.concat ", " items +:+ "]")
  | PDict d =>
      items ← (fix go d := match d with
                           | [] => Some []
                           | (k, x) :: d' =>
                               a ← dumps x; r ← go d';
                               Some ((quote k +:+ ": " +:+ a) :: r)
                           end) d;
      Some ("{" +:+ String.concat ", " items +:+ "}")
  end.

Fixpoint skip_ws (s : string) : string :=
  match s with
  | String c r =>
      let n := N_of_ascii c in
      if (n =? 32) || (n =? 9) || (n =? 10) || (n =? 13) then skip_ws r else s
  | _ => s
  end.

Definition unhex (c : ascii) : option N :=
  let n := N_of_ascii c in
  if (48 <=? n) && (n <=? 57) then Some (n - 48)
  else if (97 <=? n) && (n <=? 102) then Some (n - 87)
  else if (65 <=? n) && (n <=? 70) then Some (n - 55)
  else None.

Definition hex4 (s : string) : option (N * string) :=
  match s with
  | String a (String b (String c (String d r))) =>
      x ← unhex a; y ← unhex b; z ← unhex c; w ← unhex d;
      Some (((x * 16 + y) * 16 + z) * 16 + w, r)
  | _ => None
  end.

Definition utf8 (cp : N) : string :=
  let ch n := ascii_of_N n in
  let tail k := ch (0x80 + N.land (N.shiftr cp (6 * k)) 0x3F) in
  if cp <? 0x80 then String (ch cp) EmptyString
  else if cp <? 0x800 then
    String (ch (0xC0 + N.shiftr cp 6)) (String (tail 0) EmptyString)
  else if cp <? 0x10000 then
    String (ch (0xE0 + N.shiftr cp 12)) (String (tail 1) (String (tail 0) EmptyString))
  else String (ch (0xF0 + N.shiftr cp 18))
         (String (tail 2) (String (tail 1) (String (tail 0) EmptyString))).

(** The characters of a string literal after its opening quote. *)
Fixpoint scan_string (fuel : nat) (s : string) : option (string * string) :=
  match fuel, s with
  | S fuel', String c r =>
      let n := N_of_ascii c in
      if n =? 34 then Some (EmptyString, r)
      else if n =? 92 then
        match r with
        | String e r' =>
            let m := N_of_ascii e in
            let lit (x : N) :=
              '(t, q) ← scan_string fuel' r'; Some (String (ascii_of_N x) t, q) in
            if m =? 34 then lit 34
            else if m =? 92 then lit 92
            else if m =? 47 then lit 47
            else if m =? 98 then lit 8
            else if m =? 102 then lit 12
            else if m =? 110 then lit 10
            else if m =? 114 then lit 13
            else if m =? 116 then lit 9
            else if m =? 117 then
              '(hi, r1) ← hex4 r';
              if (0xD800 <=? hi) && (hi <? 0xDC00) then
                match r1 with
                | String b1 (String b2 r2) =>
                    if (N_of_ascii b1 =? 92) && (N_of_ascii b2 =? 117) then
                      '(lo, r3) ← hex4 r2;
                      if (0xDC00 <=? lo) && (lo <? 0xE000) then
                        '(t, q) ← scan_string fuel' r3;
                        Some (utf8 (0x10000 + (hi - 0xD800) * 1024 + (lo - 0xDC00)) +:+ t, q)
                      else None
                    else None
                | _ => None
                end
              else if (0xDC00 <=? hi) && (hi <? 0xE000) then None
              else '(t, q) ← scan_string fuel' r1; Some (utf8 hi +:+ t, q)
            else None
        | _ => None
        end
      else if n <? 32 then None
      else '(t, q) ← scan_string fuel' r; Some (String c t, q)
  | _, _ => None
  end.

Fixpoint scan_digits (s : string) (acc : N) : N * string :=
  match s with
  | String c r =>
      let n := N_of_ascii c in
      if (48 <=? n) && (n <=? 57) then scan_digits r (acc * 10 + (n - 48)) else (acc, s)
  | _ => (acc, s)
  end.

Definition starts (p s : string) : option string :=
  if String.prefix p s
  then Some (String.substring (String.length p) (String.length s) s)
  else None.

Definition is_digit (s : string) : bool :=
  match s with
  | String c _ => (48 <=? N_of_ascii c) && (N_of_ascii c <=? 57)
  | _ => false
  end.

(** [d[k] = v] on an insertion-ordered dict: a repeated key keeps its
    place and takes the new value. *)
Fixpoint dict_set (k : string) (v : pyval) (d : list (string * pyval))
  : list (string * pyval) :=
  match d with
  | [] => [(k, v)]
  | (k', v') :: d' =>
      if String.eqb k k' then (k, v) :: d' else (k', v') :: dict_set k v d'
  end.

Fixpoint parse_value (fuel : nat) (s : string) : option (pyval * string) :=
  match fuel with
  | O => None
  | S fuel' =>
      let s := skip_ws s in
      let fix elements (n : nat) (s : string) (acc : list pyval) :=
        match n with
        | O => None
        | S n' =>
            '(v, r) ← parse_value fuel' s;
            match skip_ws r with
            | String c r' =>
                if N_of_ascii c =? 44 then elements n' r' (app acc [v])
                else if N_of_ascii c =? 93 then Some (PList (app acc [v]), r')
                else None
            | _ => None
            end
        end in
      let fix members (n : nat) (s : string) (acc : list (string * pyval)) :=
        match n with
        | O => None
        | S n' =>
            match skip_ws s with
            | String q r0 =>
                if N_of_ascii q =? 34 then
                  '(k, r1) ← scan_string (String.length r0) r0;
                  match skip_ws r1 with
                  | String c r2 =>
                      if N_of_ascii c =? 58 then
                        '(v, r3) ← parse_value fuel' r2;
                        match skip_ws r3 with
                        | String d r4 =>
                            if N_of_ascii d =? 44 then members n' r4 (dict_set k v acc)
                            else if N_of_ascii d =? 125 then
                              Some (PDict (dict_set k v acc), r4)
                            else None
                        | _ => None
                        end
                      else None
                  | _ => None
                  end
                else None
            | _ => None
            end
        end in
      match s with
      | String c r =>
          let n := N_of_ascii c in
          if n =? 123 then
            match skip_ws r with
            | String d r' => if N_of_ascii d =? 125 then Some (PDict [], r')
                             else members fuel' r []
            | _ => None
            end
          else if n =? 91 then
            match skip_ws r with
            | String d r' => if N_of_ascii d =? 93 then Some (PList [], r')
                             else elements fuel' r []
            | _ => None
            end
          else if n =? 34 then
            '(t, q) ← scan_string (String.length r) r; Some (PStr t, q)
          else if n =? 45 then
            if is_digit r then
              let '(m, q) := scan_digits r 0 in Some (PInt (- Z.of_N m), q)
            else None
          else if is_digit s then
            let '(m, q) := scan_digits s 0 in Some (PInt (Z.of_N m), q)
          else match starts "true" s, starts "false" s, starts "null" s with
               | Some q, _, _ => Some (PBool true, q)
               | _, Some q, _ => Some (PBool false, q)
               | _, _, Some q => Some (PNone, q)
               | _, _, _ => None
               end
      | _ => None
      end
  end.

(** [json.loads] on documents of objects, arrays, strings, integers,
    booleans and null; [None] stands for [JSONDecodeError]. *)
Definition loads (s : string) : option pyval :=
  '(v, r) ← parse_value (S (String.length s)) s;
  match skip_ws r with
  | EmptyString => Some v
  | _ => None
  end.
End Json.

Module Reference.
Definition utils : Utils :=
  {| sha256 := SHA256.digest;
     hmac_sha256 := SHA256.hmac;
     websafe_encode := Base64url.encode;
     websafe_decode s :=
       match Base64url.decode s with
       | Some b => Ok b
       | None => Raise (ValueError "Incorrect padding")
       end |}.

Definition json : JsonLib :=
  {| json_dumps v :=
       match Json.dumps v with
       | Some s => Ok s
       | None => Raise (TypeError "Object of type bytes is not JSON serializable")
       end;
     json_loads s :=
       match Json.loads s with
       | Some v => Ok v
       | None => Raise (ValueError "Expecting value")
       end |}.

(** A verifier for the ceremonies run below: the identifier is the
    origin itself, or the origin is https:// followed by it. *)
Definition same_site (id origin : string) : result bool :=
  Ok (String.eqb id origin || String.eqb ("https://" +:+ id) origin).

Definition rpid : Rpid :=
  {| verify_rp_id := same_site; verify_app_id := same_site |}.

(** A scripted authenticator: each command takes the next reply of its
    queue; a command whose queue is empty finds the device gone. *)
Record script := {
  s_version : string;
  s_register : list (result RegistrationData * N);
  s_authenticate : list (result SignatureData * N);
  s_ctap2 : bool;
  s_info : Info;
  s_pin_token : list (result bytes);
  s_make_credential : list (result AttestationObject);
  s_assertions : list (result AssertionResponse);
}.

Definition gone {A} : result A := Raise (PyException "OSError" "device gone").

Definition u2f : U2f script :=
  {| USE_NOT_SATISFIED := 0x6985;
     dev_get_version d := (Ok (s_version d), d, 1%N);
     dev_register _ _ d :=
       match s_register d with
       | (r, dt) :: q =>
           (r, {| s_version := s_version d; s_register := q;
                  s_authenticate := s_authenticate d; s_ctap2 := s_ctap2 d;
                  s_info := s_info d; s_pin_token := s_pin_token d;
                  s_make_credential := s_make_credential d;
                  s_assertions := s_assertions d |}, dt)
       | [] => (gone, d, 0%N)
       end;
     dev_authenticate _ _ _ _ d :=
       match s_authenticate d with
       | (r, dt) :: q =>
           (r, {| s_version := s_version d; s_register := s_register d;
                  s_authenticate := q; s_ctap2 := s_ctap2 d;
                  s_info := s_info d; s_pin_token := s_pin_token d;
                  s_make_credential := s_make_credential d;
                  s_assertions := s_assertions d |}, dt)
       | [] => (gone, d, 0%N)
       end |}.

Definition next_assertion (d : script) : reply script AssertionResponse :=
  match s_assertions d with
  | r :: q =>
      (r, {| s_version := s_version d; s_register := s_register d;
             s_authenticate := s_authenticate d; s_ctap2 := s_ctap2 d;
             s_info := s_info d; s_pin_token := s_pin_token d;
             s_make_credential := s_make_credential d;
             s_assertions := q |}, 1%N)
  | [] => (gone, d, 0%N)
  end.

Definition fido2 : Fido2 script :=
  {| CTAP2_new d :=
       if s_ctap2 d then Ok tt
       else Raise (ValueError "Device does not support CTAP2.");
     dev_get_info d := (Ok (s_info d), d, 1%N);
     dev_get_pin_token _ d :=
       match s_pin_token d with
       | r :: q =>
           (r, {| s_version := s_version d; s_register := s_register d;
                  s_authenticate := s_authenticate d; s_ctap2 := s_ctap2 d;
                  s_info := s_info d; s_pin_token := q;
                  s_make_credential := s_make_credential d;
                  s_assertions := s_assertions d |}, 1%N)
       | [] => (gone, d, 0%N)
       end;
     dev_make_credential _ d :=
       match s_make_credential d with
       | r :: q =>
           (r, {| s_version := s_version d; s_register := s_register d;
                  s_authenticate := s_authenticate d; s_ctap2 := s_ctap2 d;
                  s_info := s_info d; s_pin_token := s_pin_token d;
                  s_make_credential := q;
                  s_assertions := s_assertions d |}, 1%N)
       | [] => (gone, d, 0%N)
       end;
     dev_get_assertion _ := next_assertion;
     dev_get_next_assertion := next_assertion |}.

Definition start (d : script) : World script :=
  {| now := 0; device := d; log := [] |}.
End Reference.

(** * Vocabulary of the statements

    The predicates the theorems are stated with: what a run leaves in the
    transcript, the polling driver as the specification words it, the
    shapes of the probes, and the claims that fail, as worded. *)

Section transcripts.
Context {Dev : Type}.

(** [traces m Q]: a run of [m] only appends to the transcript, and its
    result and the exchanges it appended satisfy [Q]. *)
Definition traces {A} (m : M Dev A) (Q : result A → list Exchange → Prop) : Prop :=
  ∀ w r w', m w = Some (r, w') → ∃ l, log w' = log w ++ l ∧ Q r l.

(** The world after sleeping for [delay] or until [deadline], whichever
    comes first. *)
Definition slept (delay deadline : Z) (w : World Dev) : World Dev :=
  {| now := now w + Z.min (Z.max 0 delay) (Z.max 0 (deadline - now w));
     device := device w;
     log := log w |}.

(** The world once [get_info] has been answered. *)
Definition informed (w : World Dev) (info : Info) (d : Dev) (dt : N) : World Dev :=
  {| now := now w + Z.of_N dt; device := d; log := log w ++ [XGetInfo (Ok info)] |}.
End transcripts.

Section polling_terms.
Context {Dev : Type} `{!U2f Dev} {A : Type}.

(** The driver as the specification words it (section 4.2): invoke the
    operation; on success return; on USE_NOT_SATISFIED sleep and retry;
    any other failure propagates; on budget exhaustion fail with
    TIMEOUT. *)
Inductive polls (delay deadline : Z) (op : M Dev A)
  : World Dev → result A → World Dev → Prop :=
| polls_exhausted w :
    (deadline ≤ now w)%Z →
    polls delay deadline op w (Raise (ClientError TIMEOUT)) w
| polls_success w a w' :
    (now w < deadline)%Z →
    op w = Some (Ok a, w') →
    polls delay deadline op w (Ok a) w'
| polls_failure w e w' :
    (now w < deadline)%Z →
    op w = Some (Raise e, w') →
    e ≠ ApduError USE_NOT_SATISFIED →
    polls delay deadline op w (Raise e) w'
| polls_retry w w1 r w' :
    (now w < deadline)%Z →
    op w = Some (Raise (ApduError USE_NOT_SATISFIED), w1) →
    polls delay deadline op (slept delay deadline w1) r w' →
    polls delay deadline op w r w'.

(** An operation that always answers and never turns the clock back. *)
Definition responsive (op : M Dev A) : Prop :=
  ∀ w, ∃ r w', op w = Some (r, w') ∧ (now w ≤ now w')%Z.
End polling_terms.

(** C2, as the specification words it, for the operation that sends
    register: under timeout 0 the transcript grows by at most one
    exchange, and a lone USE_NOT_SATISFIED ends in TIMEOUT. *)
Definition single_attempt_at_timeout_zero {Dev} `{!U2f Dev} : Prop :=
  ∀ fuel poll_delay c a (w : World Dev) r w',
    _call_polling fuel poll_delay (Some 0%Z) (CTAP1.register c a) w = Some (r, w') →
    ∃ l, log w' = log w ++ l ∧ length l ≤ 1
         ∧ (l = [XRegister c a (Raise (ApduError USE_NOT_SATISFIED))] →
            r = Raise (ClientError TIMEOUT)).


Definition is_register (x : Exchange) : Prop :=
  match x with
  | XRegister _ _ _ => True
  | _ => False
  end.

(** A check-only authenticate with 32 zero bytes as challenge. *)
Definition is_probe (x : Exchange) : Prop :=
  ∃ app_param key_handle r, x = XAuthenticate dummy_param app_param key_handle true r.

(** The challenge parameter of a register command, and of an
    authenticate command that asks for a signature, is [h]; a
    check-only authenticate carries 32 zero bytes. *)
Definition challenge_follows (h : bytes) (x : Exchange) : Prop :=
  match x with
  | XRegister c _ _ => c = h
  | XAuthenticate c _ _ check_only _ =>
      if check_only then c = replicate 32 x00 else c = h
  | _ => True
  end.

Definition challenge_parameter (x : Exchange) : option bytes :=
  match x with
  | XRegister c _ _ | XAuthenticate c _ _ _ _ => Some c
  | _ => None
  end.

Section probe_terms.
Context `{!Utils} {Dev : Type} `{!U2f Dev}.

(** What a check-only probe makes of the device's answer [r0], when an
    answer or USE_NOT_SATISFIED is to raise [exc]. *)
Definition probe_outcome (exc : exn) (r0 : result SignatureData) (r : result unit)
  : Prop :=
  match r0 with
  | Ok _ => r = Raise exc
  | Raise (ApduError code) =>
      if decide (code = USE_NOT_SATISFIED) then r = Raise exc else r = Ok tt
  | Raise e => r = Raise e
  end.

(** The probe came back with a response or with USE_NOT_SATISFIED. *)
Definition answered (x : Exchange) : Prop :=
  match x with
  | XAuthenticate _ _ _ _ (Ok _) => True
  | XAuthenticate _ _ _ _ (Raise e) => e = ApduError USE_NOT_SATISFIED
  | _ => False
  end.

(** The probe failed with another status word. *)
Definition ignored (x : Exchange) : Prop :=
  match x with
  | XAuthenticate _ _ _ _ (Raise (ApduError code)) => code ≠ USE_NOT_SATISFIED
  | _ => False
  end.

(** [x] is the check-only authenticate for [key]: 32 zero bytes as
    challenge, the hash of the key's app id (the ceremony's by default)
    and the decoded key handle. *)
Definition probes_key (app_id : string) (key : registered_key) (x : Exchange) : Prop :=
  ∃ kh key_handle r0,
    key !! "keyHandle" = Some kh
    ∧ websafe_decode kh = Ok key_handle
    ∧ x = XAuthenticate (replicate 32 x00)
            (sha256 (str_encode (default app_id (key !! "appId"))))
            (PBytes key_handle) true r0.

Definition of_version (version : string) (key : registered_key) : Prop :=
  key !! "version" = Some version.

#[global] Instance of_version_dec version key : Decision (of_version version key).
Proof. unfold of_version. apply _. Defined.
End probe_terms.

Section ceremony_terms.
Context `{!Utils, !JsonLib, !Rpid} {Dev : Type} `{!U2f Dev}.

(** The client data of [U2fClient.register] and of [U2fClient.sign]. *)
Definition register_client_data (self : U2fClient.t) (challenge : string)
  : result ClientData.t :=
  ClientData.build [("typ", PStr "navigator.id.finishEnrollment");
                    ("challenge", PStr challenge);
                    ("origin", PStr (U2fClient.origin self))].

Definition sign_client_data (self : U2fClient.t) (challenge : pyval)
  : result ClientData.t :=
  ClientData.build [("typ", PStr "navigator.id.getAssertion");
                    ("challenge", challenge);
                    ("origin", PStr (U2fClient.origin self))].

(** C9, as the specification words it, for [U2fClient.register]: every
    challenge parameter sent during a registration that returns, the
    probes included, is the hash of the client data it returns. *)
Definition every_challenge_is_client_data_hash : Prop :=
  ∀ fuel self app_id register_requests registered_keys timeout (w : World Dev)
    res w' b64 cd l i x c,
    U2fClient.register fuel self app_id register_requests registered_keys timeout w
    = Some (Ok res, w') →
    res !! "clientData" = Some b64 →
    ClientData.from_b64 b64 = Ok cd →
    log w' = log w ++ l →
    l !! i = Some x →
    challenge_parameter x = Some c →
    c = ClientData.hash cd.
End ceremony_terms.

(** ** Further vocabulary: keys, credentials and transports *)

Section u2f_terms.
Context `{!Utils} {Dev : Type} `{!U2f Dev}.

(** A request or key that names a version other than [version]. *)
Definition other_version (version : string) (d : gmap string string) : Prop :=
  ∃ v, d !! "version" = Some v ∧ v ≠ version.

(** [x] is the authenticate that asks [key] for a signature over the
    challenge parameter [h], answered by [r0]: the hash of the key's
    app id (the ceremony's by default), the decoded key handle, and no
    check-only flag. *)
Definition asks_signature (app_id : string) (h : bytes) (key : registered_key)
    (r0 : result SignatureData) (x : Exchange) : Prop :=
  ∃ kh key_handle,
    key !! "keyHandle" = Some kh
    ∧ websafe_decode kh = Ok key_handle
    ∧ x = XAuthenticate h (sha256 (str_encode (default app_id (key !! "appId"))))
            (PBytes key_handle) false r0.
End u2f_terms.

Section u2f_sign_terms.
Context `{!Utils} {Dev : Type} `{!U2f Dev}.

(** [x] asked one of [keys], of the device's version, for a signature
    and the device refused with a status word. *)
Definition refused_by (app_id : string) (h : bytes) (version : string)
    (keys : list registered_key) (x : Exchange) : Prop :=
  ∃ key code,
    key ∈ keys ∧ of_version version key
    ∧ asks_signature app_id h key (Raise (ApduError code)) x.
End u2f_sign_terms.

Section ctap1_terms.
Context {Dev : Type} `{!U2f Dev}.

(** [x] is the authenticate that asks the credential [cred] for an
    assertion: challenge parameter [h], application parameter
    [app_param], the credential's id as key handle, not check-only. *)
Definition asks_assertion (h app_param : bytes) (cred : descriptor)
    (r0 : result SignatureData) (x : Exchange) : Prop :=
  ∃ key_handle,
    cred !! "id" = Some key_handle
    ∧ x = XAuthenticate h app_param key_handle false r0.

(** [x] asked one of [creds] for an assertion and the device refused
    with a status word. *)
Definition declined_by (h app_param : bytes) (creds : list descriptor)
    (x : Exchange) : Prop :=
  ∃ cred code,
    cred ∈ creds ∧ asks_assertion h app_param cred (Raise (ApduError code)) x.

(** [x] asked [cred] and the device refused for good, with a status
    word other than USE_NOT_SATISFIED. *)
Definition turned_down (h app_param : bytes) (cred : descriptor)
    (x : Exchange) : Prop :=
  ∃ code, code ≠ USE_NOT_SATISFIED
          ∧ asks_assertion h app_param cred (Raise (ApduError code)) x.

(** [x] is the check-only authenticate for the excluded credential
    [cred]: 32 zero bytes as challenge and the credential's id. *)
Definition probes_credential (app_param : bytes) (cred : descriptor)
    (x : Exchange) : Prop :=
  ∃ key_handle r0,
    cred !! "id" = Some key_handle
    ∧ x = XAuthenticate (replicate 32 x00) app_param key_handle true r0.

(** The assertion [_ctap1_get_assertion] makes of a signature. *)
Definition u2f_assertion (app_param : bytes) (cred : descriptor)
    (auth_resp : SignatureData) : AssertionResponse :=
  {| credential := Some cred;
     assertion_auth_data :=
       {| rp_id_hash := app_param;
          flags := Z.land (user_presence auth_resp) 0x01;
          sign_count := counter auth_resp;
          credential_data := None |};
     assertion_signature := sig_signature auth_resp;
     user := None;
     number_of_credentials := None |}.
End ctap1_terms.

Section ctap2_terms.
Context `{!Utils}.

(** The options a CTAP2 command is sent with, for the flags [rk] and
    [uv]: none when neither is set, otherwise a dict that holds exactly
    the flags that are set, each as true. *)
Definition options_of (rk uv : bool) (o : option (list (string * bool))) : Prop :=
  (o = None ↔ rk = false ∧ uv = false)
  ∧ ∀ d, o = Some d →
      ∀ k v, (k, v) ∈ d ↔ v = true ∧ (k = "rk" ∧ rk = true ∨ k = "uv" ∧ uv = true).

(** The PIN arguments of a CTAP2 command whose client data hashes to
    [h], and the exchanges [pre] that obtained them: without a PIN
    nothing is asked and both are absent; with one, the token is
    fetched and the arguments are the first 16 bytes of the HMAC of the
    hash under the token, and protocol 1. *)
Definition pin_arguments (h : bytes) (pin : option string) (pre : list Exchange)
    (pin_auth : option bytes) (pin_protocol : option Z) : Prop :=
  (truthy pin = false ∧ pre = [] ∧ pin_auth = None ∧ pin_protocol = None)
  ∨ ∃ p pin_token,
      pin = Some p ∧ p ≠ EmptyString
      ∧ pre = [XGetPinToken p (Ok pin_token)]
      ∧ pin_auth = Some (take 16 (hmac_sha256 pin_token h))
      ∧ pin_protocol = Some 1%Z.

Definition is_credential_command (x : Exchange) : Prop :=
  match x with
  | XMakeCredential _ _ | XGetAssertion _ _ | XGetNextAssertion _ => True
  | _ => False
  end.
End ctap2_terms.

(** The commands a Fido2Client sends over each transport: register and
    authenticate over CTAP1 (it never asks for the version), and the
    five CTAP2 commands. *)
Definition on_ctap1 (x : Exchange) : Prop :=
  match x with
  | XRegister _ _ _ | XAuthenticate _ _ _ _ _ => True
  | _ => False
  end.

Definition on_ctap2 (x : Exchange) : Prop :=
  match x with
  | XGetInfo _ | XGetPinToken _ _ | XMakeCredential _ _
  | XGetAssertion _ _ | XGetNextAssertion _ => True
  | _ => False
  end.

Definition on_transport (t : Fido2Client.transport) : Exchange → Prop :=
  match t with
  | Fido2Client.Ctap2 => on_ctap2
  | Fido2Client.Ctap1 => on_ctap1
  end.

Section fido2_terms.
Context `{!Utils, !JsonLib}.

(** The client data of [Fido2Client.make_credential] and of
    [Fido2Client.get_assertion]. *)
Definition create_client_data (self : Fido2Client.t) (challenge : pyval)
  : result ClientData.t :=
  ClientData.build [("type", PStr "webauthn.create");
                    ("clientExtensions", PDict []);
                    ("challenge", challenge);
                    ("origin", PStr (Fido2Client.origin self))].

Definition get_client_data (self : Fido2Client.t) (challenge : pyval)
  : result ClientData.t :=
  ClientData.build [("type", PStr "webauthn.get");
                    ("clientExtensions", PDict []);
                    ("challenge", challenge);
                    ("origin", PStr (Fido2Client.origin self))].
End fido2_terms.

Section answering.
Context {Dev : Type}.

(** [m] answers: from every world it returns or raises, with the fuel
    it was given. *)
Definition answers {A} (m : M Dev A) : Prop :=
  ∀ w, ∃ r w', m w = Some (r, w').
End answering.

Section version_terms.
Context {Dev : Type}.

(** The world once the version query has been answered. *)
Definition versioned (w : World Dev) (version : string) (d : Dev) (dt : N)
  : World Dev :=
  {| now := now w + Z.of_N dt; device := d;
     log := log w ++ [XGetVersion (Ok version)] |}.
End version_terms.

(** * The ceremonies, run *)

Module Ceremonies.
Import Reference.
#[local] Existing Instance utils.
#[local] Existing Instance json.
#[local] Existing Instance rpid.
#[local] Existing Instance u2f.
#[local] Existing Instance fido2.

(** What a run returned and the world it left. *)
Definition returned {A} (run : option (result A * World script)) (d : A) : A :=
  match run with
  | Some (Ok a, _) => a
  | _ => d
  end.

Definition left_world {A} (run : option (result A * World script)) : World script :=
  match run with
  | Some (_, w) => w
  | None => start {| s_version := ""; s_register := []; s_authenticate := [];
                     s_ctap2 := false;
                     s_info := {| pin_protocols := []; options := ∅ |};
                     s_pin_token := []; s_make_credential := [];
                     s_assertions := [] |}
  end.

Definition built (r : result ClientData.t) : ClientData.t :=
  match r with
  | Ok c => c
  | Raise _ => {| ClientData.raw := []; ClientData.data := PNone;
                  ClientData.origin := PNone |}
  end.

Definition reg1 : RegistrationData :=
  {| reg_raw := [x05; x04];
     public_key := x04 :: replicate 32 x11 ++ replicate 32 x22;
     key_handle := [xaa; xbb];
     certificate := [x30; x82];
     reg_signature := [x30; x45] |}.

Definition sig1 : SignatureData :=
  {| sig_raw := [x01; x00; x00; x00; x2a; x30];
     user_presence := 1; counter := 42; sig_signature := [x30] |}.

Definition use_not_satisfied : exn := ApduError 0x6985.
Definition wrong_data : exn := ApduError 0x6A80.

(** A CTAP1 token that wants a touch before it registers or signs. *)
Definition u2f_token (registers : list (result RegistrationData * N))
    (authenticates : list (result SignatureData * N)) : script :=
  {| s_version := "U2F_V2"; s_register := registers;
     s_authenticate := authenticates; s_ctap2 := false;
     s_info := {| pin_protocols := []; options := ∅ |};
     s_pin_token := []; s_make_credential := []; s_assertions := [] |}.

Definition touch_later : script :=
  u2f_token [(Raise use_not_satisfied, 5%N); (Ok reg1, 7%N)] [].

Definition hash_abc : bytes := SHA256.digest (str_encode "abc").
Definition app_example : bytes := SHA256.digest (str_encode "https://example.com").

Definition poll_register : M script RegistrationData :=
  CTAP1.register hash_abc app_example.

(** The runs the theorems are applied to. *)
Definition polled_at_zero := _call_polling 2 250 (Some 0%Z) poll_register (start touch_later).

Definition first_attempt := poll_register (start touch_later).

Definition second_attempt :=
  poll_register (slept 250 30000 (left_world first_attempt)).

Definition enrollment_without_origin : list (string * pyval) :=
  [("typ", PStr "navigator.id.finishEnrollment"); ("challenge", PStr "abc")].

Definition document (kwargs : list (string * pyval)) : string :=
  default "" (Json.dumps (PDict kwargs)).

Definition example_com : gmap string string := {[ "id" := "example.com" ]}.

Definition fido2_over_ctap1 : Fido2Client.t :=
  returned (Fido2Client.__init__ "https://example.com" verify_rp_id
              (start touch_later))
    {| Fido2Client.ctap1_poll_delay := 0; Fido2Client.origin := "";
       Fido2Client._verify := verify_rp_id; Fido2Client.ctap := Fido2Client.Ctap2 |}.

Definition create_data : ClientData.t :=
  built (ClientData.build [("type", PStr "webauthn.create");
                           ("clientExtensions", PDict []);
                           ("challenge", PStr "Y2hhbGxlbmdl");
                           ("origin", PStr "https://example.com")]).

Definition alice : pyval := PDict [("id", PBytes [x01]); ("name", PStr "alice")].

Definition excluded : descriptor :=
  {[ "type" := PStr "public-key"; "id" := PBytes [xcc; xdd] ]}.

Definition token_with_other_credential : script :=
  u2f_token [(Raise use_not_satisfied, 5%N); (Ok reg1, 7%N)]
            [(Raise wrong_data, 3%N)].

Definition made :=
  Fido2Client._ctap1_make_credential 2 fido2_over_ctap1 create_data example_com
    alice [ES256] (Some [excluded]) None false false None None
    (start token_with_other_credential).

Definition no_attestation : AttestationObject :=
  {| fmt := "";
     auth_data := {| rp_id_hash := []; flags := 0; sign_count := 0;
                     credential_data := None |};
     att_statement := [] |}.

Definition ctap2_key (info : Info) (pin_tokens : list (result bytes))
    (assertions : list (result AssertionResponse)) : script :=
  {| s_version := "U2F_V2"; s_register := []; s_authenticate := [];
     s_ctap2 := true; s_info := info; s_pin_token := pin_tokens;
     s_make_credential := [Ok no_attestation]; s_assertions := assertions |}.

Definition fido2_over_ctap2 : Fido2Client.t :=
  returned (Fido2Client.__init__ "https://example.com" verify_rp_id
              (start (ctap2_key {| pin_protocols := [1%Z]; options := ∅ |} [] [])))
    {| Fido2Client.ctap1_poll_delay := 0; Fido2Client.origin := "";
       Fido2Client._verify := verify_rp_id; Fido2Client.ctap := Fido2Client.Ctap1 |}.

Definition get_data : ClientData.t :=
  built (ClientData.build [("type", PStr "webauthn.get");
                           ("clientExtensions", PDict []);
                           ("challenge", PStr "Y2hhbGxlbmdl");
                           ("origin", PStr "https://example.com")]).

Definition assertion (sig : byte) (n : option Z) : AssertionResponse :=
  {| credential := None;
     assertion_auth_data := {| rp_id_hash := app_example; flags := 1;
                               sign_count := 7; credential_data := None |};
     assertion_signature := [sig];
     user := None;
     number_of_credentials := n |}.

Definition three_credentials : script :=
  ctap2_key {| pin_protocols := [1%Z]; options := ∅ |} []
    [Ok (assertion x01 (Some 3%Z)); Ok (assertion x02 None); Ok (assertion x03 None)].

Definition collected :=
  Fido2Client._ctap2_get_assertion fido2_over_ctap2 get_data "example.com"
    None None false false None None (start three_credentials).

Definition pin_token1 : bytes := replicate 16 x5a.

Definition key_without_pin_protocol : script :=
  ctap2_key {| pin_protocols := []; options := {[ "clientPin" := true ]} |}
    [Ok pin_token1] [Ok (assertion x01 None)].

Definition key_with_pin : script :=
  ctap2_key {| pin_protocols := [1%Z]; options := {[ "clientPin" := true ]} |}
    [Ok pin_token1] [Ok (assertion x01 None)].

Definition client : U2fClient.t := U2fClient.__init__ "https://example.com" same_site.

Definition enroll_abc : list register_request :=
  [{[ "version" := "U2F_V2"; "challenge" := "abc" ]}].

(** The key handle aa bb cc, websafe-encoded. *)
Definition known_key : registered_key :=
  {[ "version" := "U2F_V2"; "keyHandle" := "qrvM" ]}.

Definition enrolled_token : script :=
  u2f_token [(Ok reg1, 7%N)] [(Raise use_not_satisfied, 3%N)].


Definition token_with_stale_key : script :=
  u2f_token [(Ok reg1, 7%N)] [(Raise wrong_data, 3%N)].

Definition enrolled :=
  U2fClient.register 2 client "https://example.com" enroll_abc [known_key] None
    (start token_with_stale_key).

Definition signing_token : script :=
  u2f_token [] [(Raise use_not_satisfied, 5%N); (Ok sig1, 4%N)].

Definition signed :=
  U2fClient.sign 2 client "https://example.com" (PStr "abc") [known_key] None
    (start signing_token).

Definition allowed : descriptor :=
  {[ "type" := PStr "public-key"; "id" := PBytes [xaa; xbb; xcc] ]}.

Definition asserted :=
  Fido2Client._ctap1_get_assertion 2 fido2_over_ctap1 get_data "example.com"
    (Some [allowed]) None false false None None (start signing_token).

(** Further runs. *)
Definition elsewhere : gmap string string := {[ "id" := "elsewhere.org" ]}.

Definition enroll_v1 : list register_request :=
  [{[ "version" := "U2F_V1"; "challenge" := "abc" ]}].

Definition legacy_key : registered_key :=
  {[ "version" := "U2F_V1"; "keyHandle" := "qrvM" ]}.

Definition sign_data : ClientData.t :=
  built (sign_client_data client (PStr "abc")).

Definition declined :=
  Fido2Client._ctap1_get_assertion 2 fido2_over_ctap1 get_data "example.com"
    (Some [allowed]) None false false None None (start token_with_stale_key).

Definition made_with_pin :=
  Fido2Client._ctap2_make_credential fido2_over_ctap2 create_data example_com
    alice [ES256; RS256] None None true false (Some "1234") None
    (start key_with_pin).

Definition key_without_pin : script :=
  ctap2_key {| pin_protocols := [1%Z]; options := {[ "clientPin" := false ]} |}
    [] [].

Definition created :=
  Fido2Client.make_credential 2 fido2_over_ctap2 example_com alice
    (PStr "Y2hhbGxlbmdl") [ES256] None None false false None None
    (start key_without_pin).

Definition got :=
  Fido2Client.get_assertion 2 fido2_over_ctap1 "example.com"
    (PStr "Y2hhbGxlbmdl") (Some [allowed]) None false false None None
    (start signing_token).

Definition nameless_key : registered_key := {[ "keyHandle" := "qrvM" ]}.

Definition foreign_key : registered_key :=
  {[ "version" := "U2F_V2"; "keyHandle" := "qrvM";
     "appId" := "https://elsewhere.org" ]}.

Definition request_without_challenge : register_request :=
  {[ "version" := "U2F_V2" ]}.

End Ceremonies.

(** * Reasoning about runs *)

Section runs.
Context {Dev : Type}.

Lemma bind_run {A B} (m : M Dev A) (f : A → M Dev B) w :
  (m ≫= f) w = match m w with
               | Some (Ok a, w') => f a w'
               | Some (Raise e, w') => Some (Raise e, w')
               | None => None
               end.
Proof. reflexivity. Qed.

Lemma bind_inv {A B} (m : M Dev A) (f : A → M Dev B) w r w' :
  (m ≫= f) w = Some (r, w') →
  (∃ a w1, m w = Some (Ok a, w1) ∧ f a w1 = Some (r, w')) ∨
  (∃ e, m w = Some (Raise e, w') ∧ r = Raise e).
Proof.
  rewrite bind_run. destruct (m w) as [[[a|e] w1]|]; intros H.
  - left. eauto.
  - right. exists e. by inversion H.
  - discriminate.
Qed.

Lemma try_except_inv {A} (m : M Dev A) h w r w' :
  try_except m h w = Some (r, w') →
  (∃ a, m w = Some (Ok a, w') ∧ r = Ok a) ∨
  (∃ e w1 k, m w = Some (Raise e, w1) ∧ h e = Some k ∧ k w1 = Some (r, w')) ∨
  (∃ e, m w = Some (Raise e, w') ∧ h e = None ∧ r = Raise e).
Proof.
  unfold try_except. destruct (m w) as [[[a|e] w1]|]; intros H.
  - left. exists a. by inversion H.
  - destruct (h e) as [k|] eqn:Hh.
    + right; left. eauto 10.
    + right; right. exists e. by inversion H.
  - discriminate.
Qed.

Lemma traces_weaken {A} (m : M Dev A) (Q Q' : result A → list Exchange → Prop) :
  traces m Q → (∀ r l, Q r l → Q' r l) → traces m Q'.
Proof. intros Hm HQ w r w' Hrun. destruct (Hm _ _ _ Hrun) as (l & ? & ?). eauto. Qed.

Lemma traces_ret {A} (a : A) (Q : result A → list Exchange → Prop) :
  Q (Ok a) [] → traces (Dev:=Dev) (mret a) Q.
Proof.
  intros HQ w r w' Hrun. inversion Hrun; subst. exists []. by rewrite app_nil_r.
Qed.

Lemma traces_raise {A} e (Q : result A → list Exchange → Prop) :
  Q (Raise e) [] → traces (Dev:=Dev) (raise e) Q.
Proof.
  intros HQ w r w' Hrun. inversion Hrun; subst. exists []. by rewrite app_nil_r.
Qed.

Lemma traces_lift {A} (x : result A) (Q : result A → list Exchange → Prop) :
  Q x [] → traces (Dev:=Dev) (lift x) Q.
Proof.
  intros HQ w r w' Hrun. inversion Hrun; subst. exists []. by rewrite app_nil_r.
Qed.

Lemma traces_command {A} (run : Dev → reply Dev A) x
    (Q : result A → list Exchange → Prop) :
  (∀ r, Q r [x r]) → traces (command run x) Q.
Proof.
  intros HQ w r w'. unfold command. destruct (run (device w)) as [[r0 d] dt].
  intros Hrun. inversion Hrun; subst. exists [x r]. eauto.
Qed.

Lemma traces_bind {A B} (m : M Dev A) (f : A → M Dev B) Q1 Q2
    (Q : result B → list Exchange → Prop) :
  traces m Q1 →
  (∀ a, traces (f a) (Q2 a)) →
  (∀ a l1 r l2, Q1 (Ok a) l1 → Q2 a r l2 → Q r (l1 ++ l2)) →
  (∀ e l, Q1 (Raise e) l → Q (Raise e) l) →
  traces (m ≫= f) Q.
Proof.
  intros Hm Hf Hok Herr w r w' Hrun.
  destruct (bind_inv _ _ _ _ _ Hrun) as [(a & w1 & Hm1 & Hf1)|(e & Hm1 & ->)].
  - destruct (Hm _ _ _ Hm1) as (l1 & E1 & H1).
    destruct (Hf _ _ _ _ Hf1) as (l2 & E2 & H2).
    exists (l1 ++ l2). rewrite E2, E1, app_assoc. eauto.
  - destruct (Hm _ _ _ Hm1) as (l1 & E1 & H1). eauto.
Qed.

Lemma traces_try_except {A} (m : M Dev A) h Q1 Q2
    (Q : result A → list Exchange → Prop) :
  traces m Q1 →
  (∀ e k, h e = Some k → traces k (Q2 e)) →
  (∀ a l, Q1 (Ok a) l → Q (Ok a) l) →
  (∀ e l1 r l2, is_Some (h e) → Q1 (Raise e) l1 → Q2 e r l2 → Q r (l1 ++ l2)) →
  (∀ e l, h e = None → Q1 (Raise e) l → Q (Raise e) l) →
  traces (try_except m h) Q.
Proof.
  intros Hm Hh Hok Hcaught Hpass w r w' Hrun.
  destruct (try_except_inv _ _ _ _ _ Hrun)
    as [(a & Hm1 & ->)|[(e & w1 & k & Hm1 & Hk & Hk1)|(e & Hm1 & Hk & ->)]].
  - destruct (Hm _ _ _ Hm1) as (l1 & E1 & H1). eauto.
  - destruct (Hm _ _ _ Hm1) as (l1 & E1 & H1).
    destruct (Hh _ _ Hk _ _ _ Hk1) as (l2 & E2 & H2).
    exists (l1 ++ l2). rewrite E2, E1, app_assoc. eauto.
  - destruct (Hm _ _ _ Hm1) as (l1 & E1 & H1). eauto.
Qed.

Lemma traces_enter t (Q : result Timeout.event → list Exchange → Prop) :
  (∀ ev, Q (Ok ev) []) → traces (Dev:=Dev) (Timeout.enter t) Q.
Proof.
  intros HQ w r w' Hrun. inversion Hrun; subst. exists []. by rewrite app_nil_r.
Qed.

Lemma traces_is_set ev (Q : result bool → list Exchange → Prop) :
  (∀ b, Q (Ok b) []) → traces (Dev:=Dev) (Timeout.is_set ev) Q.
Proof.
  intros HQ w r w' Hrun. inversion Hrun; subst. exists []. by rewrite app_nil_r.
Qed.

Lemma traces_wait ev d (Q : result unit → list Exchange → Prop) :
  Q (Ok tt) [] → traces (Dev:=Dev) (Timeout.wait ev d) Q.
Proof.
  intros HQ w r w' Hrun. inversion Hrun; subst. exists [].
  rewrite app_nil_r. split; [|done]. by destruct (_ <=? _)%Z.
Qed.
End runs.

(** * The polling driver *)

Section polling_facts.
Context {Dev : Type} `{!U2f Dev} {A : Type}.

Lemma wait_slept ev d (w : World Dev) :
  Timeout.wait ev d w = Some (Ok tt, slept d (Timeout.deadline ev) w).
Proof.
  unfold Timeout.wait, slept. destruct w as [t dev l]; simpl.
  destruct (Z.leb_spec (Timeout.deadline ev) t); do 3 f_equal; lia.
Qed.

Lemma poll_loop_step fuel d ev (op : M Dev A) w :
  poll_loop (S fuel) d ev op w =
    if (Timeout.deadline ev <=? now w)%Z then Some (Raise (ClientError TIMEOUT), w)
    else match op w with
         | Some (Ok a, w') => Some (Ok a, w')
         | Some (Raise e, w') =>
             if decide (e = ApduError USE_NOT_SATISFIED)
             then poll_loop fuel d ev op (slept d (Timeout.deadline ev) w')
             else Some (Raise e, w')
         | None => None
         end.
Proof.
  simpl. rewrite bind_run. unfold Timeout.is_set.
  destruct (_ <=? _)%Z; [done|]. unfold try_except.
  destruct (op w) as [[[a|e] w1]|]; [done| |done].
  destruct e as [code| | | | | |]; try (by rewrite decide_False).
  destruct (Z.eqb_spec code USE_NOT_SATISFIED) as [->|Hne].
  - rewrite decide_True by done. rewrite bind_run, wait_slept. done.
  - rewrite decide_False by congruence. done.
Qed.

Lemma poll_loop_polls fuel d ev (op : M Dev A) w r w' :
  poll_loop fuel d ev op w = Some (r, w') →
  polls d (Timeout.deadline ev) op w r w'.
Proof.
  revert w. induction fuel as [|fuel IH]; intros w; [done|].
  rewrite poll_loop_step.
  destruct (Z.leb_spec (Timeout.deadline ev) (now w)).
  { intros [= <- <-]. by constructor. }
  destruct (op w) as [[[a|e] w1]|] eqn:Hop; [| |done].
  { intros [= <- <-]. by apply polls_success. }
  destruct (decide _) as [->|Hne].
  - intros Hrec. eapply polls_retry; eauto.
  - intros [= <- <-]. by apply polls_failure.
Qed.

Lemma polls_hides_use_not_satisfied d deadline (op : M Dev A) w r w' :
  polls d deadline op w r w' → r ≠ Raise (ApduError USE_NOT_SATISFIED).
Proof. induction 1; congruence. Qed.

Lemma poll_loop_total fuel d ev (op : M Dev A) w :
  (0 < d)%Z → responsive op →
  (Timeout.deadline ev - now w ≤ Z.of_nat fuel * d)%Z →
  ∃ r w', poll_loop (S fuel) d ev op w = Some (r, w').
Proof.
  intros Hd Hop. revert w. induction fuel as [|fuel IH]; intros w Hfuel;
    rewrite poll_loop_step.
  - destruct (Z.leb_spec (Timeout.deadline ev) (now w)); [eauto|lia].
  - destruct (Z.leb_spec (Timeout.deadline ev) (now w)); [eauto|].
    destruct (Hop w) as (r & w1 & -> & Hmono).
    destruct r as [a|e]; [eauto|].
    destruct (decide _); [|eauto].
    apply IH. unfold slept; simpl.
    rewrite Nat2Z.inj_succ, Z.mul_succ_l in Hfuel. lia.
Qed.
End polling_facts.

Section polling_claims.
Context {Dev : Type} `{!U2f Dev} {A : Type}.

Lemma command_responsive (run : Dev → reply Dev A) x : responsive (command run x).
Proof.
  intros w. unfold command. destruct (run (device w)) as [[r d] dt].
  eexists _, _. split; [done|]. simpl. lia.
Qed.

Lemma call_polling_unfold fuel poll_delay timeout (op : M Dev A) w :
  _call_polling fuel poll_delay timeout op w
  = poll_loop fuel poll_delay
      {| Timeout.deadline := now w + timeout_or_30 timeout |} op w.
Proof. reflexivity. Qed.

(** C3. The polling driver returns the operation's result at the first
    attempt that succeeds, sleeps and retries after USE_NOT_SATISFIED,
    lets every other failure through unchanged, and raises TIMEOUT once
    the budget is spent, so that USE_NOT_SATISFIED never reaches the
    caller; with a positive delay and an operation that answers, the
    driver itself always answers. *)
Theorem call_polling_contract (poll_delay : Z) (timeout : option Z) (op : M Dev A) :
  (∀ fuel w r w',
     _call_polling fuel poll_delay timeout op w = Some (r, w') →
     polls poll_delay (now w + timeout_or_30 timeout) op w r w'
     ∧ r ≠ Raise (ApduError USE_NOT_SATISFIED))
  ∧ ((0 < poll_delay)%Z → responsive op →
     ∀ w, ∃ fuel0, ∀ fuel, fuel0 ≤ fuel →
       ∃ r w', _call_polling fuel poll_delay timeout op w = Some (r, w')).
Proof.
  split.
  - intros fuel w r w' Hrun. rewrite call_polling_unfold in Hrun.
    apply poll_loop_polls in Hrun. simpl in Hrun.
    split; [done|]. by eapply polls_hides_use_not_satisfied.
  - intros Hd Hop w.
    exists (S (Z.to_nat (timeout_or_30 timeout / poll_delay + 1))).
    intros [|fuel] Hfuel; [lia|].
    rewrite call_polling_unfold.
    apply poll_loop_total; [done..|]. simpl.
    pose proof (Z.mul_succ_div_gt (timeout_or_30 timeout) poll_delay Hd).
    destruct (Z.le_gt_cases 0 (timeout_or_30 timeout / poll_delay + 1)); nia.
Qed.

(** C2, as the code has it. A timeout of 0 is falsy, so the driver runs
    under the 30-second default exactly as when no timeout is passed:
    after a first USE_NOT_SATISFIED it sleeps and, time remaining, makes
    a second attempt whose outcome it returns. *)
Theorem call_polling_timeout_zero (poll_delay : Z) (op : M Dev A) :
  (∀ fuel w,
     _call_polling fuel poll_delay (Some 0%Z) op w
     = _call_polling fuel poll_delay None op w)
  ∧ (∀ fuel w w1 r w2,
       op w = Some (Raise (ApduError USE_NOT_SATISFIED), w1) →
       let w1' := slept poll_delay (now w + 30000) w1 in
       (now w1' < now w + 30000)%Z →
       op w1' = Some (r, w2) →
       r ≠ Raise (ApduError USE_NOT_SATISFIED) →
       _call_polling (S (S fuel)) poll_delay (Some 0%Z) op w = Some (r, w2)).
Proof.
  split; [done|].
  intros fuel w w1 r w2 Hfirst w1' Hleft Hsecond Hr.
  rewrite call_polling_unfold.
  change (timeout_or_30 (Some 0%Z)) with 30000%Z.
  rewrite poll_loop_step. simpl Timeout.deadline.
  destruct (Z.leb_spec (now w + 30000) (now w)); [lia|].
  rewrite Hfirst, decide_True by done.
  rewrite poll_loop_step. simpl Timeout.deadline. fold w1'.
  destruct (Z.leb_spec (now w + 30000) (now w1')); [lia|].
  rewrite Hsecond. destruct r as [a|e]; [done|].
  rewrite decide_False by congruence. done.
Qed.
End polling_claims.

(** * ClientData *)

Section client_data_claims.
Context `{!Utils, !JsonLib}.

(** C8, as the code has it. A ClientData whose JSON document is an
    object without an origin field fails with the dict lookup's own
    KeyError for origin, whether it is built from bytes or from keyword
    arguments; ClientData raises no client error of its own. *)
Theorem client_data_without_origin :
  (∀ (b : bytes) (d : list (string * pyval)),
     json_loads (bytes_decode b) = Ok (PDict d) →
     assoc "origin" d = None →
     ClientData.new b = Raise (KeyError "origin"))
  ∧ (∀ (kwargs : list (string * pyval)) (s : string) (d : list (string * pyval)),
       json_dumps (PDict kwargs) = Ok s →
       json_loads (bytes_decode (str_encode s)) = Ok (PDict d) →
       assoc "origin" d = None →
       ClientData.build kwargs = Raise (KeyError "origin")).
Proof.
  assert (Hnew : ∀ b d, json_loads (bytes_decode b) = Ok (PDict d) →
                        assoc "origin" d = None →
                        ClientData.new b = Raise (KeyError "origin")).
  { intros b d Hloads Hd. unfold ClientData.new. rewrite Hloads. simpl.
    by rewrite Hd. }
  split; [exact Hnew|].
  intros kwargs s d Hdumps Hloads Hd. unfold ClientData.build.
  rewrite Hdumps. simpl. eauto.
Qed.
End client_data_claims.

(** * U2fClient: the verifier *)

Section u2f_verify.
Context `{!Utils, !JsonLib, !Rpid} {Dev : Type} `{!U2f Dev}.

(** C10. The constructor installs [verify_app_id] whatever verifier the
    caller passes, so two clients that differ only in that argument
    register and sign identically. *)
Theorem u2f_client_ignores_verify (origin : string) (v1 v2 : verifier) :
  U2fClient._verify (U2fClient.__init__ origin v1) = verify_app_id
  ∧ U2fClient.__init__ origin v1 = U2fClient.__init__ origin v2
  ∧ (∀ fuel app_id register_requests registered_keys timeout (w : World Dev),
       U2fClient.register fuel (U2fClient.__init__ origin v1) app_id
         register_requests registered_keys timeout w
       = U2fClient.register fuel (U2fClient.__init__ origin v2) app_id
           register_requests registered_keys timeout w)
  ∧ (∀ fuel app_id challenge registered_keys timeout (w : World Dev),
       U2fClient.sign fuel (U2fClient.__init__ origin v1) app_id challenge
         registered_keys timeout w
       = U2fClient.sign fuel (U2fClient.__init__ origin v2) app_id challenge
           registered_keys timeout w).
Proof. repeat split. Qed.
End u2f_verify.

(** * Fido2Client *)

Section fido2_claims.
Context `{!Utils, !JsonLib, !Rpid} {Dev : Type} `{!U2f Dev, !Fido2 Dev}.

(** C6. On the CTAP1 path make_credential raises UNSUPPORTED_OPTION when
    rk or uv is set, and get_assertion when rk or uv is set or the allow
    list is absent or empty; the world is left as it was: nothing was
    sent to the authenticator. So do [make_credential] and
    [get_assertion] on a client bound to CTAP1, once the relying party
    id is verified and the client data built. *)
Theorem ctap1_unsupported_option (fuel : nat) (self : Fido2Client.t)
    (client_data : ClientData.t) (rp : gmap string string) (user : pyval)
    (algos : list Z) (exclude_list allow_list : option (list descriptor))
    (extensions : option pyval) (rk uv : bool) (pin : option string)
    (timeout : option Z) (rp_id : string) (w : World Dev) :
  (rk = true ∨ uv = true →
   Fido2Client._ctap1_make_credential fuel self client_data rp user algos
     exclude_list extensions rk uv pin timeout w
   = Some (Raise (CtapError UNSUPPORTED_OPTION), w))
  ∧ (rk = true ∨ uv = true ∨ allow_list = None ∨ allow_list = Some [] →
     Fido2Client._ctap1_get_assertion fuel self client_data rp_id allow_list
       extensions rk uv pin timeout w
     = Some (Raise (CtapError UNSUPPORTED_OPTION), w))
  ∧ (∀ challenge id,
       rk = true ∨ uv = true →
       Fido2Client.ctap self = Fido2Client.Ctap1 →
       rp !! "id" = Some id →
       Fido2Client._verify self id (Fido2Client.origin self) = Ok true →
       ClientData.build [("type", PStr "webauthn.create");
                         ("clientExtensions", PDict []);
                         ("challenge", challenge);
                         ("origin", PStr (Fido2Client.origin self))]
       = Ok client_data →
       Fido2Client.make_credential fuel self rp user challenge algos
         exclude_list extensions rk uv pin timeout w
       = Some (Raise (CtapError UNSUPPORTED_OPTION), w))
  ∧ (∀ challenge,
       rk = true ∨ uv = true ∨ allow_list = None ∨ allow_list = Some [] →
       Fido2Client.ctap self = Fido2Client.Ctap1 →
       Fido2Client._verify self rp_id (Fido2Client.origin self) = Ok true →
       ClientData.build [("type", PStr "webauthn.get");
                         ("clientExtensions", PDict []);
                         ("challenge", challenge);
                         ("origin", PStr (Fido2Client.origin self))]
       = Ok client_data →
       Fido2Client.get_assertion fuel self rp_id challenge allow_list
         extensions rk uv pin timeout w
       = Some (Raise (CtapError UNSUPPORTED_OPTION), w)).
Proof.
  assert (Hmake : rk = true ∨ uv = true →
    Fido2Client._ctap1_make_credential fuel self client_data rp user algos
      exclude_list extensions rk uv pin timeout w
    = Some (Raise (CtapError UNSUPPORTED_OPTION), w)).
  2: assert (Hget : rk = true ∨ uv = true ∨ allow_list = None ∨ allow_list = Some [] →
    Fido2Client._ctap1_get_assertion fuel self client_data rp_id allow_list
      extensions rk uv pin timeout w
    = Some (Raise (CtapError UNSUPPORTED_OPTION), w)).
  3:{ split; [exact Hmake|]. split; [exact Hget|]. split.
      - intros challenge id Hopt Hctap Hid Hver Hcd.
        unfold Fido2Client.make_credential, getitem, Fido2Client._verify_rp_id.
        rewrite Hid, bind_run. unfold lift at 1. cbv beta iota.
        rewrite bind_run, Hver. unfold mret at 1, M_ret at 1. cbv beta iota.
        rewrite bind_run, Hcd. unfold lift at 1. cbv beta iota.
        unfold Fido2Client._do_make_credential. rewrite Hctap, bind_run.
        by rewrite (Hmake Hopt).
      - intros challenge Hopt Hctap Hver Hcd.
        unfold Fido2Client.get_assertion, Fido2Client._verify_rp_id.
        rewrite bind_run, Hver. unfold mret at 1, M_ret at 1. cbv beta iota.
        rewrite bind_run, Hcd. unfold lift at 1. cbv beta iota.
        unfold Fido2Client._do_get_assertion. rewrite Hctap, bind_run.
        by rewrite (Hget Hopt). }
  - intros Hopt. unfold Fido2Client._ctap1_make_credential.
    replace (rk || uv) with true; [done|].
    destruct Hopt as [-> | ->]; [done|]. by rewrite orb_true_r.
  - intros Hopt. unfold Fido2Client._ctap1_get_assertion.
    replace (rk || uv || negb (nonempty allow_list)) with true; [done|].
    destruct Hopt as [-> | [-> | [-> | ->]]]; simpl;
      rewrite ?orb_true_r; done.
Qed.
End fido2_claims.

Section ctap2_claims.
Context `{!Utils, !JsonLib, !Rpid} {Dev : Type} `{!U2f Dev, !Fido2 Dev}.

Lemma command_eq {A} (run : Dev → reply Dev A) x (w : World Dev) r d dt :
  run (device w) = (r, d, dt) →
  command run x w
  = Some (r, {| now := now w + Z.of_N dt; device := d; log := log w ++ [x r] |}).
Proof. intros Hrun. unfold command. by rewrite Hrun. Qed.

Lemma command_total {A} (run : Dev → reply Dev A) x (w : World Dev) :
  ∃ r w', command run x w = Some (r, w') ∧ log w' = log w ++ [x r].
Proof.
  unfold command. destruct (run (device w)) as [[r d] dt]. by eexists _, _.
Qed.

Lemma get_next_assertions_total n acc (w : World Dev) :
  ∃ r w' l, Fido2Client.get_next_assertions n acc w = Some (r, w')
            ∧ log w' = log w ++ l.
Proof.
  revert acc w. induction n as [|n IH]; intros acc w; simpl.
  - exists (Ok acc), w, []. by rewrite app_nil_r.
  - rewrite bind_run.
    destruct (command_total dev_get_next_assertion XGetNextAssertion w)
      as (r & w1 & Hcmd & Hlog).
    unfold CTAP2.get_next_assertion. rewrite Hcmd. destruct r as [a|e].
    + destruct (IH (acc ++ [a]) w1) as (r & w' & l & -> & Hl).
      eexists _, _, _. split; [done|]. by rewrite Hl, Hlog, <-app_assoc.
    + by eexists _, _, _.
Qed.

(** C5. On the CTAP2 path, with [info] what the device reports: a PIN
    passed to a device whose pin_protocols lack version 1, or no PIN
    passed to a device whose clientPin option is set, raises ValueError
    when get_info is the only command sent so far; and a PIN that is
    passed and supported reaches the device as pin_protocol 1 with
    pin_auth the first 16 bytes of HMAC-SHA-256(pin_token, client_data.hash).
    A PIN is passed when [pin] is truthy. *)
Theorem ctap2_pin_policy (self : Fido2Client.t) (client_data : ClientData.t)
    (rp : gmap string string) (user : pyval) (algos : list Z)
    (exclude_list allow_list : option (list descriptor))
    (extensions : option pyval) (rk uv : bool) (pin : option string)
    (timeout : option Z) (rp_id : string) (w : World Dev)
    (info : Info) (d1 : Dev) (dt1 : N) :
  dev_get_info (device w) = (Ok info, d1, dt1) →
  ((truthy pin = true ∧ 1%Z ∉ pin_protocols info
    ∨ truthy pin = false ∧ options info !! "clientPin" = Some true) →
   ∃ msg,
     Fido2Client._ctap2_make_credential self client_data rp user algos
       exclude_list extensions rk uv pin timeout w
     = Some (Raise (ValueError msg), informed w info d1 dt1)
     ∧ Fido2Client._ctap2_get_assertion self client_data rp_id allow_list
         extensions rk uv pin timeout w
       = Some (Raise (ValueError msg), informed w info d1 dt1))
  ∧ (∀ p pin_token d2 dt2,
       pin = Some p → truthy pin = true → 1%Z ∈ pin_protocols info →
       dev_get_pin_token p d1 = (Ok pin_token, d2, dt2) →
       let pin_auth := take 16 (hmac_sha256 pin_token (ClientData.hash client_data)) in
       (∃ a r w',
          Fido2Client._ctap2_make_credential self client_data rp user algos
            exclude_list extensions rk uv pin timeout w = Some (r, w')
          ∧ log w' = log w ++ [XGetInfo (Ok info); XGetPinToken p (Ok pin_token);
                               XMakeCredential a r]
          ∧ mc_pin_auth a = Some pin_auth ∧ mc_pin_protocol a = Some 1%Z)
       ∧ (∃ a r0 r w' l,
            Fido2Client._ctap2_get_assertion self client_data rp_id allow_list
              extensions rk uv pin timeout w = Some (r, w')
            ∧ log w' = log w ++ [XGetInfo (Ok info); XGetPinToken p (Ok pin_token);
                                 XGetAssertion a r0] ++ l
            ∧ ga_pin_auth a = Some pin_auth ∧ ga_pin_protocol a = Some 1%Z)).
Proof.
  intros Hinfo.
  assert (Hget : CTAP2.get_info w = Some (Ok info, informed w info d1 dt1)).
  { unfold CTAP2.get_info. by rewrite (command_eq _ _ _ _ _ _ Hinfo). }
  split.
  - intros Hpin.
    assert (∃ msg, Fido2Client.pin_block client_data info pin (informed w info d1 dt1)
                   = Some (Raise (ValueError msg), informed w info d1 dt1))
      as [msg Hblock].
    { unfold Fido2Client.pin_block.
      destruct Hpin as [[-> Hproto] | [-> Hopt]].
      - rewrite bool_decide_false by done. by eexists.
      - rewrite Hopt. by eexists. }
    exists msg. unfold Fido2Client._ctap2_make_credential,
      Fido2Client._ctap2_get_assertion.
    split; rewrite bind_run, Hget; cbv beta iota;
      by rewrite bind_run, Hblock.
  - intros p pin_token d2 dt2 -> Htruthy Hproto Htoken pin_auth.
    set (w1 := informed w info d1 dt1).
    set (w2 := {| now := now w1 + Z.of_N dt2; device := d2;
                  log := log w1 ++ [XGetPinToken p (Ok pin_token)] |}).
    assert (Hblock : Fido2Client.pin_block client_data info (Some p) w1
                     = Some (Ok (Some pin_auth, Some 1%Z), w2)).
    { unfold Fido2Client.pin_block. rewrite Htruthy.
      rewrite bool_decide_true by done. cbn [negb]. cbv beta iota zeta.
      rewrite bind_run. unfold CTAP2.get_pin_token. simpl default.
      by rewrite (command_eq _ _ w1 _ _ _ Htoken). }
    split.
    + unfold Fido2Client._ctap2_make_credential.
      rewrite bind_run, Hget; cbv beta iota. fold w1. rewrite bind_run, Hblock; cbv beta iota.
      match goal with |- context [CTAP2.make_credential ?a] => set (args := a) end.
      destruct (command_total (dev_make_credential args) (XMakeCredential args) w2)
        as (r & w' & Hcmd & Hlog).
      exists args, r, w'. split; [exact Hcmd|]. split; [|done].
      rewrite Hlog. simpl. by rewrite <-!app_assoc.
    + unfold Fido2Client._ctap2_get_assertion.
      rewrite bind_run, Hget; cbv beta iota. fold w1. rewrite bind_run, Hblock; cbv beta iota.
      match goal with |- context [CTAP2.get_assertion ?a] => set (args := a) end.
      rewrite bind_run.
      destruct (command_total (dev_get_assertion args) (XGetAssertion args) w2)
        as (r0 & w3 & Hcmd & Hlog).
      unfold CTAP2.get_assertion. rewrite Hcmd.
      assert (Hlog3 : log w3 = log w ++ [XGetInfo (Ok info);
                        XGetPinToken p (Ok pin_token); XGetAssertion args r0]).
      { rewrite Hlog. simpl. by rewrite <-!app_assoc. }
      destruct r0 as [first|e].
      * destruct (get_next_assertions_total
                    (Z.to_nat (Fido2Client.or_1 (number_of_credentials first) - 1))
                    [first] w3) as (r & w' & l & Hrec & Hl).
        exists args, (Ok first), r, w', l. split; [exact Hrec|]. split; [|done].
        by rewrite Hl, Hlog3, <-app_assoc.
      * exists args, (Raise e), (Raise e), w3, []. split; [done|]. split; [|done].
        by rewrite Hlog3.
Qed.
End ctap2_claims.

Section ctap2_assertions.
Context `{!Utils, !JsonLib, !Rpid} {Dev : Type} `{!U2f Dev, !Fido2 Dev}.

Lemma command_inv {A} (run : Dev → reply Dev A) x (w : World Dev) r w' :
  command run x w = Some (r, w') → log w' = log w ++ [x r].
Proof.
  unfold command. destruct (run (device w)) as [[r0 d] dt].
  by intros [= <- <-].
Qed.


Lemma get_next_assertions_trace n acc (w : World Dev) r w' :
  Fido2Client.get_next_assertions n acc w = Some (r, w') →
  ∃ rs, log w' = log w ++ (XGetNextAssertion <$> rs)
        ∧ length rs ≤ n
        ∧ (∀ l, r = Ok l →
             ∃ nexts, rs = Ok <$> nexts ∧ l = acc ++ nexts ∧ length nexts = n).
Proof.
  revert acc w. induction n as [|n IH]; intros acc w; simpl.
  - intros [= <- <-]. exists []. rewrite app_nil_r. repeat split; [done|].
    intros l [= <-]. exists []. by rewrite app_nil_r.
  - intros Hrun.
    destruct (bind_inv _ _ _ _ _ Hrun) as [(a & w1 & Hcmd & Hrec)|(e & Hcmd & ->)].
    + apply command_inv in Hcmd.
      destruct (IH _ _ Hrec) as (rs & Hlog & Hlen & Hok).
      exists (Ok a :: rs). rewrite Hlog, Hcmd, <-app_assoc. simpl.
      repeat split; [lia|].
      intros l Hl. destruct (Hok l Hl) as (nexts & -> & -> & <-).
      exists (a :: nexts). by rewrite <-app_assoc.
    + apply command_inv in Hcmd. exists [Raise e]. simpl.
      repeat split; [done|lia|done].
Qed.

End ctap2_assertions.

Section polled_commands.
Context {Dev : Type} `{!U2f Dev} {A : Type}.

Lemma polls_command_trace d deadline (run : Dev → reply Dev A) x (w : World Dev) r w' :
  polls d deadline (command run x) w r w' →
  ∃ k lf, log w' = log w ++ replicate k (x (Raise (ApduError USE_NOT_SATISFIED))) ++ lf
          ∧ (lf = [x r] ∧ r ≠ Raise (ApduError USE_NOT_SATISFIED)
             ∨ lf = [] ∧ r = Raise (ClientError TIMEOUT)).
Proof.
  induction 1 as [w|w a w' _ Hop|w e w' _ Hop Hne|w w1 r w' _ Hop _ IH].
  - exists 0, []. rewrite !app_nil_r. eauto.
  - apply command_inv in Hop. exists 0, [x (Ok a)]. split; [done|]. by left.
  - apply command_inv in Hop. exists 0, [x (Raise e)]. split; [done|].
    left. split; [done|congruence].
  - apply command_inv in Hop. destruct IH as (k & lf & Hlog & Hlf).
    exists (S k), lf. split; [|done].
    rewrite Hlog. simpl. by rewrite Hop, <-app_assoc.
Qed.

Lemma call_polling_command_trace fuel d timeout (run : Dev → reply Dev A) x
    (w : World Dev) r w' :
  _call_polling fuel d timeout (command run x) w = Some (r, w') →
  ∃ k lf, log w' = log w ++ replicate k (x (Raise (ApduError USE_NOT_SATISFIED))) ++ lf
          ∧ (lf = [x r] ∧ r ≠ Raise (ApduError USE_NOT_SATISFIED)
             ∨ lf = [] ∧ r = Raise (ClientError TIMEOUT)).
Proof.
  rewrite call_polling_unfold. intros Hrun.
  apply poll_loop_polls in Hrun. by eapply polls_command_trace.
Qed.
End polled_commands.

Section probes.
Context {Dev : Type} `{!U2f Dev}.

Lemma traces_probe app_param key_handle (exc : exn) :
  (∀ code, exc ≠ ApduError code) →
  traces (Dev:=Dev)
    (try_except
       (CTAP1.authenticate dummy_param app_param key_handle true;; raise exc)
       (λ e, match e with
             | ApduError code =>
                 Some (if (code =? USE_NOT_SATISFIED)%Z then raise exc else mret tt)
             | _ => None
             end))
    (λ r l, ∃ r0, l = [XAuthenticate dummy_param app_param key_handle true r0]
                  ∧ probe_outcome exc r0 r).
Proof.
  intros Hexc.
  set (sent r0 l := l = [XAuthenticate dummy_param app_param key_handle true r0]).
  eapply traces_try_except with
    (Q1 := λ r l, ∃ r0, sent r0 l ∧
             match r0 with Ok _ => r = Raise exc | Raise e => r = Raise e end)
    (Q2 := λ e r l, l = [] ∧ ∃ code, e = ApduError code ∧
             if decide (code = USE_NOT_SATISFIED) then r = Raise exc else r = Ok tt).
  - eapply traces_bind with (Q1 := λ r l, sent r l) (Q2 := λ _ r l, l = [] ∧ r = Raise exc).
    + by apply traces_command.
    + intros a. by apply traces_raise.
    + intros a l1 r l2 Hl1 [-> ->]. rewrite app_nil_r. by exists (Ok a).
    + intros e l Hl. by exists (Raise e).
  - intros [code| | | | | |] k; try done. intros [= <-].
    destruct (Z.eqb_spec code USE_NOT_SATISFIED) as [->|Hne].
    + apply traces_raise. split; [done|]. eexists. split; [done|].
      by rewrite decide_True.
    + apply traces_ret. split; [done|]. eexists. split; [done|].
      by rewrite decide_False.
  - intros a l (r0 & Hl & Hr). by destruct r0.
  - intros e l1 r l2 _ (r0 & Hl & Hr) (-> & code & -> & Hcode).
    rewrite app_nil_r. exists r0. split; [done|].
    destruct r0 as [a|e0]; [injection Hr as Hr; by destruct (Hexc code)|].
    injection Hr as <-. done.
  - intros e l Hh (r0 & Hl & Hr). exists r0. split; [done|].
    destruct r0 as [|e0]; [done|]. injection Hr as <-.
    by destruct e.
Qed.
End probes.

Section ctap1_attestation.
Context `{!Utils, !JsonLib, !Rpid} {Dev : Type} `{!U2f Dev, !Fido2 Dev}.

Lemma lift_inv {A} (x : result A) (w : World Dev) r w' :
  lift x w = Some (r, w') → r = x ∧ w' = w.
Proof. by intros [= <- <-]. Qed.

Lemma ret_inv {A} (a : A) (w : World Dev) r w' :
  (mret a : M Dev A) w = Some (r, w') → r = Ok a ∧ w' = w.
Proof. by intros [= <- <-]. Qed.

Lemma check_exclude_list_trace app_param exclude_list :
  traces (Dev:=Dev) (Fido2Client.check_exclude_list app_param exclude_list)
    (λ _ l, Forall is_probe l).
Proof.
  induction exclude_list as [|cred rest IH]; simpl.
  - by apply traces_ret.
  - eapply traces_bind with (Q1 := λ _ l, l = []) (Q2 := λ _ _ l, Forall is_probe l).
    + by apply traces_lift.
    + intros kh.
      eapply traces_bind with (Q1 := λ _ l, Forall is_probe l)
                              (Q2 := λ _ _ l, Forall is_probe l).
      * eapply traces_weaken; [by apply traces_probe|].
        intros r l (r0 & -> & _). constructor; [|done]. by eexists _, _, _.
      * intros _. apply IH.
      * intros. by apply Forall_app.
      * done.
    + by intros a l1 r l2 ->.
    + by intros e l ->.
Qed.

Lemma verify_rp_id_inv self rp_id (w : World Dev) r w' :
  Fido2Client._verify_rp_id self rp_id w = Some (r, w') →
  w' = w ∧ (r = Ok tt ∧ Fido2Client._verify self rp_id (Fido2Client.origin self) = Ok true
            ∨ r = Raise (ClientError BAD_REQUEST)).
Proof.
  unfold Fido2Client._verify_rp_id.
  destruct (Fido2Client._verify _ _ _) as [[]|]; intros [= <- <-]; eauto.
Qed.

(** A [make_credential] that returns on a client bound to CTAP1 is a run
    of [_ctap1_make_credential] from the same world, on the client data
    it returns. *)
Lemma make_credential_over_ctap1 fuel self rp user challenge algos exclude_list
    extensions rk uv pin timeout (w : World Dev) att client_data w' :
  Fido2Client.ctap self = Fido2Client.Ctap1 →
  Fido2Client.make_credential fuel self rp user challenge algos exclude_list
    extensions rk uv pin timeout w = Some (Ok (att, client_data), w') →
  Fido2Client._ctap1_make_credential fuel self client_data rp user algos
    exclude_list extensions rk uv pin timeout w = Some (Ok att, w').
Proof.
  intros Hctap Hrun. unfold Fido2Client.make_credential in Hrun.
  apply bind_inv in Hrun as [(rp_id & w1 & Hid & Hrun)|(? & _ & ?)]; [|done].
  apply lift_inv in Hid as [_ ->].
  apply bind_inv in Hrun as [([] & w1 & Hver & Hrun)|(? & _ & ?)]; [|done].
  apply verify_rp_id_inv in Hver as [-> _].
  apply bind_inv in Hrun as [(cd & w1 & Hcd & Hrun)|(? & _ & ?)]; [|done].
  apply lift_inv in Hcd as [_ ->].
  apply bind_inv in Hrun as [(att0 & w1 & Hdo & Hrun)|(? & _ & ?)]; [|done].
  apply ret_inv in Hrun as [[= -> ->] ->].
  unfold Fido2Client._do_make_credential in Hdo. by rewrite Hctap in Hdo.
Qed.

(** C1. When the CTAP1 path of make_credential returns, the last command
    it sent is the register that succeeded, with client_data.hash and
    SHA-256(rp.id), and the attestation object it returns is built from
    that registration response: fmt fido-u2f; authData with rpIdHash
    SHA-256(rp.id), flags 0x41, signCount 0; attested credential data
    with sixteen zero bytes as aaguid, the response's key handle as
    credential id and the COSE key 1:2, 3:-7, -1:1, -2: public key bytes
    1..33, -3: public key bytes 33..65 (X and Y of a point 04|X|Y);
    attStmt with x5c the one certificate and sig the signature. This
    holds of [_ctap1_make_credential] and of [make_credential] on a
    client bound to CTAP1, with the client data it returns. *)
Theorem ctap1_make_credential_attestation (fuel : nat) (self : Fido2Client.t)
    (client_data : ClientData.t) (rp : gmap string string) (user : pyval)
    (algos : list Z) (exclude_list : option (list descriptor))
    (extensions : option pyval) (rk uv : bool) (pin : option string)
    (timeout : option Z) (w : World Dev) (att : AttestationObject) w' :
  (Fido2Client._ctap1_make_credential fuel self client_data rp user algos
     exclude_list extensions rk uv pin timeout w = Some (Ok att, w')
   ∨ (Fido2Client.ctap self = Fido2Client.Ctap1
      ∧ ∃ challenge,
          Fido2Client.make_credential fuel self rp user challenge algos
            exclude_list extensions rk uv pin timeout w
          = Some (Ok (att, client_data), w'))) →
  ∃ rp_id reg_resp l,
    rp !! "id" = Some rp_id
    ∧ log w' = log w ++ l ++ [XRegister (ClientData.hash client_data)
                                (sha256 (str_encode rp_id)) (Ok reg_resp)]
    ∧ fmt att = "fido-u2f"
    ∧ rp_id_hash (auth_data att) = sha256 (str_encode rp_id)
    ∧ flags (auth_data att) = 0x41%Z
    ∧ sign_count (auth_data att) = 0%Z
    ∧ credential_data (auth_data att) = Some
        {| aaguid := replicate 16 x00;
           credential_id := key_handle reg_resp;
           cose_key :=
             [(1, PInt 2); (3, PInt (-7)); (-1, PInt 1);
              (-2, PBytes (take 32 (drop 1 (public_key reg_resp))));
              (-3, PBytes (take 32 (drop 33 (public_key reg_resp))))]%Z |}
    ∧ (∀ X Y, public_key reg_resp = x04 :: X ++ Y → length X = 32 → length Y = 32 →
          take 32 (drop 1 (public_key reg_resp)) = X
          ∧ take 32 (drop 33 (public_key reg_resp)) = Y)
    ∧ att_statement att = [("x5c", PList [PBytes (certificate reg_resp)]);
                           ("sig", PBytes (reg_signature reg_resp))].
Proof.
  intros Hrun.
  assert (Fido2Client._ctap1_make_credential fuel self client_data rp user algos
            exclude_list extensions rk uv pin timeout w = Some (Ok att, w')) as Hpath.
  { destruct Hrun as [Hrun|(Hctap & challenge & Hrun)]; [done|].
    by eapply make_credential_over_ctap1. }
  clear Hrun. revert Hpath.
  unfold Fido2Client._ctap1_make_credential. destruct (rk || uv); [done|].
  intros Hrun.
  apply bind_inv in Hrun as [(rp_id & w1 & Hid & Hrun)|(? & _ & ?)]; [|done].
  apply lift_inv in Hid as [Hid ->].
  apply bind_inv in Hrun as [([] & w2 & Hexcl & Hrun)|(? & _ & ?)]; [|done].
  apply check_exclude_list_trace in Hexcl as (l1 & Hl1 & _).
  apply bind_inv in Hrun as [(reg_resp & w3 & Hreg & Hrun)|(? & _ & ?)]; [|done].
  apply ret_inv in Hrun as [[= ->] ->].
  apply call_polling_command_trace in Hreg as (k & lf & Hlf & [[-> _]|[_ ?]]); [|done].
  exists rp_id, reg_resp, (l1 ++ replicate k (XRegister (ClientData.hash client_data)
    (sha256 (str_encode rp_id)) (Raise (ApduError USE_NOT_SATISFIED)))).
  split. { unfold getitem in Hid. by destruct (rp !! "id") as [?|]; simplify_eq. }
  split. { by rewrite Hlf, Hl1, <-!app_assoc. }
  do 5 (split; [done|]). split; [|done].
  intros X Y -> HX HY. split.
  - change (drop 1 (x04 :: X ++ Y)) with (X ++ Y). by rewrite take_app_length'.
  - change (drop 33 (x04 :: X ++ Y)) with (drop 32 (X ++ Y)).
    rewrite drop_app_length' by done. apply take_ge. lia.
Qed.
End ctap1_attestation.

(** * U2fClient.register *)

Section u2f_register.
Context `{!Utils, !JsonLib, !Rpid} {Dev : Type} `{!U2f Dev}.

Lemma ignored_not_answered x : ignored x → ¬ answered x.
Proof.
  destruct x as [| |c a k co [|e]| | | | |]; simpl; try done.
  destruct e; try done. congruence.
Qed.

Lemma verify_app_id_inv self app_id (w : World Dev) r w' :
  U2fClient._verify_app_id self app_id w = Some (r, w') →
  w' = w ∧ (r = Ok tt ∨ r = Raise (ClientError BAD_REQUEST)).
Proof.
  unfold U2fClient._verify_app_id.
  destruct (U2fClient._verify _ _ _) as [[]|]; intros [= <- <-]; eauto.
Qed.

Lemma getitem_inv {V} (d : gmap string V) k (w : World Dev) r w' :
  lift (getitem d k) w = Some (r, w') →
  w' = w ∧ ((∃ v, d !! k = Some v ∧ r = Ok v)
            ∨ (d !! k = None ∧ r = Raise (KeyError k))).
Proof.
  unfold lift, getitem. destruct (d !! k) as [v|]; intros [= <- <-]; eauto.
Qed.

Lemma check_registered_keys_trace self app_id version keys (w : World Dev) r w' :
  U2fClient.check_registered_keys self app_id version keys w = Some (r, w') →
  ∃ probed l,
    log w' = log w ++ l
    ∧ probed `prefix_of` filter (of_version version) keys
    ∧ Forall2 (probes_key app_id) probed l
    ∧ (Exists answered l → r = Raise (ClientError DEVICE_INELIGIBLE))
    ∧ (r = Ok tt → probed = filter (of_version version) keys ∧ Forall ignored l)
    ∧ (∃ l0 lf, l = l0 ++ lf ∧ Forall ignored l0 ∧ length lf ≤ 1).
Proof.
  revert w. induction keys as [|key rest IH]; intros w; simpl.
  { intros [= <- <-]. exists [], []. rewrite app_nil_r.
    split; [done|]. split; [done|]. split; [constructor|].
    split; [by intros ?%Exists_nil|]. split; [done|].
    exists [], []. repeat split; [constructor|simpl; lia]. }
  assert (Hstop : ∀ (m : list registered_key) e, ∃ probed l : list _,
    log w = log w ++ l ∧ probed `prefix_of` m
    ∧ Forall2 (probes_key app_id) probed l
    ∧ (Exists answered l → Raise (A:=unit) e = Raise (ClientError DEVICE_INELIGIBLE))
    ∧ (Raise e = Ok tt → probed = m ∧ Forall ignored l)
    ∧ (∃ l0 lf, l = l0 ++ lf ∧ Forall ignored l0 ∧ length lf ≤ 1)).
  { intros m e. exists [], []. rewrite app_nil_r. split; [done|].
    split; [apply prefix_nil|]. split; [constructor|].
    split; [by intros ?%Exists_nil|]. split; [done|].
    exists [], []. repeat split; [constructor|simpl; lia]. }
  intros Hrun.
  apply bind_inv in Hrun as [(kv & w1 & Hkv & Hrun)|(e & Hkv & ->)];
    apply getitem_inv in Hkv as [-> Hkv]; [|by apply Hstop].
  destruct Hkv as [(? & Hkv & [= <-])|[_ ?]]; [|done].
  destruct (String.eqb_spec kv version) as [->|Hne]; simpl in Hrun.
  2:{ rewrite filter_cons_False by (unfold of_version; congruence). by apply IH. }
  rewrite filter_cons_True by done.
  apply bind_inv in Hrun as [([] & w1 & Hver & Hrun)|(e & Hver & ->)];
    apply verify_app_id_inv in Hver as [-> _]; [|by apply Hstop].
  apply bind_inv in Hrun as [(kh & w1 & Hkh & Hrun)|(e & Hkh & ->)];
    apply getitem_inv in Hkh as [-> Hkh]; [|by apply Hstop].
  destruct Hkh as [(? & Hkh & [= <-])|[_ ?]]; [|done].
  apply bind_inv in Hrun as [(key_handle & w1 & Hdec & Hrun)|(e & Hdec & ->)];
    apply lift_inv in Hdec as [Hdec ->]; [|by apply Hstop].
  assert (Hprobe : ∀ r0, probes_key app_id key
            (XAuthenticate dummy_param
               (sha256 (str_encode (default app_id (key !! "appId"))))
               (PBytes key_handle) true r0)).
  { intros r0. by exists kh, key_handle, r0. }
  apply bind_inv in Hrun as [([] & w1 & Htry & Hrun)|(e & Htry & ->)];
    apply traces_probe in Htry as (? & Hlog & r0 & -> & Hout); try done.
  - destruct (IH _ Hrun)
      as (probed & l & Hl & Hpre & Hall & Hans & Hok & l0 & lf & Hsplit & Hl0 & Hlf).
    assert (Hign : ignored (XAuthenticate dummy_param
               (sha256 (str_encode (default app_id (key !! "appId"))))
               (PBytes key_handle) true r0)).
    { unfold probe_outcome in Hout. destruct r0 as [|[code| | | | | |]]; try done.
      simpl. by destruct (decide _). }
    eexists (key :: probed), (_ :: l). split; [by rewrite Hl, Hlog, <-app_assoc|].
    split; [by apply prefix_cons|]. split; [by constructor|]. split.
    + intros [Hx|Hx]%Exists_cons; [by apply ignored_not_answered in Hign|eauto].
    + split.
      * intros Hr. destruct (Hok Hr) as [-> ?]. split; [done|]. by constructor.
      * eexists (_ :: l0), lf. rewrite Hsplit. repeat split; [by constructor|done].
  - eexists [key], [_]. split; [exact Hlog|].
    split; [apply prefix_cons, prefix_nil|].
    split; [by repeat constructor|]. split; [|split; [done|]].
    + intros [Hx|Hx%Exists_nil]%Exists_cons; [|done].
      unfold probe_outcome in Hout. destruct r0 as [|e0]; [done|].
      simpl in Hx. subst e0. by rewrite decide_True in Hout.
    + eexists [], [_]. repeat split; [constructor|simpl; lia].
Qed.

(** The transcript of a run of [register], phase by phase. *)
Lemma register_trace fuel self app_id register_requests registered_keys timeout
    (w : World Dev) r w' :
  U2fClient.register fuel self app_id register_requests registered_keys timeout w
  = Some (r, w') →
  (∃ e, r = Raise e
        ∧ (log w' = log w ∨ ∃ e', log w' = log w ++ [XGetVersion (Raise e')]))
  ∨ ∃ version probed l_probe l_reg,
      log w' = log w ++ XGetVersion (Ok version) :: l_probe ++ l_reg
      ∧ probed `prefix_of` filter (of_version version) registered_keys
      ∧ Forall2 (probes_key app_id) probed l_probe
      ∧ (∃ l0 lf, l_probe = l0 ++ lf ∧ Forall ignored l0 ∧ length lf ≤ 1)
      ∧ (Exists answered l_probe →
         r = Raise (ClientError DEVICE_INELIGIBLE) ∧ l_reg = [])
      ∧ ((l_reg = [] ∧ ∃ e, r = Raise e)
         ∨ (probed = filter (of_version version) registered_keys
            ∧ Forall ignored l_probe
            ∧ ∃ challenge cd,
                U2fClient.find_challenge version register_requests = Ok challenge
                ∧ register_client_data self challenge = Ok cd
                ∧ Forall (λ x, ∃ r0, x = XRegister (ClientData.hash cd)
                                         (sha256 (str_encode app_id)) r0) l_reg
                ∧ ∀ res, r = Ok res →
                         res !! "clientData" = Some (ClientData.b64 cd))).
Proof.
  unfold U2fClient.register. intros Hrun.
  apply bind_inv in Hrun as [([] & w1 & Hver & Hrun)|(e & Hver & ->)];
    apply verify_app_id_inv in Hver as [-> _]; [|left; eauto].
  apply bind_inv in Hrun as [(version & w1 & Hv & Hrun)|(e & Hv & ->)];
    apply command_inv in Hv; [|left; eauto].
  right. exists version.
  apply bind_inv in Hrun as [([] & w2 & Hloop & Hrun)|(e & Hloop & ->)];
    apply check_registered_keys_trace in Hloop
      as (probed & l & Hl & Hpre & Hall & Hans & Hok & Hparts).
  2:{ exists probed, l, []. rewrite app_nil_r, Hl, Hv, <-app_assoc.
      split; [done|]. split; [done|]. split; [done|]. split; [done|].
      split; [by intros [= ->]%Hans|]. left. eauto. }
  destruct (Hok eq_refl) as [-> Hign].
  assert (Hnone : ¬ Exists answered l).
  { intros (x & Hx & Hax)%Exists_exists. rewrite Forall_forall in Hign.
    by eapply ignored_not_answered; [apply Hign|]. }
  assert (Hlog2 : log w2 = log w ++ XGetVersion (Ok version) :: l).
  { by rewrite Hl, Hv, <-app_assoc. }
  assert (Hstop : ∀ e, log w' = log w2 → r = Raise e →
    ∃ l_probe l_reg : list Exchange,
      log w' = log w ++ XGetVersion (Ok version) :: l_probe ++ l_reg
      ∧ filter (of_version version) registered_keys
          `prefix_of` filter (of_version version) registered_keys
      ∧ Forall2 (probes_key app_id) (filter (of_version version) registered_keys) l_probe
      ∧ (∃ l0 lf, l_probe = l0 ++ lf ∧ Forall ignored l0 ∧ length lf ≤ 1)
      ∧ (Exists answered l_probe →
         r = Raise (ClientError DEVICE_INELIGIBLE) ∧ l_reg = [])
      ∧ ((l_reg = [] ∧ ∃ e, r = Raise e)
         ∨ (filter (of_version version) registered_keys
              = filter (of_version version) registered_keys
            ∧ Forall ignored l_probe
            ∧ ∃ challenge cd,
                U2fClient.find_challenge version register_requests = Ok challenge
                ∧ register_client_data self challenge = Ok cd
                ∧ Forall (λ x, ∃ r0, x = XRegister (ClientData.hash cd)
                                         (sha256 (str_encode app_id)) r0) l_reg
                ∧ ∀ res, r = Ok res →
                         res !! "clientData" = Some (ClientData.b64 cd)))).
  { intros e Hlog ->. exists l, []. rewrite app_nil_r, Hlog, Hlog2.
    repeat (split; [done|]). left. eauto. }
  exists (filter (of_version version) registered_keys).
  apply bind_inv in Hrun as [(challenge & w3 & Hch & Hrun)|(e & Hch & ->)];
    apply lift_inv in Hch as [Hch ->]; [|by eapply Hstop].
  apply bind_inv in Hrun as [(cd & w3 & Hcd & Hrun)|(e & Hcd & ->)];
    apply lift_inv in Hcd as [Hcd ->]; [|by eapply Hstop].
  assert (Hreg : ∃ l_reg, log w' = log w2 ++ l_reg
    ∧ Forall (λ x, ∃ r0, x = XRegister (ClientData.hash cd)
                           (sha256 (str_encode app_id)) r0) l_reg
    ∧ ∀ res, r = Ok res → res !! "clientData" = Some (ClientData.b64 cd)).
  { assert (Hsent : ∀ k lf r0,
      (lf = [XRegister (ClientData.hash cd) (sha256 (str_encode app_id)) r0] ∧
       r0 ≠ Raise (ApduError USE_NOT_SATISFIED)) ∨ (lf = [] ∧ r0 = Raise (ClientError TIMEOUT)) →
      Forall (λ x, ∃ r0, x = XRegister (ClientData.hash cd)
                             (sha256 (str_encode app_id)) r0)
        (replicate k (XRegister (ClientData.hash cd) (sha256 (str_encode app_id))
                        (Raise (ApduError USE_NOT_SATISFIED))) ++ lf)).
    { intros k lf r0 Hlf. apply Forall_app. split.
      - apply Forall_replicate. eauto.
      - destruct Hlf as [[-> _]|[-> _]]; repeat constructor. eauto. }
    apply bind_inv in Hrun as [(reg & w4 & Hpoll & Hrun)|(e & Hpoll & ->)];
      apply call_polling_command_trace in Hpoll as (k & lf & Hlog & Hlf).
    - apply ret_inv in Hrun as [-> ->].
      eexists; (split; [exact Hlog|]); (split; [by eapply Hsent|]).
      intros res [= <-]. by rewrite lookup_insert_ne, lookup_singleton_eq.
    - eexists; (split; [exact Hlog|]); (split; [by eapply Hsent|]). done. }
  destruct Hreg as (l_reg & Hlog & Hall_reg & Hres).
  exists l, l_reg. split; [by rewrite Hlog, Hlog2, <-app_assoc|].
  do 3 (split; [done|]). split; [done|]. right. eauto 10.
Qed.

End u2f_register.

(** * The challenge parameter *)

Section challenge_parameter.
Context `{!Utils, !JsonLib, !Rpid} {Dev : Type} `{!U2f Dev, !Fido2 Dev}.

Lemma traces_call_polling_command {A} fuel d timeout (run : Dev → reply Dev A) x
    (P : Exchange → Prop) :
  (∀ r, P (x r)) →
  traces (_call_polling fuel d timeout (command run x)) (λ _ l, Forall P l).
Proof.
  intros HP w r w' Hrun.
  apply call_polling_command_trace in Hrun as (k & lf & Hlog & Hlf).
  eexists. split; [exact Hlog|]. apply Forall_app. split.
  - by apply Forall_replicate.
  - destruct Hlf as [[-> _]|[-> _]]; by repeat constructor.
Qed.

Lemma traces_verify_app_id self app_id (Q : result unit → list Exchange → Prop) :
  (∀ r, Q r []) → traces (Dev:=Dev) (U2fClient._verify_app_id self app_id) Q.
Proof.
  intros HQ w r w' [-> _]%verify_app_id_inv. exists []. by rewrite app_nil_r.
Qed.

Lemma sign_keys_trace fuel self app_id client_data version timeout keys :
  traces (Dev:=Dev)
    (U2fClient.sign_keys fuel self app_id client_data version timeout keys)
    (λ _ l, Forall (challenge_follows (ClientData.hash client_data)) l).
Proof.
  set (P := challenge_follows (ClientData.hash client_data)).
  induction keys as [|key rest IH]; simpl.
  { by apply traces_raise. }
  eapply traces_bind with (Q1 := λ _ l, l = []) (Q2 := λ _ _ l, Forall P l);
    [by apply traces_lift| |by intros a l1 r l2 ->|by intros e l ->].
  intros kv. destruct (String.eqb kv version); [|done].
  eapply traces_bind with (Q1 := λ _ l, l = []) (Q2 := λ _ _ l, Forall P l);
    [by apply traces_verify_app_id| |by intros a l1 r l2 ->|by intros e l ->].
  intros _.
  eapply traces_bind with (Q1 := λ _ l, l = []) (Q2 := λ _ _ l, Forall P l);
    [by apply traces_lift| |by intros a l1 r l2 ->|by intros e l ->].
  intros kh.
  eapply traces_bind with (Q1 := λ _ l, l = []) (Q2 := λ _ _ l, Forall P l);
    [by apply traces_lift| |by intros a l1 r l2 ->|by intros e l ->].
  intros key_handle.
  eapply traces_try_except with (Q1 := λ _ l, Forall P l) (Q2 := λ _ _ l, Forall P l).
  - eapply traces_bind with (Q1 := λ _ l, Forall P l) (Q2 := λ _ _ l, l = []).
    + by apply traces_call_polling_command.
    + intros sd. by apply traces_ret.
    + intros a l1 r l2 Hl1 ->. by rewrite app_nil_r.
    + done.
  - intros [code| | | | | |] k; try done. by intros [= <-].
  - done.
  - intros. by apply Forall_app.
  - done.
Qed.

Lemma try_allow_list_trace fuel self client_param app_param timeout allow_list :
  traces (Dev:=Dev)
    (Fido2Client.try_allow_list fuel self client_param app_param timeout allow_list)
    (λ _ l, Forall (challenge_follows client_param) l).
Proof.
  set (P := challenge_follows client_param).
  induction allow_list as [|cred rest IH]; simpl.
  { by apply traces_raise. }
  eapply traces_try_except with (Q1 := λ _ l, Forall P l) (Q2 := λ _ _ l, Forall P l).
  - eapply traces_bind with (Q1 := λ _ l, l = []) (Q2 := λ _ _ l, Forall P l);
      [by apply traces_lift| |by intros a l1 r l2 ->|by intros e l ->].
    intros key_handle.
    eapply traces_bind with (Q1 := λ _ l, Forall P l) (Q2 := λ _ _ l, l = []).
    + by apply traces_call_polling_command.
    + intros sd. by apply traces_ret.
    + intros a l1 r l2 Hl1 ->. by rewrite app_nil_r.
    + done.
  - intros [code| | | | | |] k; try done. by intros [= <-].
  - done.
  - intros. by apply Forall_app.
  - done.
Qed.

(** C9, as the code has it. In every ceremony over CTAP1 the register
    commands and the authenticate commands that ask for a signature
    carry client_data.hash as challenge parameter; the check-only
    authenticate probes, for registered keys and for the exclude list,
    carry 32 zero bytes instead. *)
Theorem challenge_parameter_is_client_data_hash :
  (∀ fuel self app_id register_requests registered_keys timeout (w : World Dev) r w',
     U2fClient.register fuel self app_id register_requests registered_keys timeout w
     = Some (r, w') →
     ∃ l, log w' = log w ++ l
          ∧ ((Forall (λ x, ¬ is_register x) l ∧ ∀ h, Forall (challenge_follows h) l)
             ∨ ∃ version challenge cd,
                 U2fClient.find_challenge version register_requests = Ok challenge
                 ∧ register_client_data self challenge = Ok cd
                 ∧ Forall (challenge_follows (ClientData.hash cd)) l
                 ∧ ∀ res, r = Ok res → res !! "clientData" = Some (ClientData.b64 cd)))
  ∧ (∀ fuel self app_id challenge registered_keys timeout (w : World Dev) r w',
       U2fClient.sign fuel self app_id challenge registered_keys timeout w
       = Some (r, w') →
       ∃ l, log w' = log w ++ l
            ∧ (l = [] ∨ ∃ cd, sign_client_data self challenge = Ok cd
                 ∧ Forall (challenge_follows (ClientData.hash cd)) l))
  ∧ (∀ fuel self client_data rp user algos exclude_list extensions rk uv pin
       timeout (w : World Dev) r w',
       Fido2Client._ctap1_make_credential fuel self client_data rp user algos
         exclude_list extensions rk uv pin timeout w = Some (r, w') →
       ∃ l, log w' = log w ++ l
            ∧ Forall (challenge_follows (ClientData.hash client_data)) l)
  ∧ (∀ fuel self client_data rp_id allow_list extensions rk uv pin timeout
       (w : World Dev) r w',
       Fido2Client._ctap1_get_assertion fuel self client_data rp_id allow_list
         extensions rk uv pin timeout w = Some (r, w') →
       ∃ l, log w' = log w ++ l
            ∧ Forall (challenge_follows (ClientData.hash client_data)) l).
Proof.
  assert (Hprobe : ∀ app_id h probed l,
            Forall2 (probes_key app_id) probed l → Forall (challenge_follows h) l).
  { intros app_id h probed l Hall. induction Hall as [|key x ?? Hx _ IH]; [done|].
    constructor; [|done]. by destruct Hx as (? & ? & ? & _ & _ & ->). }
  assert (Hnoreg : ∀ app_id probed l,
            Forall2 (probes_key app_id) probed l → Forall (λ x, ¬ is_register x) l).
  { intros app_id probed l Hall. induction Hall as [|key x ?? Hx _ IH]; [done|].
    constructor; [|done]. destruct Hx as (? & ? & ? & _ & _ & ->). by intros []. }
  split; [|split; [|split]].
  - intros fuel self app_id reqs keys timeout w r w' Hrun.
    apply register_trace in Hrun as [(e & -> & [Hlog|[e' Hlog]])|Hrun].
    { exists []. rewrite app_nil_r. split; [done|]. left. split; [done|]. by intros. }
    { eexists. split; [exact Hlog|]. left.
      split; [constructor; [by intros []|done]|]. intros h. by repeat constructor. }
    destruct Hrun as (version & probed & l_probe & l_reg & Hlog & _ & Hall & _ & _ & Hreg).
    eexists. split; [exact Hlog|].
    destruct Hreg as [[-> _]|(_ & _ & ch & cd & Hch & Hcd & Hl & Hres)].
    + left. rewrite app_nil_r. split.
      * constructor; [by intros []|by eapply Hnoreg].
      * intros h. constructor; [done|by eapply Hprobe].
    + right. exists version, ch, cd. do 2 (split; [done|]). split; [|done].
      constructor; [done|]. apply Forall_app. split; [by eapply Hprobe|].
      eapply Forall_impl; [exact Hl|]. by intros x [r0 ->].
  - intros fuel self app_id challenge keys timeout w r w' Hrun.
    unfold U2fClient.sign in Hrun.
    apply bind_inv in Hrun as [(cd & w1 & Hcd & Hrun)|(e & Hcd & ->)];
      apply lift_inv in Hcd as [Hcd ->].
    2:{ exists []. rewrite app_nil_r. eauto. }
    apply bind_inv in Hrun as [(version & w1 & Hv & Hrun)|(e & Hv & ->)];
      apply command_inv in Hv.
    2:{ eexists. split; [exact Hv|]. right. exists cd. split; [done|].
        by repeat constructor. }
    assert (∃ l, log w' = log w1 ++ l
                 ∧ Forall (challenge_follows (ClientData.hash cd)) l) as (l & Hl & Hall).
    { apply bind_inv in Hrun as [([sd key] & w2 & Hkeys & Hrun)|(e & Hkeys & ->)];
        apply sign_keys_trace in Hkeys as (l & Hl & Hall); [|by eauto].
      apply bind_inv in Hrun as [(kh & w3 & Hkh & Hrun)|(e & Hkh & ->)];
        apply lift_inv in Hkh as [_ ->]; [|by eauto].
      apply ret_inv in Hrun as [_ ->]. eauto. }
    exists (XGetVersion (Ok version) :: l). split; [by rewrite Hl, Hv, <-app_assoc|].
    right. exists cd. split; [done|]. by constructor.
  - intros fuel self cd rp user algos excl ext rk uv pin timeout w r w'.
    unfold Fido2Client._ctap1_make_credential. destruct (rk || uv).
    { intros [= <- <-]. exists []. by rewrite app_nil_r. }
    intros Hrun.
    apply bind_inv in Hrun as [(rp_id & w1 & Hid & Hrun)|(e & Hid & ->)];
      apply lift_inv in Hid as [Hid ->].
    2:{ exists []. by rewrite app_nil_r. }
    apply bind_inv in Hrun as [([] & w2 & Hexcl & Hrun)|(e & Hexcl & ->)];
      apply check_exclude_list_trace in Hexcl as (l1 & Hl1 & Hp1).
    2:{ exists l1. split; [done|]. eapply Forall_impl; [exact Hp1|].
        by intros x (? & ? & ? & ->). }
    assert (Forall (challenge_follows (ClientData.hash cd)) l1) as Hc1.
    { eapply Forall_impl; [exact Hp1|]. by intros x (? & ? & ? & ->). }
    apply bind_inv in Hrun as [(reg & w3 & Hreg & Hrun)|(e & Hreg & ->)];
      eapply (traces_call_polling_command _ _ _ _ _
                (challenge_follows (ClientData.hash cd))) in Hreg as (l2 & Hl2 & Hc2);
      try done.
    + apply ret_inv in Hrun as [_ ->]. exists (l1 ++ l2).
      split; [by rewrite Hl2, Hl1, <-app_assoc|]. by apply Forall_app.
    + exists (l1 ++ l2).
      split; [by rewrite Hl2, Hl1, <-app_assoc|]. by apply Forall_app.
  - intros fuel self cd rp_id allow ext rk uv pin timeout w r w'.
    unfold Fido2Client._ctap1_get_assertion. destruct (_ || _).
    { intros [= <- <-]. exists []. by rewrite app_nil_r. }
    intros Hrun. by apply try_allow_list_trace in Hrun.
Qed.
End challenge_parameter.

(** * ClientData and ClientError *)

Section client_data_more.
Context `{!Utils, !JsonLib}.

End client_data_more.

(** X2. The five codes of ClientError.ERR are 1 to 5 and distinct, so
    a member is found again from its value and a member called, as in
    ClientError.ERR.TIMEOUT(), is the ClientError with that member as
    code. ClientError(code) accepts exactly the integers 1 to 5 and
    fails with ValueError on any other. *)
Theorem client_error_codes :
  (∀ c, (1 ≤ ERR_value c ≤ 5)%Z)
  ∧ (∀ c c', ERR_value c = ERR_value c' → c = c')
  ∧ (∀ c, ERR_of_value (ERR_value c) = Ok c)
  ∧ (∀ c, ERR_call c = Ok (ClientError c))
  ∧ (∀ code c, ClientError_new code = Ok (ClientError c) ↔ ERR_value c = code)
  ∧ (∀ code, (code < 1 ∨ 5 < code)%Z → ∃ msg, ClientError_new code = Raise (ValueError msg)).
Proof.
  split; [by intros []; simpl; lia|].
  split; [by intros [] []|].
  split; [by intros []|].
  split; [by intros []|].
  split.
  - intros code c. unfold ClientError_new, ERR_of_value. split.
    + destruct (Z.eqb_spec code 1) as [->|?]; [by intros [= <-]|].
      destruct (Z.eqb_spec code 2) as [->|?]; [by intros [= <-]|].
      destruct (Z.eqb_spec code 3) as [->|?]; [by intros [= <-]|].
      destruct (Z.eqb_spec code 4) as [->|?]; [by intros [= <-]|].
      destruct (Z.eqb_spec code 5) as [->|?]; [by intros [= <-]|]. done.
    + intros <-. by destruct c.
  - intros code Hout. unfold ClientError_new, ERR_of_value.
    destruct (Z.eqb_spec code 1); [lia|]. destruct (Z.eqb_spec code 2); [lia|].
    destruct (Z.eqb_spec code 3); [lia|]. destruct (Z.eqb_spec code 4); [lia|].
    destruct (Z.eqb_spec code 5); [lia|]. by eexists.
Qed.

(** * The polling driver, counted *)

Section polling_bounds.
Context {Dev : Type} `{!U2f Dev} {A : Type}.

Lemma polls_command_attempts d deadline (run : Dev → reply Dev A) x (w : World Dev) r w' :
  polls d deadline (command run x) w r w' →
  ∃ k lf,
    log w' = log w ++ replicate k (x (Raise (ApduError USE_NOT_SATISFIED))) ++ lf
    ∧ (lf = [x r] ∧ r ≠ Raise (ApduError USE_NOT_SATISFIED)
       ∨ lf = [] ∧ r = Raise (ClientError TIMEOUT) ∧ (deadline ≤ now w')%Z)
    ∧ (now w ≤ now w')%Z
    ∧ (k + length lf = 0 → (deadline ≤ now w)%Z)
    ∧ ((0 < d)%Z → k + length lf ≠ 0 →
       (now w + (Z.of_nat (k + length lf) - 1) * d < deadline)%Z).
Proof.
  induction 1 as [w Hle|w a w' Hlt Hop|w e w' Hlt Hop Hne|w w1 r w' Hlt Hop Hrec IH].
  - exists 0, []. simpl. rewrite app_nil_r. split; [done|]. split; [by right|].
    split; [lia|]. done.
  - pose proof Hop as Hlog. apply command_inv in Hlog.
    destruct (command_responsive run x w) as (r0 & w0 & Hop0 & Hmono).
    rewrite Hop in Hop0. injection Hop0 as <- <-.
    exists 0, [x (Ok a)]. split; [done|]. split; [by left|]. split; [done|].
    split; [done|]. intros _ _. simpl. lia.
  - pose proof Hop as Hlog. apply command_inv in Hlog.
    destruct (command_responsive run x w) as (r0 & w0 & Hop0 & Hmono).
    rewrite Hop in Hop0. injection Hop0 as <- <-.
    exists 0, [x (Raise e)]. split; [done|].
    split; [left; split; [done|congruence]|]. split; [done|].
    split; [done|]. intros _ _. simpl. lia.
  - pose proof Hop as Hlog. apply command_inv in Hlog.
    destruct (command_responsive run x w) as (r0 & w0 & Hop0 & Hmono).
    rewrite Hop in Hop0. injection Hop0 as <- <-.
    destruct IH as (k & lf & Hl & Hlf & Hclock & _ & Hbound).
    exists (S k), lf. split.
    { rewrite Hl. simpl. rewrite Hlog, <-app_assoc. done. }
    split; [done|].
    unfold slept in Hclock, Hbound; simpl in Hclock, Hbound.
    split; [lia|]. split; [done|].
    intros Hd _. destruct (decide (k + length lf = 0)) as [Hz|Hnz].
    + rewrite Nat.add_succ_l, Hz. simpl. lia.
    + specialize (Hbound Hd Hnz).
      rewrite Nat.add_succ_l, Nat2Z.inj_succ.
      assert (0 ≤ Z.of_nat (k + length lf) - 1)%Z by lia.
      nia.
Qed.

(** X3. Polling a command under a positive delay makes a bounded number
    of attempts: when the n-th is sent, (n-1) full delays have passed
    since the start and the budget was not yet spent, so with the default
    budget and delay there are at most 120. The clock never runs
    backwards, and a TIMEOUT of the driver's own is raised only once the
    deadline is reached. *)
Theorem call_polling_attempts_bounded fuel (poll_delay : Z) (timeout : option Z)
    (run : Dev → reply Dev A) x (w : World Dev) r w' :
  (0 < poll_delay)%Z →
  _call_polling fuel poll_delay timeout (command run x) w = Some (r, w') →
  ∃ l, log w' = log w ++ l
       ∧ Forall (λ y, ∃ r0, y = x r0) l
       ∧ (l ≠ [] → ((Z.of_nat (length l) - 1) * poll_delay < timeout_or_30 timeout)%Z)
       ∧ (timeout_or_30 timeout = 30000%Z → poll_delay = 250%Z → length l ≤ 120)
       ∧ (now w ≤ now w')%Z
       ∧ (l = [] → r = Raise (ClientError TIMEOUT) ∧ (timeout_or_30 timeout ≤ 0)%Z)
       ∧ (r = Raise (ClientError TIMEOUT) →
          (∃ l0, l = l0 ++ [x r]) ∨ (now w + timeout_or_30 timeout ≤ now w')%Z).
Proof.
  intros Hd Hrun. rewrite call_polling_unfold in Hrun.
  apply poll_loop_polls in Hrun. simpl in Hrun.
  pose proof Hrun as Hfirst.
  apply polls_command_attempts in Hrun
    as (k & lf & Hl & Hlf & Hclock & Hnone & Hbound).
  exists (replicate k (x (Raise (ApduError USE_NOT_SATISFIED))) ++ lf).
  split; [done|].
  assert (Hlen : length (replicate k (x (Raise (ApduError USE_NOT_SATISFIED))) ++ lf)
                 = k + length lf).
  { by rewrite length_app, length_replicate. }
  assert (Hsome : replicate k (x (Raise (ApduError USE_NOT_SATISFIED))) ++ lf ≠ [] →
            ((Z.of_nat (k + length lf) - 1) * poll_delay < timeout_or_30 timeout)%Z).
  { intros Hne. assert (k + length lf ≠ 0) as Hnz.
    { intros Hz. apply Hne. apply length_zero_iff_nil. by rewrite Hlen. }
    specialize (Hbound Hd Hnz). lia. }
  split.
  { apply Forall_app. split; [apply Forall_replicate; eauto|].
    destruct Hlf as [[-> _]|[-> _]]; repeat constructor. eauto. }
  split; [by rewrite Hlen|].
  split.
  { intros HT -> . rewrite Hlen.
    destruct (decide (k + length lf = 0)) as [->|Hnz]; [lia|].
    specialize (Hbound Hd Hnz). lia. }
  split; [done|]. split.
  - intros Hnil. apply app_eq_nil in Hnil as [Hk ->].
    destruct Hlf as [[? _]|(_ & -> & Hdead)]; [done|]. split; [done|].
    destruct k; [|done]. specialize (Hnone eq_refl). lia.
  - intros ->. destruct Hlf as [[-> _]|(_ & _ & Hdead)]; [left; eauto|by right].
Qed.
End polling_bounds.

(** * The ceremonies' entry checks *)

Section entry_checks.
Context `{!Utils, !JsonLib, !Rpid} {Dev : Type} `{!U2f Dev, !Fido2 Dev}.

(** X4. A ceremony whose identifier the verifier does not accept, by
    returning false or by raising anything, ends in BAD_REQUEST with
    the world untouched: register for its app id, make_credential for
    rp['id'] and get_assertion for its rp id. A client built by
    [U2fClient.__init__] asks [verify_app_id] whatever verifier
    it was given. *)
Theorem unverified_identifier_is_bad_request :
  (∀ fuel self app_id register_requests registered_keys timeout (w : World Dev),
     U2fClient._verify self app_id (U2fClient.origin self) ≠ Ok true →
     U2fClient.register fuel self app_id register_requests registered_keys timeout w
     = Some (Raise (ClientError BAD_REQUEST), w))
  ∧ (∀ fuel origin verify app_id register_requests registered_keys timeout
       (w : World Dev),
       verify_app_id app_id origin ≠ Ok true →
       U2fClient.register fuel (U2fClient.__init__ origin verify) app_id
         register_requests registered_keys timeout w
       = Some (Raise (ClientError BAD_REQUEST), w))
  ∧ (∀ fuel self rp id user challenge algos exclude_list extensions rk uv pin
       timeout (w : World Dev),
       rp !! "id" = Some id →
       Fido2Client._verify self id (Fido2Client.origin self) ≠ Ok true →
       Fido2Client.make_credential fuel self rp user challenge algos exclude_list
         extensions rk uv pin timeout w
       = Some (Raise (ClientError BAD_REQUEST), w))
  ∧ (∀ fuel self rp_id challenge allow_list extensions rk uv pin timeout
       (w : World Dev),
       Fido2Client._verify self rp_id (Fido2Client.origin self) ≠ Ok true →
       Fido2Client.get_assertion fuel self rp_id challenge allow_list extensions
         rk uv pin timeout w
       = Some (Raise (ClientError BAD_REQUEST), w)).
Proof.
  assert (Happ : ∀ self app_id (w : World Dev),
            U2fClient._verify self app_id (U2fClient.origin self) ≠ Ok true →
            U2fClient._verify_app_id self app_id w
            = Some (Raise (ClientError BAD_REQUEST), w)).
  { intros self app_id w Hno. unfold U2fClient._verify_app_id.
    by destruct (U2fClient._verify _ _ _) as [[]|]. }
  assert (Hrp : ∀ self rp_id (w : World Dev),
            Fido2Client._verify self rp_id (Fido2Client.origin self) ≠ Ok true →
            Fido2Client._verify_rp_id self rp_id w
            = Some (Raise (ClientError BAD_REQUEST), w)).
  { intros self rp_id w Hno. unfold Fido2Client._verify_rp_id.
    by destruct (Fido2Client._verify _ _ _) as [[]|]. }
  split; [|split; [|split]].
  - intros fuel self app_id reqs keys timeout w Hno.
    unfold U2fClient.register. by rewrite bind_run, Happ.
  - intros fuel origin verify app_id reqs keys timeout w Hno.
    unfold U2fClient.register. by rewrite bind_run, Happ.
  - intros fuel self rp id user challenge algos excl ext rk uv pin timeout w Hid Hno.
    unfold Fido2Client.make_credential, getitem. rewrite Hid, bind_run.
    unfold lift at 1. cbv beta iota. by rewrite bind_run, Hrp.
  - intros fuel self rp_id challenge allow ext rk uv pin timeout w Hno.
    unfold Fido2Client.get_assertion. by rewrite bind_run, Hrp.
Qed.
End entry_checks.

(** Membership in a list written out with cons and app. *)
Ltac listed :=
  simpl; repeat (rewrite ?elem_of_cons, ?elem_of_app, ?elem_of_nil); tauto.

(** * U2fClient.register and U2fClient.sign *)

Section u2f_register_more.
Context `{!Utils, !JsonLib, !Rpid} {Dev : Type} `{!U2f Dev}.

Lemma find_challenge_first version (requests : list register_request) challenge :
  U2fClient.find_challenge version requests = Ok challenge →
  ∃ pre request post,
    requests = pre ++ request :: post
    ∧ Forall (other_version version) pre
    ∧ request !! "version" = Some version
    ∧ request !! "challenge" = Some challenge.
Proof.
  induction requests as [|request rest IH]; [done|]. simpl. unfold getitem.
  destruct (request !! "version") as [rv|] eqn:Hrv; simpl; [|done].
  destruct (String.eqb_spec rv version) as [->|Hne].
  - destruct (request !! "challenge") as [c|] eqn:Hc; [|done].
    intros [= ->]. by exists [], request, rest.
  - intros (pre & q & post & -> & Hpre & Hq & Hc)%IH.
    exists (request :: pre), q, post. split; [done|].
    split; [|done]. constructor; [|done]. by exists rv.
Qed.

Lemma find_challenge_other_version version (requests : list register_request) :
  Forall (other_version version) requests →
  U2fClient.find_challenge version requests = Raise (ClientError DEVICE_INELIGIBLE).
Proof.
  induction 1 as [|request rest (v & Hv & Hne) _ IH]; [done|]. simpl.
  unfold getitem. rewrite Hv. simpl.
  by destruct (String.eqb_spec v version).
Qed.

Lemma check_registered_keys_other_version self app_id version
    (keys : list registered_key) (w : World Dev) :
  Forall (other_version version) keys →
  U2fClient.check_registered_keys self app_id version keys w = Some (Ok tt, w).
Proof.
  induction 1 as [|key rest (v & Hv & Hne) _ IH]; [done|]. simpl.
  rewrite bind_run. unfold getitem, lift at 1. rewrite Hv.
  by destruct (String.eqb_spec v version).
Qed.

Lemma verify_app_id_ok self app_id (w : World Dev) w' :
  U2fClient._verify_app_id self app_id w = Some (Ok tt, w') →
  w' = w ∧ U2fClient._verify self app_id (U2fClient.origin self) = Ok true.
Proof.
  unfold U2fClient._verify_app_id.
  destruct (U2fClient._verify _ _ _) as [[]|]; by intros [= <-].
Qed.

(** X5. A registration with no request of the version the device
    reports never sends a register command and never returns. When the
    registered keys are of other versions too, it ends in
    DEVICE_INELIGIBLE right after the version query. *)
Theorem register_without_request_of_version fuel self app_id
    (register_requests : list register_request)
    (registered_keys : list registered_key) timeout (w : World Dev)
    version d dt :
  U2fClient._verify self app_id (U2fClient.origin self) = Ok true →
  dev_get_version (device w) = (Ok version, d, dt) →
  Forall (other_version version) register_requests →
  (Forall (other_version version) registered_keys →
   U2fClient.register fuel self app_id register_requests registered_keys timeout w
   = Some (Raise (ClientError DEVICE_INELIGIBLE),
           {| now := now w + Z.of_N dt; device := d;
              log := log w ++ [XGetVersion (Ok version)] |}))
  ∧ (∀ r w',
       U2fClient.register fuel self app_id register_requests registered_keys
         timeout w = Some (r, w') →
       (∃ e, r = Raise e)
       ∧ ∃ l, log w' = log w ++ XGetVersion (Ok version) :: l
              ∧ Forall is_probe l).
Proof.
  intros Hver Hdev Hreqs.
  assert (Hhead : ∀ k : string → M Dev (gmap string string),
                    (U2fClient._verify_app_id self app_id;;
                     CTAP1.get_version ≫= k) w
                       = k version {| now := now w + Z.of_N dt; device := d;
                                      log := log w ++ [XGetVersion (Ok version)] |}).
  { intros k. rewrite bind_run. unfold U2fClient._verify_app_id. rewrite Hver.
    unfold mret, M_ret. cbv beta iota. rewrite bind_run. unfold CTAP1.get_version.
    by rewrite (command_eq _ _ _ _ _ _ Hdev). }
  split.
  - intros Hkeys. unfold U2fClient.register. rewrite Hhead, bind_run.
    rewrite check_registered_keys_other_version by done. cbv beta iota.
    rewrite bind_run. unfold lift at 1.
    by rewrite find_challenge_other_version.
  - intros r w'. unfold U2fClient.register. rewrite Hhead. intros Hrun.
    apply bind_inv in Hrun as [([] & w2 & Hloop & Hrun)|(e & Hloop & ->)];
      apply check_registered_keys_trace in Hloop
        as (probed & l & Hl & _ & Hall & _).
    + assert (Hprobes : Forall is_probe l).
      { clear -Hall. induction Hall as [|key x ks xs (kh & h & r0 & _ & _ & ->)];
          constructor; [|done]. eexists _, _, _. done. }
      apply bind_inv in Hrun as [(challenge & w3 & Hch & Hrun)|(e & Hch & ->)];
        apply lift_inv in Hch as [Hch ->].
      * by rewrite find_challenge_other_version in Hch.
      * split; [eauto|]. exists l. split; [|done].
        rewrite Hl. simpl. by rewrite <-app_assoc.
    + split; [eauto|]. exists l. split.
      * rewrite Hl. simpl. by rewrite <-app_assoc.
      * clear -Hall. induction Hall as [|key x ks xs (kh & h & r0 & _ & _ & ->)];
          constructor; [|done]. eexists _, _, _. done.
Qed.

(** X6. A registration that returns used the challenge of the first
    request of the device's version: the client data is built from it,
    the last command sent is the register command over the hash of that
    client data and of the app id, and the result holds exactly the
    websafe encoding of the device's registration data beside the
    client data. *)
Theorem register_returns_registration fuel self app_id
    (register_requests : list register_request)
    (registered_keys : list registered_key) timeout (w : World Dev) res w' :
  U2fClient.register fuel self app_id register_requests registered_keys timeout w
  = Some (Ok res, w') →
  ∃ version pre request post challenge cd reg l,
    U2fClient._verify self app_id (U2fClient.origin self) = Ok true
    ∧ register_requests = pre ++ request :: post
    ∧ Forall (other_version version) pre
    ∧ request !! "version" = Some version
    ∧ request !! "challenge" = Some challenge
    ∧ register_client_data self challenge = Ok cd
    ∧ log w' = log w ++ XGetVersion (Ok version) :: l
                 ++ [XRegister (ClientData.hash cd) (sha256 (str_encode app_id))
                       (Ok reg)]
    ∧ res = {[ "registrationData" := websafe_encode (reg_raw reg);
               "clientData" := ClientData.b64 cd ]}.
Proof.
  unfold U2fClient.register. intros Hrun.
  apply bind_inv in Hrun as [([] & w1 & Hver & Hrun)|(e & _ & [=])].
  apply verify_app_id_ok in Hver as [-> Hver].
  apply bind_inv in Hrun as [(version & w1 & Hv & Hrun)|(e & _ & [=])].
  apply command_inv in Hv.
  apply bind_inv in Hrun as [([] & w2 & Hloop & Hrun)|(e & _ & [=])].
  apply check_registered_keys_trace in Hloop as (probed & l & Hl & _).
  apply bind_inv in Hrun as [(challenge & w3 & Hch & Hrun)|(e & _ & [=])].
  apply lift_inv in Hch as [Hch ->].
  apply bind_inv in Hrun as [(cd & w3 & Hcd & Hrun)|(e & _ & [=])].
  apply lift_inv in Hcd as [Hcd ->].
  apply bind_inv in Hrun as [(reg & w4 & Hpoll & Hrun)|(e & _ & [=])].
  apply ret_inv in Hrun as [[= Hres] ->].
  apply call_polling_command_trace in Hpoll as (k & lf & Hlog & [[-> _]|[_ [=]]]).
  symmetry in Hch, Hcd.
  apply find_challenge_first in Hch as (pre & request & post & -> & Hpre & Hrv & Hc).
  exists version, pre, request, post, challenge, cd, reg.
  eexists (l ++ replicate k _). do 5 (split; [done|]). split; [exact Hcd|].
  split; [|done].
  rewrite Hlog, Hl, Hv. by rewrite <-!app_assoc.
Qed.
End u2f_register_more.

Section u2f_sign.
Context `{!Utils, !JsonLib, !Rpid} {Dev : Type} `{!U2f Dev}.

Lemma refused_by_mono app_id h version (ks ks' : list registered_key) x :
  (∀ key, key ∈ ks → key ∈ ks') →
  refused_by app_id h version ks x → refused_by app_id h version ks' x.
Proof.
  intros Hsub (key & code & Hin & ?). exists key, code. split; [by apply Hsub|done].
Qed.

Lemma sign_keys_run fuel self app_id cd version timeout
    (keys : list registered_key) (w : World Dev) r w' :
  U2fClient.sign_keys fuel self app_id cd version timeout keys w = Some (r, w') →
  ∃ l0 lf,
    log w' = log w ++ l0 ++ lf
    ∧ ((lf = [] ∧ (∃ e, r = Raise e)
        ∧ Forall (refused_by app_id (ClientData.hash cd) version keys) l0)
       ∨ ∃ pre key post r0 x,
           keys = pre ++ key :: post
           ∧ of_version version key
           ∧ U2fClient._verify self (default app_id (key !! "appId"))
               (U2fClient.origin self) = Ok true
           ∧ lf = [x]
           ∧ asks_signature app_id (ClientData.hash cd) key r0 x
           ∧ (∀ code, r0 ≠ Raise (ApduError code))
           ∧ r = (sd ← r0; Ok (sd, key))
           ∧ Forall (refused_by app_id (ClientData.hash cd) version (pre ++ [key])) l0).
Proof.
  revert w. induction keys as [|key rest IH]; intros w; simpl.
  { intros [= <- <-]. exists [], []. rewrite app_nil_r. split; [done|].
    left. split; [done|]. split; [eauto|constructor]. }
  assert (Hstop : ∀ e : exn, ∃ l0 lf : list Exchange,
    log w = log w ++ l0 ++ lf
    ∧ ((lf = [] ∧ (∃ e', Raise (A:=SignatureData * registered_key) e = Raise e')
        ∧ Forall (refused_by app_id (ClientData.hash cd) version (key :: rest)) l0)
       ∨ ∃ pre key0 post r0 x,
           key :: rest = pre ++ key0 :: post
           ∧ of_version version key0
           ∧ U2fClient._verify self (default app_id (key0 !! "appId"))
               (U2fClient.origin self) = Ok true
           ∧ lf = [x]
           ∧ asks_signature app_id (ClientData.hash cd) key0 r0 x
           ∧ (∀ code, r0 ≠ Raise (ApduError code))
           ∧ Raise e = (sd ← r0; Ok (sd, key0))
           ∧ Forall (refused_by app_id (ClientData.hash cd) version (pre ++ [key0])) l0)).
  { intros e. exists [], []. rewrite app_nil_r. split; [done|].
    left. split; [done|]. split; [eauto|constructor]. }
  assert (Hnext : ∀ (lk : list Exchange) w1,
    log w1 = log w ++ lk →
    Forall (refused_by app_id (ClientData.hash cd) version [key]) lk →
    U2fClient.sign_keys fuel self app_id cd version timeout rest w1 = Some (r, w') →
    ∃ l0 lf : list Exchange,
    log w' = log w ++ l0 ++ lf
    ∧ ((lf = [] ∧ (∃ e', r = Raise e')
        ∧ Forall (refused_by app_id (ClientData.hash cd) version (key :: rest)) l0)
       ∨ ∃ pre key0 post r0 x,
           key :: rest = pre ++ key0 :: post
           ∧ of_version version key0
           ∧ U2fClient._verify self (default app_id (key0 !! "appId"))
               (U2fClient.origin self) = Ok true
           ∧ lf = [x]
           ∧ asks_signature app_id (ClientData.hash cd) key0 r0 x
           ∧ (∀ code, r0 ≠ Raise (ApduError code))
           ∧ r = (sd ← r0; Ok (sd, key0))
           ∧ Forall (refused_by app_id (ClientData.hash cd) version (pre ++ [key0])) l0)).
  { intros lk w1 Hlk Hrefused Hrest.
    destruct (IH _ Hrest) as (l0 & lf & Hl & Hcases).
    exists (lk ++ l0), lf. split; [by rewrite Hl, Hlk, <-!app_assoc|].
    destruct Hcases as [(-> & He & Hall)|(pre & key0 & post & r0 & x & -> & Hv & Hok
                                          & -> & Hx & Hr0 & -> & Hall)].
    - left. split; [done|]. split; [done|]. apply Forall_app. split.
      + eapply Forall_impl; [exact Hrefused|]. intros y.
        apply refused_by_mono. intros k0. listed.
      + eapply Forall_impl; [exact Hall|]. intros y.
        apply refused_by_mono. intros k0. listed.
    - right. exists (key :: pre), key0, post, r0, x. do 7 (split; [done|]).
      apply Forall_app. split.
      + eapply Forall_impl; [exact Hrefused|]. intros y.
        apply refused_by_mono. intros k0. listed.
      + eapply Forall_impl; [exact Hall|]. intros y.
        apply refused_by_mono. intros k0. listed. }
  intros Hrun.
  apply bind_inv in Hrun as [(kv & w1 & Hkv & Hrun)|(e & Hkv & ->)];
    apply getitem_inv in Hkv as [-> Hkv]; [|by apply Hstop].
  destruct Hkv as [(? & Hkv & [= <-])|[_ ?]]; [|done].
  destruct (String.eqb_spec kv version) as [->|Hne].
  2:{ apply (Hnext [] w); [by rewrite app_nil_r|constructor|done]. }
  apply bind_inv in Hrun as [([] & w1 & Hver & Hrun)|(e & Hver & ->)].
  2:{ apply verify_app_id_inv in Hver as [-> _]. by apply Hstop. }
  apply verify_app_id_ok in Hver as [-> Hver].
  apply bind_inv in Hrun as [(kh & w1 & Hkh & Hrun)|(e & Hkh & ->)];
    apply getitem_inv in Hkh as [-> Hkh]; [|by apply Hstop].
  destruct Hkh as [(? & Hkh & [= <-])|[_ ?]]; [|done].
  apply bind_inv in Hrun as [(key_handle & w1 & Hdec & Hrun)|(e & Hdec & ->)];
    apply lift_inv in Hdec as [Hdec ->]; [|by apply Hstop].
  symmetry in Hdec.
  set (x := XAuthenticate (ClientData.hash cd)
              (sha256 (str_encode (default app_id (key !! "appId"))))
              (PBytes key_handle) false) in *.
  assert (Hasks : ∀ r0, asks_signature app_id (ClientData.hash cd) key r0 (x r0)).
  { intros r0. by exists kh, key_handle. }
  assert (Hretries : ∀ k (ks : list registered_key), key ∈ ks →
            Forall (refused_by app_id (ClientData.hash cd) version ks)
              (replicate k (x (Raise (ApduError USE_NOT_SATISFIED))))).
  { intros k ks Hin. apply Forall_replicate. exists key, USE_NOT_SATISFIED. eauto. }
  apply try_except_inv in Hrun
    as [(a & Hm & ->)|[(e & w1 & k & Hm & Hk & Hk1)|(e & Hm & Hk & ->)]].
  - apply bind_inv in Hm as [(sd & w2 & Hpoll & Hret)|(e & _ & [=])].
    apply ret_inv in Hret as [[= ->] ->].
    apply call_polling_command_trace in Hpoll as (k & lf & Hlog & [[-> _]|[_ [=]]]).
    eexists _, _. split; [exact Hlog|]. right.
    exists [], key, rest, (Ok sd), (x (Ok sd)). do 6 (split; [done|]).
    split; [done|]. apply Hretries. simpl. apply elem_of_cons. by left.
  - apply bind_inv in Hm as [(sd & w2 & _ & Hret)|(e' & Hpoll & [= <-])];
      [by apply ret_inv in Hret as [[=] _]|].
    destruct e as [code| | | | | |]; try done. injection Hk as <-.
    apply call_polling_command_trace in Hpoll as (k & lf & Hlog & [[-> _]|[_ [=]]]).
    eapply Hnext; [exact Hlog| |exact Hk1].
    apply Forall_app. split; [apply Hretries, elem_of_cons; by left|].
    repeat constructor. exists key, code. split; [apply elem_of_cons; by left|]. eauto.
  - apply bind_inv in Hm as [(sd & w2 & _ & Hret)|(e' & Hpoll & [= <-])];
      [by apply ret_inv in Hret as [[=] _]|].
    apply call_polling_command_trace in Hpoll as (k & lf & Hlog & [[-> _]|[-> [= ->]]]).
    + eexists _, _. split; [exact Hlog|]. right.
      exists [], key, rest, (Raise e), (x (Raise e)). do 5 (split; [done|]).
      split; [by intros code [= ->]|]. split; [done|].
      apply Hretries. simpl. apply elem_of_cons. by left.
    + eexists _, []. split; [exact Hlog|]. left. split; [done|]. split; [eauto|].
      apply Hretries. simpl. apply elem_of_cons. by left.
Qed.

(** X7. A signature ceremony that returns was signed by one of the
    registered keys of the device's version, whose app id passed
    verification: the last command sent is the authenticate, not
    check-only, over the hash of the client data with that key's app
    parameter and decoded handle, and the device answered it with the
    signature. Every authenticate before it went to that key or to a key
    listed earlier and was refused with a status word. The result holds
    the client data, the websafe encoding of the signature and the key
    handle as that key spelled it. *)
Theorem sign_returns_signature fuel self app_id challenge
    (registered_keys : list registered_key) timeout (w : World Dev) res w' :
  U2fClient.sign fuel self app_id challenge registered_keys timeout w
  = Some (Ok res, w') →
  ∃ cd version pre key post kh sd l x,
    sign_client_data self challenge = Ok cd
    ∧ registered_keys = pre ++ key :: post
    ∧ key !! "version" = Some version
    ∧ key !! "keyHandle" = Some kh
    ∧ U2fClient._verify self (default app_id (key !! "appId"))
        (U2fClient.origin self) = Ok true
    ∧ log w' = log w ++ XGetVersion (Ok version) :: l ++ [x]
    ∧ asks_signature app_id (ClientData.hash cd) key (Ok sd) x
    ∧ Forall (refused_by app_id (ClientData.hash cd) version (pre ++ [key])) l
    ∧ res = {[ "clientData" := ClientData.b64 cd;
               "signatureData" := websafe_encode (sig_raw sd);
               "keyHandle" := kh ]}.
Proof.
  unfold U2fClient.sign. intros Hrun.
  apply bind_inv in Hrun as [(cd & w1 & Hcd & Hrun)|(e & _ & [=])].
  apply lift_inv in Hcd as [Hcd ->]. symmetry in Hcd.
  apply bind_inv in Hrun as [(version & w1 & Hv & Hrun)|(e & _ & [=])].
  apply command_inv in Hv.
  apply bind_inv in Hrun as [([sd key] & w2 & Hloop & Hrun)|(e & _ & [=])].
  apply sign_keys_run in Hloop as (l0 & lf & Hl & Hcases).
  destruct Hcases as [(_ & [e [=]] & _)|(pre & key0 & post & r0 & x & -> & Hkv & Hok
                                          & -> & Hx & _ & Hr & Hall)].
  destruct r0 as [sd0|e]; [|done]. injection Hr as -> ->.
  apply bind_inv in Hrun as [(kh & w3 & Hkh & Hrun)|(e & _ & [=])].
  apply getitem_inv in Hkh as [-> [(? & Hkh & [= <-])|[_ [=]]]].
  apply ret_inv in Hrun as [[= Hres] ->].
  exists cd, version, pre, key0, post, kh, sd0, l0, x.
  do 5 (split; [done|]). split; [|done].
  rewrite Hl, Hv. by rewrite <-app_assoc.
Qed.

(** X8. Whatever its outcome, a signature ceremony sends the version
    query and then nothing but authenticate commands that ask a
    registered key of the device's version for a signature over the hash
    of the client data: never a check-only probe, never a register
    command. All of them except possibly the last were refused with a
    status word. *)
Theorem sign_asks_only_for_signatures fuel self app_id challenge
    (registered_keys : list registered_key) timeout (w : World Dev) r w' :
  U2fClient.sign fuel self app_id challenge registered_keys timeout w
  = Some (r, w') →
  (log w' = log w ∧ ∃ e, r = Raise e)
  ∨ (∃ e, log w' = log w ++ [XGetVersion (Raise e)] ∧ r = Raise e)
  ∨ ∃ cd version l0 lf,
      sign_client_data self challenge = Ok cd
      ∧ log w' = log w ++ XGetVersion (Ok version) :: l0 ++ lf
      ∧ Forall (refused_by app_id (ClientData.hash cd) version registered_keys) l0
      ∧ length lf ≤ 1
      ∧ Forall (λ x, ∃ key r0, key ∈ registered_keys ∧ of_version version key
                     ∧ asks_signature app_id (ClientData.hash cd) key r0 x) lf.
Proof.
  unfold U2fClient.sign. intros Hrun.
  apply bind_inv in Hrun as [(cd & w1 & Hcd & Hrun)|(e & Hcd & ->)];
    apply lift_inv in Hcd as [Hcd ->]; [|left; eauto].
  symmetry in Hcd.
  apply bind_inv in Hrun as [(version & w1 & Hv & Hrun)|(e & Hv & ->)];
    apply command_inv in Hv; [|right; left; eauto].
  right; right. exists cd, version.
  assert (Hloop : ∃ w2 r2, U2fClient.sign_keys fuel self app_id cd version timeout
                             registered_keys w1 = Some (r2, w2) ∧ log w' = log w2).
  { apply bind_inv in Hrun as [([sd key] & w2 & Hloop & Hrun)|(e & Hloop & ->)];
      [|eauto].
    exists w2, (Ok (sd, key)). split; [done|].
    apply bind_inv in Hrun as [(kh & w3 & Hkh & Hrun)|(e & Hkh & ->)];
      apply getitem_inv in Hkh as [-> _]; [|done].
    by apply ret_inv in Hrun as [_ ->]. }
  destruct Hloop as (w2 & r2 & Hloop & ->).
  apply sign_keys_run in Hloop as (l0 & lf & Hl & Hcases).
  exists l0, lf. split; [done|]. split; [by rewrite Hl, Hv, <-app_assoc|].
  destruct Hcases as [(-> & _ & Hall)|(pre & key0 & post & r0 & x & -> & Hkv & Hok
                                        & -> & Hx & _ & _ & Hall)].
  - split; [done|]. split; [simpl; lia|constructor].
  - split.
    { eapply Forall_impl; [exact Hall|]. intros y. apply refused_by_mono. intros k0. listed. }
    split; [simpl; lia|]. repeat constructor. exists key0, r0.
    split; [|done]. apply elem_of_app. right. apply elem_of_cons. by left.
Qed.

(** X9. With no registered key of the version the device reports, an
    empty list included, the signature ceremony ends in DEVICE_INELIGIBLE
    right after the version query: no authenticate is sent. *)
Theorem sign_without_key_of_version fuel self app_id challenge
    (registered_keys : list registered_key) timeout (w : World Dev)
    cd version d dt :
  sign_client_data self challenge = Ok cd →
  dev_get_version (device w) = (Ok version, d, dt) →
  Forall (other_version version) registered_keys →
  U2fClient.sign fuel self app_id challenge registered_keys timeout w
  = Some (Raise (ClientError DEVICE_INELIGIBLE),
          {| now := now w + Z.of_N dt; device := d;
             log := log w ++ [XGetVersion (Ok version)] |}).
Proof.
  intros Hcd Hdev Hkeys. unfold U2fClient.sign.
  unfold sign_client_data in Hcd. rewrite bind_run, Hcd. unfold lift at 1.
  cbv beta iota. rewrite bind_run. unfold CTAP1.get_version.
  rewrite (command_eq _ _ _ _ _ _ Hdev). cbv beta iota. rewrite bind_run.
  generalize ({| now := now w + Z.of_N dt; device := d;
                 log := log w ++ [XGetVersion (Ok version)] |}).
  intros w1.
  assert (Hloop : U2fClient.sign_keys fuel self app_id cd version timeout
                    registered_keys w1
                  = Some (Raise (ClientError DEVICE_INELIGIBLE), w1)).
  { induction Hkeys as [|key rest (v & Hv & Hne) _ IH]; [done|]. simpl.
    rewrite bind_run. unfold getitem, lift at 1. rewrite Hv.
    by destruct (String.eqb_spec v version). }
  by rewrite Hloop.
Qed.
End u2f_sign.

(** * Fido2Client over CTAP1 *)

Section ctap1_assertions.
Context `{!Utils, !JsonLib, !Rpid} {Dev : Type} `{!U2f Dev, !Fido2 Dev}.

Lemma declined_by_mono h app_param (cs cs' : list descriptor) x :
  (∀ c, c ∈ cs → c ∈ cs') →
  declined_by h app_param cs x → declined_by h app_param cs' x.
Proof.
  intros Hsub (c & code & Hin & ?). exists c, code. split; [by apply Hsub|done].
Qed.

Lemma try_allow_list_run fuel self client_param app_param timeout
    (creds : list descriptor) (w : World Dev) r w' :
  Fido2Client.try_allow_list fuel self client_param app_param timeout creds w
  = Some (r, w') →
  ∃ l0 lf,
    log w' = log w ++ l0 ++ lf
    ∧ ((lf = []
        ∧ Forall (declined_by client_param app_param creds) l0
        ∧ ((r = Raise (CtapError NO_CREDENTIALS)
            ∧ Forall (λ cred, Exists (turned_down client_param app_param cred) l0)
                creds)
           ∨ r = Raise (ClientError TIMEOUT)
           ∨ r = Raise (KeyError "id")))
       ∨ ∃ pre cred post r0 x,
           creds = pre ++ cred :: post
           ∧ lf = [x]
           ∧ asks_assertion client_param app_param cred r0 x
           ∧ (∀ code, r0 ≠ Raise (ApduError code))
           ∧ r = (sd ← r0; Ok [u2f_assertion app_param cred sd])
           ∧ Forall (declined_by client_param app_param (pre ++ [cred])) l0).
Proof.
  revert w. induction creds as [|cred rest IH]; intros w; simpl.
  { intros [= <- <-]. exists [], []. rewrite app_nil_r. split; [done|].
    left. split; [done|]. split; [constructor|]. left. split; [done|constructor]. }
  intros Hrun.
  apply try_except_inv in Hrun
    as [(a & Hm & ->)|[(e & w1 & k & Hm & Hk & Hk1)|(e & Hm & Hk & ->)]].
  - apply bind_inv in Hm as [(key_handle & w1 & Hid & Hm)|(e & _ & [=])].
    apply getitem_inv in Hid as [-> [(? & Hid & [= <-])|[_ [=]]]].
    apply bind_inv in Hm as [(sd & w2 & Hpoll & Hret)|(e & _ & [=])].
    apply ret_inv in Hret as [[= ->] ->].
    apply call_polling_command_trace in Hpoll as (k & lf & Hlog & [[-> _]|[_ [=]]]).
    eexists _, _. split; [exact Hlog|]. right.
    eexists [], cred, rest, (Ok sd), _. split; [done|]. split; [done|].
    split; [by exists key_handle|]. split; [done|]. split; [done|].
    apply Forall_replicate. exists cred, USE_NOT_SATISFIED.
    split; [apply elem_of_cons; by left|]. by exists key_handle.
  - destruct e as [code| | | | | |]; try done. injection Hk as <-.
    apply bind_inv in Hm as [(key_handle & w2 & Hid & Hm)|(e & Hid & [= <-])].
    2:{ by apply getitem_inv in Hid as [_ [(? & _ & [=])|[_ [=]]]]. }
    apply getitem_inv in Hid as [-> [(? & Hid & [= <-])|[_ [=]]]].
    apply bind_inv in Hm as [(sd & w2 & _ & Hret)|(e' & Hpoll & [= <-])];
      [by apply ret_inv in Hret as [[=] _]|].
    apply call_polling_command_trace in Hpoll as (k & lf & Hlog & [[-> Hne]|[_ [=]]]).
    destruct (IH _ Hk1) as (l0 & lf & Hl & Hcases).
    set (x := XAuthenticate client_param app_param key_handle false) in *.
    assert (Hmine : Forall (declined_by client_param app_param [cred])
                      (replicate k (x (Raise (ApduError USE_NOT_SATISFIED)))
                       ++ [x (Raise (ApduError code))])).
    { apply Forall_app. split; [apply Forall_replicate|repeat constructor].
      - exists cred, USE_NOT_SATISFIED. split; [apply elem_of_cons; by left|].
        by exists key_handle.
      - exists cred, code. split; [apply elem_of_cons; by left|]. by exists key_handle. }
    exists ((replicate k (x (Raise (ApduError USE_NOT_SATISFIED)))
             ++ [x (Raise (ApduError code))]) ++ l0), lf.
    split; [by rewrite Hl, Hlog, <-!app_assoc|].
    destruct Hcases as [(-> & Hall & Hr)|(pre & c & post & r0 & y & -> & -> & Hy
                                           & Hr0 & -> & Hall)].
    + left. split; [done|]. split.
      { apply Forall_app. split.
        - eapply Forall_impl; [exact Hmine|]. intros y. apply declined_by_mono.
          intros c. listed.
        - eapply Forall_impl; [exact Hall|]. intros y. apply declined_by_mono.
          intros c. listed. }
      destruct Hr as [[-> Htried]|Hr]; [left|by right].
      split; [done|]. constructor.
      * apply Exists_app. left. apply Exists_app. right. constructor.
        exists code. split; [congruence|]. by exists key_handle.
      * eapply Forall_impl; [exact Htried|]. intros c Hc.
        apply Exists_app. by right.
    + right. exists (cred :: pre), c, post, r0, y. do 5 (split; [done|]).
      apply Forall_app. split.
      * eapply Forall_impl; [exact Hmine|]. intros z. apply declined_by_mono.
        intros c0. listed.
      * eapply Forall_impl; [exact Hall|]. intros z. apply declined_by_mono.
        intros c0. listed.
  - apply bind_inv in Hm as [(key_handle & w2 & Hid & Hm)|(e' & Hid & [= <-])].
    2:{ apply getitem_inv in Hid as [-> [(? & _ & [=])|[_ [= ->]]]].
        exists [], []. rewrite app_nil_r. split; [done|]. left.
        split; [done|]. split; [constructor|]. by right; right. }
    apply getitem_inv in Hid as [-> [(? & Hid & [= <-])|[_ [=]]]].
    apply bind_inv in Hm as [(sd & w2 & _ & Hret)|(e' & Hpoll & [= <-])];
      [by apply ret_inv in Hret as [[=] _]|].
    apply call_polling_command_trace in Hpoll as (k & lf & Hlog & [[-> _]|[-> [= ->]]]).
    + eexists _, _. split; [exact Hlog|]. right.
      eexists [], cred, rest, (Raise e), _. split; [done|]. split; [done|].
      split; [by exists key_handle|]. split; [by intros code [= ->]|].
      split; [done|].
      apply Forall_replicate. exists cred, USE_NOT_SATISFIED.
      split; [apply elem_of_cons; by left|]. by exists key_handle.
    + eexists _, []. split; [exact Hlog|]. left. split; [done|]. split.
      * apply Forall_replicate. exists cred, USE_NOT_SATISFIED.
        split; [apply elem_of_cons; by left|]. by exists key_handle.
      * by right; left.
Qed.

Lemma get_assertion_guard fuel self client_data rp_id allow_list extensions
    rk uv pin timeout (w : World Dev) :
  Fido2Client._ctap1_get_assertion fuel self client_data rp_id allow_list
    extensions rk uv pin timeout w
  = if rk || uv || negb (nonempty allow_list)
    then Some (Raise (CtapError UNSUPPORTED_OPTION), w)
    else Fido2Client.try_allow_list fuel self (ClientData.hash client_data)
           (sha256 (str_encode rp_id)) timeout (default [] allow_list) w.
Proof. unfold Fido2Client._ctap1_get_assertion. by destruct (_ || _). Qed.

(** X18. An assertion obtained over CTAP1 is a single one, made of the
    signature the device gave for one credential of the allow list: the
    last command sent is the authenticate, not check-only, over the hash
    of the client data and of the rp id with that credential's id, and
    every authenticate before it went to that credential or to one
    listed earlier and was refused with a status word. The assertion
    names the credential, carries the rp id hash, the counter and the
    signature, and its flags are the user-presence bit alone. *)
Theorem ctap1_get_assertion_returns_assertion fuel self client_data rp_id
    allow_list extensions rk uv pin timeout (w : World Dev) assertions w' :
  Fido2Client._ctap1_get_assertion fuel self client_data rp_id allow_list
    extensions rk uv pin timeout w = Some (Ok assertions, w') →
  rk = false ∧ uv = false
  ∧ ∃ pre cred post key_handle sd l,
      allow_list = Some (pre ++ cred :: post)
      ∧ cred !! "id" = Some key_handle
      ∧ log w' = log w ++ l
                   ++ [XAuthenticate (ClientData.hash client_data)
                         (sha256 (str_encode rp_id)) key_handle false (Ok sd)]
      ∧ Forall (declined_by (ClientData.hash client_data)
                  (sha256 (str_encode rp_id)) (pre ++ [cred])) l
      ∧ assertions =
          [ {| credential := Some cred;
               assertion_auth_data :=
                 {| rp_id_hash := sha256 (str_encode rp_id);
                    flags := Z.land (user_presence sd) 1;
                    sign_count := counter sd;
                    credential_data := None |};
               assertion_signature := sig_signature sd;
               user := None;
               number_of_credentials := None |} ]
      ∧ (Z.land (user_presence sd) 1 = 0 ∨ Z.land (user_presence sd) 1 = 1)%Z.
Proof.
  rewrite get_assertion_guard.
  destruct rk, uv; try done.
  destruct allow_list as [[|c cs]|]; try done. cbn [orb negb nonempty].
  intros Hrun. split; [done|]. split; [done|].
  apply try_allow_list_run in Hrun as (l0 & lf & Hl & Hcases).
  destruct Hcases as [(_ & _ & [[[=] _]|[[=]|[=]]])
                     |(pre & cred & post & r0 & x & Hsplit & -> & Hx & _ & Hr & Hall)].
  destruct r0 as [sd|e]; [|done]. injection Hr as ->.
  destruct Hx as (key_handle & Hid & ->).
  exists pre, cred, post, key_handle, sd, l0.
  simpl in Hsplit. split; [by rewrite Hsplit|]. do 4 (split; [done|]).
  assert (Hbit : Z.land (user_presence sd) 1 = (user_presence sd mod 2)%Z).
  { apply (Z.land_ones (user_presence sd) 1). lia. }
  pose proof (Z.mod_pos_bound (user_presence sd) 2 ltac:(lia)). lia.
Qed.

(** X19. However it ends, an assertion over CTAP1 sends nothing but
    authenticate commands that ask a credential of the allow list for a
    signature, never a check-only probe, and all of them except possibly
    the last were refused with a status word. No status word reaches the
    caller: the run never raises an ApduError. When the client itself
    gives up with NO_CREDENTIALS, every credential of the allow list was
    asked and turned down with a status word other than
    USE_NOT_SATISFIED. *)
Theorem ctap1_get_assertion_asks_allow_list fuel self client_data rp_id
    allow_list extensions rk uv pin timeout (w : World Dev) r w' :
  Fido2Client._ctap1_get_assertion fuel self client_data rp_id allow_list
    extensions rk uv pin timeout w = Some (r, w') →
  let h := ClientData.hash client_data in
  let app_param := sha256 (str_encode rp_id) in
  let creds := default [] allow_list in
  (∀ code, r ≠ Raise (ApduError code))
  ∧ ∃ l0 lf,
      log w' = log w ++ l0 ++ lf
      ∧ Forall (declined_by h app_param creds) l0
      ∧ length lf ≤ 1
      ∧ Forall (λ x, ∃ cred r0, cred ∈ creds ∧ asks_assertion h app_param cred r0 x
                     ∧ ∀ code, r0 ≠ Raise (ApduError code)) lf
      ∧ (lf = [] → r = Raise (CtapError NO_CREDENTIALS) →
         Forall (λ cred, Exists (turned_down h app_param cred) l0) creds).
Proof.
  rewrite get_assertion_guard. intros Hrun h app_param creds.
  destruct (rk || uv || negb (nonempty allow_list)) eqn:Hguard.
  { injection Hrun as <- <-. split; [done|]. exists [], [].
    rewrite app_nil_r. split; [done|]. split; [constructor|].
    split; [simpl; lia|]. split; [constructor|]. by intros _ [=]. }
  apply try_allow_list_run in Hrun as (l0 & lf & Hl & Hcases).
  destruct Hcases as [(-> & Hall & Hr)
                     |(pre & cred & post & r0 & x & Hsplit & -> & Hx & Hr0 & -> & Hall)].
  - split.
    { intros code. destruct Hr as [[-> _]|[->| ->]]; done. }
    exists l0, []. split; [done|]. split; [done|]. split; [simpl; lia|].
    split; [constructor|]. intros _ Hr'.
    destruct Hr as [[_ Htried]|[->| ->]]; done.
  - split.
    { intros code. destruct r0 as [sd|e]; [done|]. simpl. intros [= ->].
      by apply (Hr0 code). }
    exists l0, [x]. split; [done|]. split.
    { eapply Forall_impl; [exact Hall|]. intros y. apply declined_by_mono.
      intros c. fold creds in Hsplit. rewrite Hsplit. listed. }
    split; [simpl; lia|]. split; [|done].
    repeat constructor. exists cred, r0. split; [|done].
    fold creds in Hsplit. rewrite Hsplit. listed.
Qed.
End ctap1_assertions.

Section ctap1_exclude_list.
Context `{!Utils, !JsonLib, !Rpid} {Dev : Type} `{!U2f Dev, !Fido2 Dev}.

Lemma check_exclude_list_run app_param (creds : list descriptor)
    (w : World Dev) r w' :
  Fido2Client.check_exclude_list app_param creds w = Some (r, w') →
  ∃ probed l,
    log w' = log w ++ l
    ∧ probed `prefix_of` creds
    ∧ Forall2 (probes_credential app_param) probed l
    ∧ (Exists answered l → r = Raise (CtapError CREDENTIAL_EXCLUDED))
    ∧ (r = Ok tt → probed = creds ∧ Forall ignored l)
    ∧ (∀ code, r ≠ Raise (ApduError code)).
Proof.
  revert w. induction creds as [|cred rest IH]; intros w; simpl.
  { intros [= <- <-]. exists [], []. rewrite app_nil_r.
    split; [done|]. split; [done|]. split; [constructor|].
    split; [by intros ?%Exists_nil|]. done. }
  intros Hrun.
  apply bind_inv in Hrun as [(key_handle & w1 & Hid & Hrun)|(e & Hid & ->)];
    apply getitem_inv in Hid as [-> Hid].
  2:{ exists [], []. rewrite app_nil_r. split; [done|].
      split; [apply prefix_nil|]. split; [constructor|].
      split; [by intros ?%Exists_nil|]. split; [done|].
      by destruct Hid as [(? & _ & [=])|[_ [= ->]]]. }
  destruct Hid as [(? & Hid & [= <-])|[_ ?]]; [|done].
  assert (Hprobe : ∀ r0, probes_credential app_param cred
            (XAuthenticate dummy_param app_param key_handle true r0)).
  { intros r0. by exists key_handle, r0. }
  apply bind_inv in Hrun as [([] & w1 & Htry & Hrun)|(e & Htry & ->)];
    apply traces_probe in Htry as (? & Hlog & r0 & -> & Hout); try done.
  - destruct (IH _ Hrun) as (probed & l & Hl & Hpre & Hall & Hans & Hok & Hapdu).
    assert (Hign : ignored (XAuthenticate dummy_param app_param key_handle true r0)).
    { unfold probe_outcome in Hout. destruct r0 as [|[code| | | | | |]]; try done.
      simpl. by destruct (decide _). }
    eexists (cred :: probed), (_ :: l). split; [by rewrite Hl, Hlog, <-app_assoc|].
    split; [by apply prefix_cons|]. split; [by constructor|]. split.
    + intros [Hx|Hx]%Exists_cons; [by apply ignored_not_answered in Hign|eauto].
    + split; [|done].
      intros Hr. destruct (Hok Hr) as [-> ?]. split; [done|]. by constructor.
  - eexists [cred], [_]. split; [exact Hlog|].
    split; [apply prefix_cons, prefix_nil|].
    split; [by repeat constructor|]. split; [|split; [done|]].
    + intros [Hx|Hx%Exists_nil]%Exists_cons; [|done].
      unfold probe_outcome in Hout. destruct r0 as [|e0]; [done|].
      simpl in Hx. subst e0. by rewrite decide_True in Hout.
    + intros code [= ->]. unfold probe_outcome in Hout.
      destruct r0 as [|[c| | | | | |]]; try done.
      by destruct (decide _).
Qed.

(** X17. Making a credential over CTAP1 first probes the exclude list,
    an absent list counting as empty: in order, one check-only
    authenticate per excluded credential, with 32 zero bytes as
    challenge, the hash of rp['id'] and the credential's id. A probe
    that is answered, with a response or with USE_NOT_SATISFIED, ends
    the run in CREDENTIAL_EXCLUDED with no register command sent; a run
    that reaches the register command, or returns, has probed every
    excluded credential and seen each probe fail with another status
    word. USE_NOT_SATISFIED never reaches the caller. *)
Theorem ctap1_make_credential_exclude_list fuel self client_data
    (rp : gmap string string) user algos exclude_list extensions rk uv pin
    timeout (w : World Dev) r w' :
  Fido2Client._ctap1_make_credential fuel self client_data rp user algos
    exclude_list extensions rk uv pin timeout w = Some (r, w') →
  let app_param := sha256 (str_encode (default "" (rp !! "id"))) in
  ∃ probed l_probe l_reg,
    log w' = log w ++ l_probe ++ l_reg
    ∧ probed `prefix_of` default [] exclude_list
    ∧ Forall2 (probes_credential app_param) probed l_probe
    ∧ Forall (λ x, ∃ r0, x = XRegister (ClientData.hash client_data) app_param r0)
        l_reg
    ∧ (Exists answered l_probe →
       r = Raise (CtapError CREDENTIAL_EXCLUDED) ∧ l_reg = [])
    ∧ (l_reg ≠ [] ∨ (∃ att, r = Ok att) →
       probed = default [] exclude_list ∧ Forall ignored l_probe)
    ∧ r ≠ Raise (ApduError USE_NOT_SATISFIED).
Proof.
  intros Hrun app_param. unfold Fido2Client._ctap1_make_credential in Hrun.
  assert (Hstop : ∀ e, log w' = log w → r = Raise e →
            e ≠ ApduError USE_NOT_SATISFIED →
            ∃ (probed : list descriptor) (l_probe l_reg : list Exchange),
              log w' = log w ++ l_probe ++ l_reg
              ∧ probed `prefix_of` default [] exclude_list
              ∧ Forall2 (probes_credential app_param) probed l_probe
              ∧ Forall (λ x, ∃ r0, x = XRegister (ClientData.hash client_data)
                                       app_param r0) l_reg
              ∧ (Exists answered l_probe →
                 r = Raise (CtapError CREDENTIAL_EXCLUDED) ∧ l_reg = [])
              ∧ (l_reg ≠ [] ∨ (∃ att, r = Ok att) →
                 probed = default [] exclude_list ∧ Forall ignored l_probe)
              ∧ r ≠ Raise (ApduError USE_NOT_SATISFIED)).
  { intros e Hlog -> He. exists [], [], []. rewrite Hlog, app_nil_r.
    split; [done|]. split; [apply prefix_nil|]. split; [constructor|].
    split; [constructor|]. split; [by intros ?%Exists_nil|].
    split; [by intros [?|[? ?]]|]. congruence. }
  destruct (rk || uv).
  { injection Hrun as <- <-. by eapply Hstop. }
  apply bind_inv in Hrun as [(rp_id & w1 & Hid & Hrun)|(e & Hid & ->)];
    apply getitem_inv in Hid as [-> Hid].
  2:{ destruct Hid as [(? & _ & [=])|[_ [= ->]]]. by eapply Hstop. }
  destruct Hid as [(? & Hid & [= <-])|[_ ?]]; [|done].
  subst app_param. rewrite Hid in *. simpl default in *.
  apply bind_inv in Hrun as [([] & w2 & Hloop & Hrun)|(e & Hloop & ->)];
    apply check_exclude_list_run in Hloop
      as (probed & l & Hl & Hpre & Hall & Hans & Hok & Hapdu).
  2:{ exists probed, l, []. rewrite app_nil_r. split; [done|]. split; [done|].
      split; [done|]. split; [constructor|].
      split; [by intros [= ->]%Hans|]. split; [by intros [?|[? ?]]|].
      intros [= ->]. by apply (Hapdu USE_NOT_SATISFIED). }
  destruct (Hok eq_refl) as [-> Hign].
  assert (Hnone : ¬ Exists answered l).
  { intros (x & Hx & Hax)%Exists_exists. rewrite Forall_forall in Hign.
    by eapply ignored_not_answered; [apply Hign|]. }
  assert (Hpolled : ∃ r1 w3, _call_polling fuel (Fido2Client.ctap1_poll_delay self)
                       timeout (CTAP1.register (ClientData.hash client_data)
                                  (sha256 (str_encode rp_id))) w2 = Some (r1, w3)
                     ∧ log w' = log w3
                     ∧ (r = Raise (ApduError USE_NOT_SATISFIED) →
                        r1 = Raise (ApduError USE_NOT_SATISFIED))).
  { apply bind_inv in Hrun as [(reg & w3 & Hpoll & Hrun)|(e & Hpoll & ->)].
    - apply ret_inv in Hrun as [-> ->]. eexists _, _. split; [exact Hpoll|]. done.
    - eexists _, _. split; [exact Hpoll|]. by split; [|intros [= ->]]. }
  destruct Hpolled as (r1 & w3 & Hpoll & -> & Huns).
  pose proof Hpoll as Hpoll'.
  apply call_polling_command_trace in Hpoll as (k & lf & Hlog & Hlf).
  eexists (default [] exclude_list), l, (replicate k _ ++ lf).
  split; [by rewrite Hlog, Hl, <-app_assoc|]. do 2 (split; [done|]).
  split.
  { apply Forall_app. split; [apply Forall_replicate; eauto|].
    destruct Hlf as [[-> _]|[-> _]]; repeat constructor. eauto. }
  split; [done|]. split; [done|].
  intros Hr. specialize (Huns Hr). subst r1.
  by destruct Hlf as [[_ ?]|[_ [=]]].
Qed.
End ctap1_exclude_list.

(** * Fido2Client over CTAP2 *)

Section ctap2_requests.
Context `{!Utils, !JsonLib, !Rpid} {Dev : Type} `{!U2f Dev, !Fido2 Dev}.

Lemma options_block_spec rk uv : options_of rk uv (Fido2Client.options_block rk uv).
Proof.
  unfold options_of, Fido2Client.options_block.
  destruct rk, uv; simpl; (split; [split; [done|by intros [? ?]]|]);
    intros d [= <-] k v; rewrite ?elem_of_cons, ?elem_of_nil;
    (split; [intros Hin|intros [-> Hk]]).
  - destruct Hin as [[= -> ->]|[[= -> ->]|[]]]; auto.
  - destruct Hk as [[-> _]|[-> _]]; auto.
  - destruct Hin as [[= -> ->]|[]]; auto.
  - destruct Hk as [[-> _]|[_ [=]]]; auto.
  - destruct Hin as [[= -> ->]|[]]; auto.
  - destruct Hk as [[_ [=]]|[-> _]]; auto.
Qed.

Lemma truthy_some (pin : option string) :
  truthy pin = true → ∃ p, pin = Some p ∧ p ≠ EmptyString.
Proof.
  destruct pin as [p|]; [|done]. simpl.
  destruct (String.eqb_spec p EmptyString) as [->|Hne]; [done|]. eauto.
Qed.

Lemma pin_block_run client_data info pin (w : World Dev) r w' :
  Fido2Client.pin_block client_data info pin w = Some (r, w') →
  (∃ pre pin_auth pin_protocol,
     r = Ok (pin_auth, pin_protocol)
     ∧ log w' = log w ++ pre
     ∧ pin_arguments (ClientData.hash client_data) pin pre pin_auth pin_protocol)
  ∨ (∃ e, r = Raise e
          ∧ (log w' = log w
             ∨ ∃ p, pin = Some p ∧ log w' = log w ++ [XGetPinToken p (Raise e)])).
Proof.
  unfold Fido2Client.pin_block.
  destruct (truthy pin) eqn:Htruthy.
  - destruct (truthy_some _ Htruthy) as (p & -> & Hp).
    cbv zeta. destruct (negb _).
    { intros [= <- <-]. right. eauto. }
    intros Hrun.
    apply bind_inv in Hrun as [(pin_token & w1 & Htok & Hrun)|(e & Htok & ->)];
      apply command_inv in Htok.
    + apply ret_inv in Hrun as [-> ->]. left.
      eexists _, _, _. split; [done|]. split; [exact Htok|].
      right. by exists p, pin_token.
    + right. exists e. split; [done|]. right. by exists p.
  - destruct (default false _).
    { intros [= <- <-]. right. eauto. }
    intros [= <- <-]. left. exists [], None, None. rewrite app_nil_r.
    split; [done|]. split; [done|]. by left.
Qed.

(** X14. On the CTAP2 path make_credential asks for the device's info,
    fetches a PIN token when a PIN is given, and then sends one
    make_credential command, whose reply is the result. The command
    carries the hash of the client data, rp, user, exclude list,
    extensions and timeout as given, one public-key parameter per
    algorithm in order, options that hold exactly the flags set (none
    when neither is), and the PIN arguments: absent without a PIN,
    otherwise the first 16 bytes of the HMAC of the hash under the
    token and protocol 1. A run that sends no make_credential command
    fails. *)
Theorem ctap2_make_credential_request self client_data (rp : gmap string string)
    user algos exclude_list extensions rk uv pin timeout (w : World Dev) r w' :
  Fido2Client._ctap2_make_credential self client_data rp user algos
    exclude_list extensions rk uv pin timeout w = Some (r, w') →
  ∃ l, log w' = log w ++ l
       ∧ ((Forall (λ x, ¬ is_credential_command x) l ∧ ∃ e, r = Raise e)
          ∨ ∃ info pre a,
              l = XGetInfo (Ok info) :: pre ++ [XMakeCredential a r]
              ∧ pin_arguments (ClientData.hash client_data) pin pre
                  (mc_pin_auth a) (mc_pin_protocol a)
              ∧ mc_client_data_hash a = ClientData.hash client_data
              ∧ mc_rp a = rp
              ∧ mc_user a = user
              ∧ mc_key_params a
                = (λ alg, [("type", PStr "public-key"); ("alg", PInt alg)]) <$> algos
              ∧ mc_exclude_list a = exclude_list
              ∧ mc_extensions a = extensions
              ∧ options_of rk uv (mc_options a)
              ∧ mc_timeout a = timeout).
Proof.
  unfold Fido2Client._ctap2_make_credential. intros Hrun.
  apply bind_inv in Hrun as [(info & w1 & Hinfo & Hrun)|(e & Hinfo & ->)];
    apply command_inv in Hinfo.
  2:{ exists [XGetInfo (Raise e)]. split; [done|]. left.
      split; [|eauto]. repeat (apply Forall_cons_2; [by intros []|]). apply Forall_nil_2. }
  apply bind_inv in Hrun as [([pin_auth pin_protocol] & w2 & Hpin & Hrun)
                            |(e & Hpin & ->)];
    apply pin_block_run in Hpin
      as [(pre & pa & pp & Hr & Hlog & Hargs)|(e' & Hr & Hlog)]; try done.
  - injection Hr as <- <-. apply command_inv in Hrun.
    eexists. split; [by rewrite Hrun, Hlog, Hinfo, <-!app_assoc|]. right.
    eexists info, pre, _. split; [done|]. split; [exact Hargs|].
    do 6 (split; [done|]). split; [apply options_block_spec|done].
  - injection Hr as <-. destruct Hlog as [Hlog|(p & -> & Hlog)].
    + exists [XGetInfo (Ok info)]. split; [by rewrite Hlog, Hinfo|]. left.
      split; [|eauto]. repeat (apply Forall_cons_2; [by intros []|]). apply Forall_nil_2.
    + exists [XGetInfo (Ok info); XGetPinToken p (Raise e)].
      split; [by rewrite Hlog, Hinfo, <-app_assoc|]. left.
      split; [|eauto]. repeat (apply Forall_cons_2; [by intros []|]). apply Forall_nil_2.
Qed.

(** X16. On the CTAP2 path get_assertion asks for the device's info,
    fetches a PIN token when a PIN is given, and then sends one
    get_assertion command, followed only by get_next_assertion
    commands. The command carries the rp id, the hash of the client
    data, allow list, extensions and timeout as given, options that hold
    exactly the flags set, and the PIN arguments as for
    make_credential. A run that sends no get_assertion command fails. *)
Theorem ctap2_get_assertion_request self client_data rp_id allow_list
    extensions rk uv pin timeout (w : World Dev) r w' :
  Fido2Client._ctap2_get_assertion self client_data rp_id allow_list
    extensions rk uv pin timeout w = Some (r, w') →
  ∃ l, log w' = log w ++ l
       ∧ ((Forall (λ x, ¬ is_credential_command x) l ∧ ∃ e, r = Raise e)
          ∨ ∃ info pre a r0 rs,
              l = XGetInfo (Ok info) :: pre
                    ++ XGetAssertion a r0 :: (XGetNextAssertion <$> rs)
              ∧ pin_arguments (ClientData.hash client_data) pin pre
                  (ga_pin_auth a) (ga_pin_protocol a)
              ∧ ga_rp_id a = rp_id
              ∧ ga_client_data_hash a = ClientData.hash client_data
              ∧ ga_allow_list a = allow_list
              ∧ ga_extensions a = extensions
              ∧ options_of rk uv (ga_options a)
              ∧ ga_timeout a = timeout
              ∧ (∀ e, r0 = Raise e → r = Raise e ∧ rs = [])).
Proof.
  unfold Fido2Client._ctap2_get_assertion. intros Hrun.
  apply bind_inv in Hrun as [(info & w1 & Hinfo & Hrun)|(e & Hinfo & ->)];
    apply command_inv in Hinfo.
  2:{ exists [XGetInfo (Raise e)]. split; [done|]. left.
      split; [|eauto]. repeat (apply Forall_cons_2; [by intros []|]). apply Forall_nil_2. }
  apply bind_inv in Hrun as [([pin_auth pin_protocol] & w2 & Hpin & Hrun)
                            |(e & Hpin & ->)];
    apply pin_block_run in Hpin
      as [(pre & pa & pp & Hr & Hlog & Hargs)|(e' & Hr & Hlog)]; try done.
  - injection Hr as <- <-.
    apply bind_inv in Hrun as [(first & w3 & Hga & Hrun)|(e & Hga & ->)];
      apply command_inv in Hga.
    + apply get_next_assertions_trace in Hrun as (rs & Hrs & _).
      eexists. split; [by rewrite Hrs, Hga, Hlog, Hinfo, <-!app_assoc|]. right.
      eexists info, pre, _, (Ok first), rs. split; [done|]. split; [exact Hargs|].
      do 4 (split; [done|]). split; [apply options_block_spec|]. done.
    + eexists. split; [by rewrite Hga, Hlog, Hinfo, <-!app_assoc|]. right.
      eexists info, pre, _, (Raise e), []. split; [done|]. split; [exact Hargs|].
      do 4 (split; [done|]). split; [apply options_block_spec|].
      split; [done|]. by intros ? [= <-].
  - injection Hr as <-. destruct Hlog as [Hlog|(p & -> & Hlog)].
    + exists [XGetInfo (Ok info)]. split; [by rewrite Hlog, Hinfo|]. left.
      split; [|eauto]. repeat (apply Forall_cons_2; [by intros []|]). apply Forall_nil_2.
    + exists [XGetInfo (Ok info); XGetPinToken p (Raise e)].
      split; [by rewrite Hlog, Hinfo, <-app_assoc|]. left.
      split; [|eauto]. repeat (apply Forall_cons_2; [by intros []|]). apply Forall_nil_2.
Qed.

(** X15. A device that does not require a PIN, whether its clientPin
    option is absent or false, is sent the make_credential command
    right after get_info when the caller gives no PIN or an empty one:
    no token is fetched, pin_auth and pin_protocol are absent, and the
    device's reply is returned as it is. *)
Theorem ctap2_make_credential_without_pin self client_data
    (rp : gmap string string) user algos exclude_list extensions rk uv pin
    timeout (w : World Dev) info d1 dt1 :
  dev_get_info (device w) = (Ok info, d1, dt1) →
  pin = None ∨ pin = Some EmptyString →
  options info !! "clientPin" ≠ Some true →
  ∃ a r d2 dt2,
    dev_make_credential a d1 = (r, d2, dt2)
    ∧ mc_pin_auth a = None ∧ mc_pin_protocol a = None
    ∧ Fido2Client._ctap2_make_credential self client_data rp user algos
        exclude_list extensions rk uv pin timeout w
      = Some (r, {| now := now w + Z.of_N dt1 + Z.of_N dt2; device := d2;
                    log := log w ++ [XGetInfo (Ok info); XMakeCredential a r] |}).
Proof.
  intros Hinfo Hpin Hopt.
  assert (Hget : CTAP2.get_info w = Some (Ok info, informed w info d1 dt1)).
  { unfold CTAP2.get_info. by rewrite (command_eq _ _ _ _ _ _ Hinfo). }
  assert (Hblock : Fido2Client.pin_block client_data info pin
                     (informed w info d1 dt1)
                   = Some (Ok (None, None), informed w info d1 dt1)).
  { unfold Fido2Client.pin_block.
    assert (truthy pin = false) as -> by (by destruct Hpin as [-> | ->]).
    destruct (options info !! "clientPin") as [[]|]; done. }
  set (args := {| mc_client_data_hash := ClientData.hash client_data;
                  mc_rp := rp; mc_user := user;
                  mc_key_params :=
                    (λ alg, [("type", PStr "public-key"); ("alg", PInt alg)])
                      <$> algos;
                  mc_exclude_list := exclude_list; mc_extensions := extensions;
                  mc_options := Fido2Client.options_block rk uv;
                  mc_pin_auth := None; mc_pin_protocol := None;
                  mc_timeout := timeout |}).
  destruct (dev_make_credential args d1) as [[r d2] dt2] eqn:Hdev.
  exists args, r, d2, dt2. split; [done|]. split; [done|]. split; [done|].
  unfold Fido2Client._ctap2_make_credential.
  rewrite bind_run, Hget. cbv beta iota zeta. rewrite bind_run, Hblock.
  cbv beta iota. fold args. unfold CTAP2.make_credential.
  rewrite (command_eq _ _ (informed w info d1 dt1) _ _ _ Hdev). simpl.
  by rewrite <-app_assoc.
Qed.
End ctap2_requests.

(** * Fido2Client: the transport and the public ceremonies *)

Section fido2_transport.
Context `{!Utils, !JsonLib, !Rpid} {Dev : Type} `{!U2f Dev, !Fido2 Dev}.


Lemma make_credential_run fuel self (rp : gmap string string) user challenge
    algos exclude_list extensions rk uv pin timeout (w : World Dev) r w' :
  Fido2Client.make_credential fuel self rp user challenge algos exclude_list
    extensions rk uv pin timeout w = Some (r, w') →
  (log w' = log w ∧ ∃ e, r = Raise e)
  ∨ ∃ id cd r1,
      rp !! "id" = Some id
      ∧ Fido2Client._verify self id (Fido2Client.origin self) = Ok true
      ∧ create_client_data self challenge = Ok cd
      ∧ Fido2Client._do_make_credential fuel self cd rp user algos exclude_list
          extensions rk uv pin timeout w = Some (r1, w')
      ∧ r = (att ← r1; Ok (att, cd)).
Proof.
  unfold Fido2Client.make_credential. intros Hrun.
  apply bind_inv in Hrun as [(id & w1 & Hid & Hrun)|(e & Hid & ->)];
    apply getitem_inv in Hid as [-> Hid]; [|left; eauto].
  destruct Hid as [(? & Hid & [= <-])|[_ ?]]; [|done].
  apply bind_inv in Hrun as [([] & w1 & Hver & Hrun)|(e & Hver & ->)];
    apply verify_rp_id_inv in Hver as [-> Hver]; [|left; eauto].
  destruct Hver as [[_ Hver]|?]; [|done].
  apply bind_inv in Hrun as [(cd & w1 & Hcd & Hrun)|(e & Hcd & ->)];
    apply lift_inv in Hcd as [Hcd ->]; [|left; eauto].
  right. exists id, cd.
  apply bind_inv in Hrun as [(att & w1 & Hdo & Hrun)|(e & Hdo & ->)].
  - apply ret_inv in Hrun as [-> ->]. by exists (Ok att).
  - by exists (Raise e).
Qed.

Lemma get_assertion_run fuel self rp_id challenge allow_list extensions rk uv
    pin timeout (w : World Dev) r w' :
  Fido2Client.get_assertion fuel self rp_id challenge allow_list extensions
    rk uv pin timeout w = Some (r, w') →
  (log w' = log w ∧ ∃ e, r = Raise e)
  ∨ ∃ cd r1,
      Fido2Client._verify self rp_id (Fido2Client.origin self) = Ok true
      ∧ get_client_data self challenge = Ok cd
      ∧ Fido2Client._do_get_assertion fuel self cd rp_id allow_list extensions
          rk uv pin timeout w = Some (r1, w')
      ∧ r = (assertions ← r1; Ok (assertions, cd)).
Proof.
  unfold Fido2Client.get_assertion. intros Hrun.
  apply bind_inv in Hrun as [([] & w1 & Hver & Hrun)|(e & Hver & ->)];
    apply verify_rp_id_inv in Hver as [-> Hver]; [|left; eauto].
  destruct Hver as [[_ Hver]|?]; [|done].
  apply bind_inv in Hrun as [(cd & w1 & Hcd & Hrun)|(e & Hcd & ->)];
    apply lift_inv in Hcd as [Hcd ->]; [|left; eauto].
  right. exists cd.
  apply bind_inv in Hrun as [(a & w1 & Hdo & Hrun)|(e & Hdo & ->)].
  - apply ret_inv in Hrun as [-> ->]. by exists (Ok a).
  - by exists (Raise e).
Qed.

Lemma ctap2_prelude_run client_data info pin (w : World Dev) r w1 w2 :
  log w1 = log w ++ [XGetInfo (Ok info)] →
  Fido2Client.pin_block client_data info pin w1 = Some (r, w2) →
  ∃ l, log w2 = log w ++ l ∧ Forall on_ctap2 l.
Proof.
  intros Hinfo Hpin.
  apply pin_block_run in Hpin
    as [(pre & pa & pp & _ & Hlog & Hargs)|(e & _ & [Hlog|(p & _ & Hlog)])].
  - exists (XGetInfo (Ok info) :: pre). split; [by rewrite Hlog, Hinfo, <-app_assoc|].
    constructor; [done|].
    destruct Hargs as [(_ & -> & _)|(p & tok & _ & _ & -> & _)]; by repeat constructor.
  - exists [XGetInfo (Ok info)]. split; [by rewrite Hlog, Hinfo|]. by repeat constructor.
  - eexists [XGetInfo (Ok info); _]. split; [by rewrite Hlog, Hinfo, <-app_assoc|].
    by repeat constructor.
Qed.

Lemma do_make_credential_transport fuel self client_data (rp : gmap string string)
    user algos exclude_list extensions rk uv pin timeout (w : World Dev) r w' :
  Fido2Client._do_make_credential fuel self client_data rp user algos
    exclude_list extensions rk uv pin timeout w = Some (r, w') →
  ∃ l, log w' = log w ++ l ∧ Forall (on_transport (Fido2Client.ctap self)) l.
Proof.
  unfold Fido2Client._do_make_credential. destruct (Fido2Client.ctap self); simpl.
  - unfold Fido2Client._ctap2_make_credential. intros Hrun.
    apply bind_inv in Hrun as [(info & w1 & Hinfo & Hrun)|(e & Hinfo & ->)];
      apply command_inv in Hinfo; [|eexists; split; [done|by repeat constructor]].
    apply bind_inv in Hrun as [([pa pp] & w2 & Hpin & Hrun)|(e & Hpin & ->)];
      destruct (ctap2_prelude_run _ _ _ _ _ _ _ Hinfo Hpin) as (l & Hl & Hall);
      [|by eauto].
    apply command_inv in Hrun. eexists. split; [by rewrite Hrun, Hl, <-app_assoc|].
    apply Forall_app. split; [done|]. by repeat constructor.
  - unfold Fido2Client._ctap1_make_credential. destruct (rk || uv).
    { intros [= <- <-]. exists []. by rewrite app_nil_r. }
    intros Hrun.
    apply bind_inv in Hrun as [(rp_id & w1 & Hid & Hrun)|(e & Hid & ->)];
      apply lift_inv in Hid as [_ ->];
      [|exists []; by rewrite app_nil_r].
    apply bind_inv in Hrun as [([] & w2 & Hloop & Hrun)|(e & Hloop & ->)];
      apply check_exclude_list_trace in Hloop as (l & Hl & Hprobes).
    2:{ exists l. split; [done|]. eapply Forall_impl; [exact Hprobes|].
        by intros x (? & ? & ? & ->). }
    assert (Hpoll : ∃ r1 w3, _call_polling fuel (Fido2Client.ctap1_poll_delay self)
                      timeout (CTAP1.register (ClientData.hash client_data)
                                 (sha256 (str_encode rp_id))) w2 = Some (r1, w3)
                    ∧ log w' = log w3).
    { apply bind_inv in Hrun as [(reg & w3 & Hpoll & Hrun)|(e & Hpoll & ->)];
        [apply ret_inv in Hrun as [_ ->]|]; eauto. }
    destruct Hpoll as (r1 & w3 & Hpoll & ->).
    apply traces_call_polling_command with (P := on_ctap1) in Hpoll
      as (l2 & Hl2 & Hall2); [|done].
    exists (l ++ l2). split; [by rewrite Hl2, Hl, <-app_assoc|].
    apply Forall_app. split; [|done].
    eapply Forall_impl; [exact Hprobes|]. by intros x (? & ? & ? & ->).
Qed.

Lemma do_get_assertion_transport fuel self client_data rp_id allow_list
    extensions rk uv pin timeout (w : World Dev) r w' :
  Fido2Client._do_get_assertion fuel self client_data rp_id allow_list
    extensions rk uv pin timeout w = Some (r, w') →
  ∃ l, log w' = log w ++ l ∧ Forall (on_transport (Fido2Client.ctap self)) l.
Proof.
  unfold Fido2Client._do_get_assertion. destruct (Fido2Client.ctap self); simpl.
  - unfold Fido2Client._ctap2_get_assertion. intros Hrun.
    apply bind_inv in Hrun as [(info & w1 & Hinfo & Hrun)|(e & Hinfo & ->)];
      apply command_inv in Hinfo; [|eexists; split; [done|by repeat constructor]].
    apply bind_inv in Hrun as [([pa pp] & w2 & Hpin & Hrun)|(e & Hpin & ->)];
      destruct (ctap2_prelude_run _ _ _ _ _ _ _ Hinfo Hpin) as (l & Hl & Hall);
      [|by eauto].
    apply bind_inv in Hrun as [(first & w3 & Hga & Hrun)|(e & Hga & ->)];
      apply command_inv in Hga.
    + apply get_next_assertions_trace in Hrun as (rs & Hrs & _).
      eexists. split; [by rewrite Hrs, Hga, Hl, <-!app_assoc|].
      apply Forall_app. split; [done|]. constructor; [done|].
      apply Forall_fmap, Forall_forall. done.
    + eexists. split; [by rewrite Hga, Hl, <-app_assoc|].
      apply Forall_app. split; [done|]. by repeat constructor.
  - rewrite get_assertion_guard. destruct (_ || _).
    { intros [= <- <-]. exists []. by rewrite app_nil_r. }
    intros Hrun. apply try_allow_list_run in Hrun as (l0 & lf & Hl & Hcases).
    exists (l0 ++ lf). split; [done|]. apply Forall_app.
    assert (Hdecl : ∀ cs, Forall (declined_by (ClientData.hash client_data)
                                    (sha256 (str_encode rp_id)) cs) l0 →
                          Forall on_ctap1 l0).
    { intros cs Hcs. eapply Forall_impl; [exact Hcs|].
      by intros x (? & ? & _ & ? & _ & ->). }
    destruct Hcases as [(-> & Hall & _)|(? & ? & ? & ? & ? & _ & -> & Hx & _ & _ & Hall)].
    + split; [by eapply Hdecl|constructor].
    + split; [by eapply Hdecl|]. destruct Hx as (? & _ & ->). by repeat constructor.
Qed.

(** X11. A Fido2Client never mixes transports: whatever the arguments
    and the outcome, make_credential and get_assertion on a client
    bound to CTAP2 send only CTAP2 commands (get_info, get_pin_token,
    make_credential, get_assertion, get_next_assertion), and on a client
    bound to CTAP1 only register and authenticate commands, without
    asking for the version. *)
Theorem fido2_client_stays_on_transport fuel self :
  (∀ (rp : gmap string string) user challenge algos exclude_list extensions
     rk uv pin timeout (w : World Dev) r w',
     Fido2Client.make_credential fuel self rp user challenge algos exclude_list
       extensions rk uv pin timeout w = Some (r, w') →
     ∃ l, log w' = log w ++ l
          ∧ Forall (on_transport (Fido2Client.ctap self)) l)
  ∧ (∀ rp_id challenge allow_list extensions rk uv pin timeout
       (w : World Dev) r w',
       Fido2Client.get_assertion fuel self rp_id challenge allow_list extensions
         rk uv pin timeout w = Some (r, w') →
       ∃ l, log w' = log w ++ l
            ∧ Forall (on_transport (Fido2Client.ctap self)) l).
Proof.
  assert (Hnil : ∀ w w' : World Dev, log w' = log w →
            ∃ l, log w' = log w ++ l
                 ∧ Forall (on_transport (Fido2Client.ctap self)) l).
  { intros w w' ->. exists []. by rewrite app_nil_r. }
  split.
  - intros rp user challenge algos excl ext rk uv pin timeout w r w' Hrun.
    apply make_credential_run in Hrun
      as [[Hlog _]|(id & cd & r1 & _ & _ & _ & Hdo & _)]; [by apply Hnil|].
    by apply do_make_credential_transport in Hdo.
  - intros rp_id challenge allow ext rk uv pin timeout w r w' Hrun.
    apply get_assertion_run in Hrun
      as [[Hlog _]|(cd & r1 & _ & _ & Hdo & _)]; [by apply Hnil|].
    by apply do_get_assertion_transport in Hdo.
Qed.

(** X12. A make_credential that returns hands back the client data it
    built from the challenge and the client's origin, for a relying
    party whose id passed verification, and the attestation is the
    answer to the last command sent, which carried the hash of that very
    client data: the make_credential command on a client bound to
    CTAP2, the register command with the hash of rp['id'] on one bound
    to CTAP1. *)
Theorem make_credential_returns_client_data fuel self (rp : gmap string string)
    user challenge algos exclude_list extensions rk uv pin timeout
    (w : World Dev) att cd w' :
  Fido2Client.make_credential fuel self rp user challenge algos exclude_list
    extensions rk uv pin timeout w = Some (Ok (att, cd), w') →
  ∃ id l x,
    rp !! "id" = Some id
    ∧ Fido2Client._verify self id (Fido2Client.origin self) = Ok true
    ∧ create_client_data self challenge = Ok cd
    ∧ log w' = log w ++ l ++ [x]
    ∧ match Fido2Client.ctap self with
      | Fido2Client.Ctap2 =>
          ∃ a, x = XMakeCredential a (Ok att)
               ∧ mc_client_data_hash a = ClientData.hash cd
               ∧ mc_rp a = rp
      | Fido2Client.Ctap1 =>
          ∃ reg, x = XRegister (ClientData.hash cd) (sha256 (str_encode id)) (Ok reg)
                 ∧ att = Fido2Client.u2f_attestation (sha256 (str_encode id)) reg
      end.
Proof.
  intros Hrun.
  apply make_credential_run in Hrun
    as [[_ [e [=]]]|(id & cd0 & r1 & Hid & Hver & Hcd & Hdo & Hr)].
  destruct r1 as [att0|e]; [|done]. injection Hr as -> ->.
  exists id. unfold Fido2Client._do_make_credential in Hdo.
  destruct (Fido2Client.ctap self).
  - unfold Fido2Client._ctap2_make_credential in Hdo.
    apply bind_inv in Hdo as [(info & w1 & Hinfo & Hdo)|(e & _ & [=])].
    apply command_inv in Hinfo.
    apply bind_inv in Hdo as [([pa pp] & w2 & Hpin & Hdo)|(e & _ & [=])].
    destruct (ctap2_prelude_run _ _ _ _ _ _ _ Hinfo Hpin) as (l & Hl & _).
    apply command_inv in Hdo.
    eexists l, _. do 3 (split; [done|]). split; [by rewrite Hdo, Hl, <-app_assoc|].
    eexists. split; [done|]. done.
  - unfold Fido2Client._ctap1_make_credential in Hdo.
    destruct (rk || uv); [done|].
    apply bind_inv in Hdo as [(rp_id & w1 & Hid' & Hdo)|(e & _ & [=])].
    apply getitem_inv in Hid' as [-> [(? & Hid' & [= <-])|[_ [=]]]].
    rewrite Hid in Hid'. injection Hid' as <-.
    apply bind_inv in Hdo as [([] & w2 & Hloop & Hdo)|(e & _ & [=])].
    apply check_exclude_list_trace in Hloop as (l & Hl & _).
    apply bind_inv in Hdo as [(reg & w3 & Hpoll & Hdo)|(e & _ & [=])].
    apply ret_inv in Hdo as [[= ->] ->].
    apply call_polling_command_trace in Hpoll as (k & lf & Hlog & [[-> _]|[_ [=]]]).
    eexists (l ++ replicate k _), _. do 3 (split; [done|]).
    split; [by rewrite Hlog, Hl, <-!app_assoc|]. by exists reg.
Qed.

(** X13. A get_assertion that returns hands back the client data it
    built from the challenge and the client's origin, for an rp id that
    passed verification, with the assertions the device gave for the
    hash of that very client data: on a client bound to CTAP2 the
    answer to the get_assertion command for that rp id followed by the
    answers to the get_next_assertion commands, in order; on one bound
    to CTAP1 the single assertion made of the answer to the last
    authenticate sent. *)
Theorem get_assertion_returns_client_data fuel self rp_id challenge allow_list
    extensions rk uv pin timeout (w : World Dev) assertions cd w' :
  Fido2Client.get_assertion fuel self rp_id challenge allow_list extensions
    rk uv pin timeout w = Some (Ok (assertions, cd), w') →
  Fido2Client._verify self rp_id (Fido2Client.origin self) = Ok true
  ∧ get_client_data self challenge = Ok cd
  ∧ ∃ l x rest,
      log w' = log w ++ l ++ x :: rest
      ∧ match Fido2Client.ctap self with
        | Fido2Client.Ctap2 =>
            ∃ a first nexts,
              x = XGetAssertion a (Ok first)
              ∧ ga_rp_id a = rp_id
              ∧ ga_client_data_hash a = ClientData.hash cd
              ∧ rest = XGetNextAssertion <$> (Ok <$> nexts)
              ∧ assertions = first :: nexts
        | Fido2Client.Ctap1 =>
            ∃ cred key_handle sd,
              cred ∈ default [] allow_list
              ∧ cred !! "id" = Some key_handle
              ∧ x = XAuthenticate (ClientData.hash cd) (sha256 (str_encode rp_id))
                      key_handle false (Ok sd)
              ∧ rest = []
              ∧ assertions = [u2f_assertion (sha256 (str_encode rp_id)) cred sd]
        end.
Proof.
  intros Hrun.
  apply get_assertion_run in Hrun
    as [[_ [e [=]]]|(cd0 & r1 & Hver & Hcd & Hdo & Hr)].
  destruct r1 as [as0|e]; [|done]. injection Hr as -> ->.
  split; [done|]. split; [done|].
  unfold Fido2Client._do_get_assertion in Hdo.
  destruct (Fido2Client.ctap self).
  - unfold Fido2Client._ctap2_get_assertion in Hdo.
    apply bind_inv in Hdo as [(info & w1 & Hinfo & Hdo)|(e & _ & [=])].
    apply command_inv in Hinfo.
    apply bind_inv in Hdo as [([pa pp] & w2 & Hpin & Hdo)|(e & _ & [=])].
    destruct (ctap2_prelude_run _ _ _ _ _ _ _ Hinfo Hpin) as (l & Hl & _).
    apply bind_inv in Hdo as [(first & w3 & Hga & Hdo)|(e & _ & [=])].
    apply command_inv in Hga.
    apply get_next_assertions_trace in Hdo as (rs & Hrs & _ & Hok).
    destruct (Hok _ eq_refl) as (nexts & -> & -> & _).
    eexists l, _, _. split; [by rewrite Hrs, Hga, Hl, <-!app_assoc|].
    eexists _, first, nexts. done.
  - rewrite get_assertion_guard in Hdo. destruct (_ || _); [done|].
    apply try_allow_list_run in Hdo as (l0 & lf & Hl & Hcases).
    destruct Hcases as [(_ & _ & [[[=] _]|[[=]|[=]]])
                       |(pre & cred & post & r0 & x & Hsplit & -> & Hx & _ & Hr & _)].
    destruct r0 as [sd|e]; [|done]. injection Hr as ->.
    destruct Hx as (key_handle & Hid & ->).
    eexists l0, _, []. split; [done|].
    exists cred, key_handle, sd. split; [|done].
    rewrite Hsplit, elem_of_app, elem_of_cons. tauto.
Qed.
End fido2_transport.

(** * Malformed arguments and per-key verification *)

Section u2f_malformed.
Context `{!Utils, !JsonLib, !Rpid} {Dev : Type} `{!U2f Dev, !Fido2 Dev}.

Lemma check_registered_keys_skip self app_id version
    (pre keys : list registered_key) (w : World Dev) :
  Forall (other_version version) pre →
  U2fClient.check_registered_keys self app_id version (pre ++ keys) w
  = U2fClient.check_registered_keys self app_id version keys w.
Proof.
  induction 1 as [|key rest (v & Hv & Hne) _ IH]; [done|]. simpl.
  rewrite bind_run. unfold getitem, lift at 1. rewrite Hv.
  by destruct (String.eqb_spec v version).
Qed.

Lemma sign_keys_skip fuel self app_id cd version timeout
    (pre keys : list registered_key) (w : World Dev) :
  Forall (other_version version) pre →
  U2fClient.sign_keys fuel self app_id cd version timeout (pre ++ keys) w
  = U2fClient.sign_keys fuel self app_id cd version timeout keys w.
Proof.
  induction 1 as [|key rest (v & Hv & Hne) _ IH]; [done|]. simpl.
  rewrite bind_run. unfold getitem, lift at 1. rewrite Hv.
  by destruct (String.eqb_spec v version).
Qed.

Lemma find_challenge_skip version (pre requests : list register_request) :
  Forall (other_version version) pre →
  U2fClient.find_challenge version (pre ++ requests)
  = U2fClient.find_challenge version requests.
Proof.
  induction 1 as [|request rest (v & Hv & Hne) _ IH]; [done|]. simpl.
  unfold getitem. rewrite Hv. simpl.
  by destruct (String.eqb_spec v version).
Qed.

Lemma register_stops_at_keys fuel self app_id register_requests registered_keys
    timeout (w : World Dev) version d dt e w' :
  U2fClient._verify self app_id (U2fClient.origin self) = Ok true →
  dev_get_version (device w) = (Ok version, d, dt) →
  U2fClient.check_registered_keys self app_id version registered_keys
    (versioned w version d dt) = Some (Raise e, w') →
  U2fClient.register fuel self app_id register_requests registered_keys timeout w
  = Some (Raise e, w').
Proof.
  intros Hver Hdev Hloop. unfold U2fClient.register.
  rewrite bind_run. unfold U2fClient._verify_app_id. rewrite Hver.
  unfold mret, M_ret. cbv beta iota. rewrite bind_run. unfold CTAP1.get_version.
  rewrite (command_eq _ _ _ _ _ _ Hdev). cbv beta iota.
  fold (versioned w version d dt). by rewrite bind_run, Hloop.
Qed.

Lemma register_stops_at_requests fuel self app_id register_requests
    registered_keys timeout (w : World Dev) version d dt e :
  U2fClient._verify self app_id (U2fClient.origin self) = Ok true →
  dev_get_version (device w) = (Ok version, d, dt) →
  Forall (other_version version) registered_keys →
  U2fClient.find_challenge version register_requests = Raise e →
  U2fClient.register fuel self app_id register_requests registered_keys timeout w
  = Some (Raise e, versioned w version d dt).
Proof.
  intros Hver Hdev Hkeys Hfind. unfold U2fClient.register.
  rewrite bind_run. unfold U2fClient._verify_app_id. rewrite Hver.
  unfold mret, M_ret. cbv beta iota. rewrite bind_run. unfold CTAP1.get_version.
  rewrite (command_eq _ _ _ _ _ _ Hdev). cbv beta iota.
  fold (versioned w version d dt).
  rewrite bind_run, check_registered_keys_other_version by done.
  cbv beta iota. rewrite bind_run. unfold lift at 1. by rewrite Hfind.
Qed.

Lemma sign_stops_at_keys fuel self app_id challenge registered_keys timeout
    (w : World Dev) cd version d dt e w' :
  sign_client_data self challenge = Ok cd →
  dev_get_version (device w) = (Ok version, d, dt) →
  U2fClient.sign_keys fuel self app_id cd version timeout registered_keys
    (versioned w version d dt) = Some (Raise e, w') →
  U2fClient.sign fuel self app_id challenge registered_keys timeout w
  = Some (Raise e, w').
Proof.
  intros Hcd Hdev Hloop. unfold U2fClient.sign.
  unfold sign_client_data in Hcd. rewrite bind_run, Hcd. unfold lift at 1.
  cbv beta iota. rewrite bind_run. unfold CTAP1.get_version.
  rewrite (command_eq _ _ _ _ _ _ Hdev). cbv beta iota.
  fold (versioned w version d dt). by rewrite bind_run, Hloop.
Qed.

(** X20. A dict argument that lacks a field the ceremony reads ends it
    with the lookup's own KeyError, not with a ClientError. A relying
    party without id stops make_credential before anything is sent. In
    register and sign the first registered key that is not of another
    version stops the ceremony right after the version query when it
    has no version field, and, its app id verified, when it is of the
    device's version and has no keyHandle field. A registration whose
    first request of the device's version has no challenge field stops
    there too, no register command sent. *)
Theorem missing_field_is_key_error :
  (∀ fuel self (rp : gmap string string) user challenge algos exclude_list
     extensions rk uv pin timeout (w : World Dev),
     rp !! "id" = None →
     Fido2Client.make_credential fuel self rp user challenge algos exclude_list
       extensions rk uv pin timeout w
     = Some (Raise (KeyError "id"), w))
  ∧ (∀ fuel self app_id challenge register_requests
       (pre : list registered_key) key rest timeout (w : World Dev)
       cd version d dt field,
       U2fClient._verify self app_id (U2fClient.origin self) = Ok true →
       sign_client_data self challenge = Ok cd →
       dev_get_version (device w) = (Ok version, d, dt) →
       Forall (other_version version) pre →
       (field = "version" ∧ key !! "version" = None
        ∨ field = "keyHandle" ∧ key !! "version" = Some version
          ∧ U2fClient._verify self (default app_id (key !! "appId"))
              (U2fClient.origin self) = Ok true
          ∧ key !! "keyHandle" = None) →
       U2fClient.register fuel self app_id register_requests
         (pre ++ key :: rest) timeout w
       = Some (Raise (KeyError field), versioned w version d dt)
       ∧ U2fClient.sign fuel self app_id challenge (pre ++ key :: rest) timeout w
         = Some (Raise (KeyError field), versioned w version d dt))
  ∧ (∀ fuel self app_id (pre : list register_request) request rest
       registered_keys timeout (w : World Dev) version d dt,
       U2fClient._verify self app_id (U2fClient.origin self) = Ok true →
       dev_get_version (device w) = (Ok version, d, dt) →
       Forall (other_version version) registered_keys →
       Forall (other_version version) pre →
       request !! "version" = Some version →
       request !! "challenge" = None →
       U2fClient.register fuel self app_id (pre ++ request :: rest)
         registered_keys timeout w
       = Some (Raise (KeyError "challenge"), versioned w version d dt)).
Proof.
  split; [|split].
  - intros fuel self rp user challenge algos excl ext rk uv pin timeout w Hid.
    unfold Fido2Client.make_credential, getitem. by rewrite Hid.
  - intros fuel self app_id challenge reqs pre key rest timeout w cd version d dt
      field Hver Hcd Hdev Hpre Hkey.
    assert (Hcheck : U2fClient.check_registered_keys self app_id version
                       (pre ++ key :: rest) (versioned w version d dt)
                     = Some (Raise (KeyError field), versioned w version d dt)).
    { rewrite check_registered_keys_skip by done. simpl.
      rewrite bind_run. unfold getitem, lift at 1.
      destruct Hkey as [[-> Hv]|(-> & Hv & Hok & Hkh)]; rewrite Hv; [done|].
      rewrite String.eqb_refl. cbn [negb]. cbv beta iota zeta.
      rewrite bind_run. unfold U2fClient._verify_app_id. rewrite Hok.
      unfold mret, M_ret. cbv beta iota. rewrite bind_run. unfold lift at 1.
      by rewrite Hkh. }
    assert (Hsign : U2fClient.sign_keys fuel self app_id cd version timeout
                      (pre ++ key :: rest) (versioned w version d dt)
                    = Some (Raise (KeyError field), versioned w version d dt)).
    { rewrite sign_keys_skip by done. simpl.
      rewrite bind_run. unfold getitem, lift at 1.
      destruct Hkey as [[-> Hv]|(-> & Hv & Hok & Hkh)]; rewrite Hv; [done|].
      rewrite String.eqb_refl. cbv beta iota zeta.
      rewrite bind_run. unfold U2fClient._verify_app_id. rewrite Hok.
      unfold mret, M_ret. cbv beta iota. rewrite bind_run. unfold lift at 1.
      by rewrite Hkh. }
    split.
    + by eapply register_stops_at_keys.
    + by eapply sign_stops_at_keys.
  - intros fuel self app_id pre request rest keys timeout w version d dt
      Hver Hdev Hkeys Hpre Hv Hc.
    apply register_stops_at_requests; [done..|].
    rewrite find_challenge_skip by done. simpl. unfold getitem.
    rewrite Hv. simpl. by rewrite String.eqb_refl, Hc.
Qed.

(** X21. Each registered key of the device's version has its own app
    id, the ceremony's by default, verified before the device is asked
    about it: the first such key whose app id the verifier does not
    accept ends register and sign in BAD_REQUEST right after the version
    query, so no probe and no signature request goes out for it. *)
Theorem unverified_key_app_id_is_bad_request fuel self app_id challenge
    register_requests (pre : list registered_key) key rest timeout
    (w : World Dev) cd version d dt :
  U2fClient._verify self app_id (U2fClient.origin self) = Ok true →
  sign_client_data self challenge = Ok cd →
  dev_get_version (device w) = (Ok version, d, dt) →
  Forall (other_version version) pre →
  key !! "version" = Some version →
  U2fClient._verify self (default app_id (key !! "appId")) (U2fClient.origin self)
  ≠ Ok true →
  U2fClient.register fuel self app_id register_requests (pre ++ key :: rest)
    timeout w
  = Some (Raise (ClientError BAD_REQUEST), versioned w version d dt)
  ∧ U2fClient.sign fuel self app_id challenge (pre ++ key :: rest) timeout w
    = Some (Raise (ClientError BAD_REQUEST), versioned w version d dt).
Proof.
  intros Hver Hcd Hdev Hpre Hv Hno.
  assert (Hreject : ∀ w1 : World Dev,
            U2fClient._verify_app_id self (default app_id (key !! "appId")) w1
            = Some (Raise (ClientError BAD_REQUEST), w1)).
  { intros w1. unfold U2fClient._verify_app_id.
    destruct (U2fClient._verify self (default app_id (key !! "appId"))
                (U2fClient.origin self)) as [[]|]; [|done..].
    by destruct Hno. }
  split.
  - eapply register_stops_at_keys; [done..|].
    rewrite check_registered_keys_skip by done. simpl.
    rewrite bind_run. unfold getitem, lift at 1. rewrite Hv.
    rewrite String.eqb_refl. cbn [negb]. cbv beta iota zeta.
    by rewrite bind_run, Hreject.
  - eapply sign_stops_at_keys; [done..|].
    rewrite sign_keys_skip by done. simpl.
    rewrite bind_run. unfold getitem, lift at 1. rewrite Hv.
    rewrite String.eqb_refl. cbv beta iota zeta.
    by rewrite bind_run, Hreject.
Qed.
End u2f_malformed.

(** * Termination *)

Section answers_rules.
Context {Dev : Type}.

Lemma answers_ret {A} (a : A) : answers (Dev:=Dev) (mret a).
Proof. intros w. by eexists _, _. Qed.

Lemma answers_raise {A} e : answers (Dev:=Dev) (raise (A:=A) e).
Proof. intros w. by eexists _, _. Qed.

Lemma answers_lift {A} (x : result A) : answers (Dev:=Dev) (lift x).
Proof. intros w. by eexists _, _. Qed.

Lemma answers_command {A} (run : Dev → reply Dev A) x : answers (command run x).
Proof. intros w. destruct (command_total run x w) as (r & w' & Hrun & _). eauto. Qed.

Lemma answers_bind {A B} (m : M Dev A) (f : A → M Dev B) :
  answers m → (∀ a, answers (f a)) → answers (m ≫= f).
Proof.
  intros Hm Hf w. rewrite bind_run. destruct (Hm w) as ([a|e] & w1 & ->); [|eauto].
  apply Hf.
Qed.

Lemma answers_try_except {A} (m : M Dev A) h :
  answers m → (∀ e k, h e = Some k → answers k) → answers (try_except m h).
Proof.
  intros Hm Hh w. unfold try_except. destruct (Hm w) as ([a|e] & w1 & ->); [eauto|].
  destruct (h e) as [k|] eqn:Hk; [|eauto]. by eapply Hh.
Qed.
End answers_rules.

Section ceremonies_answer.
Context `{!Utils, !JsonLib, !Rpid} {Dev : Type} `{!U2f Dev, !Fido2 Dev}.

Lemma answers_call_polling {A} fuel d timeout (run : Dev → reply Dev A) x :
  (0 < d)%Z → (timeout_or_30 timeout ≤ Z.of_nat fuel * d)%Z →
  answers (_call_polling (S fuel) d timeout (command run x)).
Proof.
  intros Hd Hfuel w. rewrite call_polling_unfold.
  apply poll_loop_total; [done|apply command_responsive|]. simpl. lia.
Qed.

Lemma answers_verify_app_id self app_id :
  answers (Dev:=Dev) (U2fClient._verify_app_id self app_id).
Proof.
  unfold U2fClient._verify_app_id.
  destruct (U2fClient._verify _ _ _) as [[]|]; auto using answers_ret, answers_raise.
Qed.

Lemma answers_verify_rp_id self rp_id :
  answers (Dev:=Dev) (Fido2Client._verify_rp_id self rp_id).
Proof.
  unfold Fido2Client._verify_rp_id.
  destruct (Fido2Client._verify _ _ _) as [[]|]; auto using answers_ret, answers_raise.
Qed.

Lemma answers_probe app_param key_handle exc :
  answers (Dev:=Dev)
    (try_except
       (CTAP1.authenticate dummy_param app_param key_handle true;; raise exc)
       (λ e, match e with
             | ApduError code =>
                 Some (if (code =? USE_NOT_SATISFIED)%Z then raise exc else mret tt)
             | _ => None
             end)).
Proof.
  apply answers_try_except.
  - apply answers_bind; [apply answers_command|]. intros _. apply answers_raise.
  - intros [code| | | | | |] k [= <-].
    destruct (_ =? _)%Z; [apply answers_raise|apply answers_ret].
Qed.

Lemma answers_check_registered_keys self app_id version keys :
  answers (Dev:=Dev) (U2fClient.check_registered_keys self app_id version keys).
Proof.
  induction keys as [|key rest IH]; simpl; [apply answers_ret|].
  apply answers_bind; [apply answers_lift|]. intros kv.
  destruct (negb _); [done|].
  apply answers_bind; [apply answers_verify_app_id|]. intros _.
  apply answers_bind; [apply answers_lift|]. intros kh.
  apply answers_bind; [apply answers_lift|]. intros key_handle.
  apply answers_bind; [apply answers_probe|]. by intros _.
Qed.

Lemma answers_check_exclude_list app_param creds :
  answers (Dev:=Dev) (Fido2Client.check_exclude_list app_param creds).
Proof.
  induction creds as [|cred rest IH]; simpl; [apply answers_ret|].
  apply answers_bind; [apply answers_lift|]. intros key_handle.
  apply answers_bind; [apply answers_probe|]. by intros _.
Qed.

Lemma answers_get_next_assertions n acc :
  answers (Dev:=Dev) (Fido2Client.get_next_assertions n acc).
Proof.
  revert acc. induction n as [|n IH]; intros acc; simpl; [apply answers_ret|].
  apply answers_bind; [apply answers_command|]. intros a. apply IH.
Qed.

Lemma answers_pin_block client_data info pin :
  answers (Dev:=Dev) (Fido2Client.pin_block client_data info pin).
Proof.
  unfold Fido2Client.pin_block. destruct (truthy pin).
  - cbv zeta. destruct (negb _); [apply answers_raise|].
    apply answers_bind; [apply answers_command|]. intros tok. apply answers_ret.
  - destruct (default false _); [apply answers_raise|apply answers_ret].
Qed.

(** X22. The ceremonies terminate. The polling loop is their only
    unbounded loop, and a positive poll delay bounds it: given fuel for
    timeout/delay rounds, 120 for the default 30 s and 0.25 s, register
    and sign of a U2fClient and make_credential and get_assertion of a
    Fido2Client return or raise from every world and for all
    arguments. *)
Theorem ceremonies_answer (fuel : nat) (timeout : option Z) :
  (∀ self : U2fClient.t,
     (0 < U2fClient.poll_delay self)%Z →
     (timeout_or_30 timeout ≤ Z.of_nat fuel * U2fClient.poll_delay self)%Z →
     (∀ app_id register_requests registered_keys,
        answers (Dev:=Dev)
          (U2fClient.register (S fuel) self app_id register_requests
             registered_keys timeout))
     ∧ (∀ app_id challenge registered_keys,
          answers (Dev:=Dev)
            (U2fClient.sign (S fuel) self app_id challenge registered_keys
               timeout)))
  ∧ (∀ self : Fido2Client.t,
       (0 < Fido2Client.ctap1_poll_delay self)%Z →
       (timeout_or_30 timeout ≤ Z.of_nat fuel * Fido2Client.ctap1_poll_delay self)%Z →
       (∀ rp user challenge algos exclude_list extensions rk uv pin,
          answers (Dev:=Dev)
            (Fido2Client.make_credential (S fuel) self rp user challenge algos
               exclude_list extensions rk uv pin timeout))
       ∧ (∀ rp_id challenge allow_list extensions rk uv pin,
            answers (Dev:=Dev)
              (Fido2Client.get_assertion (S fuel) self rp_id challenge allow_list
                 extensions rk uv pin timeout))).
Proof.
  split.
  - intros self Hd Hfuel. split.
    + intros app_id reqs keys. unfold U2fClient.register.
      apply answers_bind; [apply answers_verify_app_id|]. intros _.
      apply answers_bind; [apply answers_command|]. intros version.
      apply answers_bind; [apply answers_check_registered_keys|]. intros _.
      apply answers_bind; [apply answers_lift|]. intros challenge.
      apply answers_bind; [apply answers_lift|]. intros cd.
      apply answers_bind; [by apply answers_call_polling|]. intros reg.
      apply answers_ret.
    + intros app_id challenge keys. unfold U2fClient.sign.
      apply answers_bind; [apply answers_lift|]. intros cd.
      apply answers_bind; [apply answers_command|]. intros version.
      apply answers_bind.
      * induction keys as [|key rest IH]; simpl; [apply answers_raise|].
        apply answers_bind; [apply answers_lift|]. intros kv.
        destruct (_ =? _)%string; [|done].
        apply answers_bind; [apply answers_verify_app_id|]. intros _.
        apply answers_bind; [apply answers_lift|]. intros kh.
        apply answers_bind; [apply answers_lift|]. intros key_handle.
        apply answers_try_except.
        -- apply answers_bind; [by apply answers_call_polling|]. intros sd.
           apply answers_ret.
        -- by intros [code| | | | | |] k [= <-].
      * intros [sd key].
        apply answers_bind; [apply answers_lift|]. intros kh. apply answers_ret.
  - intros self Hd Hfuel. split.
    + intros rp user challenge algos excl ext rk uv pin.
      unfold Fido2Client.make_credential.
      apply answers_bind; [apply answers_lift|]. intros rp_id.
      apply answers_bind; [apply answers_verify_rp_id|]. intros _.
      apply answers_bind; [apply answers_lift|]. intros cd.
      apply answers_bind; [|intros att; apply answers_ret].
      unfold Fido2Client._do_make_credential. destruct (Fido2Client.ctap self).
      * unfold Fido2Client._ctap2_make_credential.
        apply answers_bind; [apply answers_command|]. intros info.
        apply answers_bind; [apply answers_pin_block|]. intros [pa pp].
        apply answers_command.
      * unfold Fido2Client._ctap1_make_credential.
        destruct (rk || uv); [apply answers_raise|].
        apply answers_bind; [apply answers_lift|]. intros id.
        apply answers_bind; [apply answers_check_exclude_list|]. intros _.
        apply answers_bind; [by apply answers_call_polling|]. intros reg.
        apply answers_ret.
    + intros rp_id challenge allow ext rk uv pin.
      unfold Fido2Client.get_assertion.
      apply answers_bind; [apply answers_verify_rp_id|]. intros _.
      apply answers_bind; [apply answers_lift|]. intros cd.
      apply answers_bind; [|intros a; apply answers_ret].
      unfold Fido2Client._do_get_assertion. destruct (Fido2Client.ctap self).
      * unfold Fido2Client._ctap2_get_assertion.
        apply answers_bind; [apply answers_command|]. intros info.
        apply answers_bind; [apply answers_pin_block|]. intros [pa pp].
        apply answers_bind; [apply answers_command|]. intros first.
        apply answers_get_next_assertions.
      * unfold Fido2Client._ctap1_get_assertion.
        destruct (_ || _); [apply answers_raise|]. cbv zeta.
        induction (default [] allow) as [|cred rest IH]; simpl;
          [apply answers_raise|].
        apply answers_try_except.
        -- apply answers_bind; [apply answers_lift|]. intros key_handle.
           apply answers_bind; [by apply answers_call_polling|]. intros sd.
           apply answers_ret.
        -- by intros [code| | | | | |] k [= <-].
Qed.
End ceremonies_answer.

(** * The ceremonies, checked

    Each theorem with a premise is applied to one of the runs above, and
    each claim that fails as worded is refuted on one. *)

Section witnesses.
Import Reference Ceremonies.
#[local] Existing Instance utils.
#[local] Existing Instance json.
#[local] Existing Instance rpid.
#[local] Existing Instance u2f.
#[local] Existing Instance fido2.

(** C2 does not hold as worded: under timeout 0 a token that answers
    USE_NOT_SATISFIED and then registers is asked twice, and the driver
    returns the registration instead of raising TIMEOUT. *)
Lemma timeout_zero_polls_again : ¬ single_attempt_at_timeout_zero (Dev:=script).
Proof.
  intros Hclaim.
  destruct (Hclaim 2 250%Z hash_abc app_example (start touch_later)
              (Ok reg1) (left_world polled_at_zero))
    as (l & Hlog & Hlen & _); [by vm_compute|].
  assert (length (log (left_world polled_at_zero)) = 2) as Htwo by (by vm_compute).
  rewrite Hlog in Htwo. simpl in Htwo. lia.
Qed.

Lemma call_polling_timeout_zero_witness :
  _call_polling 2 250 (Some 0%Z) poll_register (start touch_later)
  = Some (Ok reg1, left_world second_attempt).
Proof.
  apply (proj2 (call_polling_timeout_zero 250 poll_register) 0 (start touch_later)
           (left_world first_attempt) (Ok reg1) (left_world second_attempt)).
  - vm_compute. reflexivity.
  - vm_compute. reflexivity.
  - vm_compute. reflexivity.
  - discriminate.
Defined.

Lemma call_polling_contract_witness :
  (polls 250 (0 + 30000) poll_register (start touch_later) (Ok reg1)
     (left_world second_attempt)
   ∧ Ok reg1 ≠ Raise (ApduError USE_NOT_SATISFIED))
  ∧ ∃ fuel0, ∀ fuel, fuel0 ≤ fuel →
      ∃ r w', _call_polling fuel 250 None poll_register (start touch_later)
              = Some (r, w').
Proof.
  destruct (call_polling_contract 250 None poll_register) as [Hsound Htotal].
  split.
  - apply (Hsound 2 (start touch_later) (Ok reg1) (left_world second_attempt)).
    vm_compute. reflexivity.
  - apply Htotal; [lia|]. apply command_responsive.
Defined.

(** C8 does not hold as worded: client data built without an origin
    fails with KeyError, not with the BAD_REQUEST client error. *)
Lemma missing_origin_is_key_error :
  assoc "origin" enrollment_without_origin = None
  ∧ ClientData.build enrollment_without_origin = Raise (KeyError "origin")
  ∧ ClientData.build enrollment_without_origin ≠ Raise (ClientError BAD_REQUEST).
Proof. split; [done|]. split; [by vm_compute|]. by vm_compute. Qed.

Lemma client_data_without_origin_witness :
  ClientData.new (str_encode (document enrollment_without_origin))
  = Raise (KeyError "origin")
  ∧ ClientData.build enrollment_without_origin = Raise (KeyError "origin").
Proof.
  destruct client_data_without_origin as [Hnew Hbuild]. split.
  - apply (Hnew _ enrollment_without_origin).
    + vm_compute. reflexivity.
    + vm_compute. reflexivity.
  - apply (Hbuild _ (document enrollment_without_origin) enrollment_without_origin).
    + vm_compute. reflexivity.
    + vm_compute. reflexivity.
    + vm_compute. reflexivity.
Defined.

Lemma ctap1_make_credential_attestation_witness :
  made = Some (Ok (returned made no_attestation), left_world made)
  ∧ fmt (returned made no_attestation) = "fido-u2f"
  ∧ flags (auth_data (returned made no_attestation)) = 0x41%Z
  ∧ sign_count (auth_data (returned made no_attestation)) = 0%Z
  ∧ ∃ reg_resp,
      credential_data (auth_data (returned made no_attestation)) = Some
        {| aaguid := replicate 16 x00;
           credential_id := key_handle reg_resp;
           cose_key :=
             [(1, PInt 2); (3, PInt (-7)); (-1, PInt 1);
              (-2, PBytes (take 32 (drop 1 (public_key reg_resp))));
              (-3, PBytes (take 32 (drop 33 (public_key reg_resp))))]%Z |}.
Proof.
  assert (Hrun : made = Some (Ok (returned made no_attestation), left_world made)).
  { vm_compute. reflexivity. }
  split; [exact Hrun|].
  destruct (ctap1_make_credential_attestation _ _ _ _ _ _ _ _ _ _ _ _ _ _ _
              (or_introl Hrun))
    as (rp_id & reg_resp & l & _ & _ & Hfmt & _ & Hflags & Hcount & Hcred & _).
  split; [exact Hfmt|]. split; [exact Hflags|]. split; [exact Hcount|].
  exists reg_resp. exact Hcred.
Defined.

Lemma ctap1_unsupported_option_witness :
  Fido2Client._ctap1_make_credential 2 fido2_over_ctap1 create_data example_com
    alice [ES256] None None true false None None (start touch_later)
  = Some (Raise (CtapError UNSUPPORTED_OPTION), start touch_later)
  ∧ Fido2Client._ctap1_get_assertion 2 fido2_over_ctap1 create_data "example.com"
      (Some []) None false false None None (start touch_later)
    = Some (Raise (CtapError UNSUPPORTED_OPTION), start touch_later)
  ∧ Fido2Client.make_credential 2 fido2_over_ctap1 example_com alice
      (PStr "Y2hhbGxlbmdl") [ES256] None None true false None None
      (start touch_later)
    = Some (Raise (CtapError UNSUPPORTED_OPTION), start touch_later)
  ∧ Fido2Client.get_assertion 2 fido2_over_ctap1 "example.com"
      (PStr "Y2hhbGxlbmdl") (Some []) None false false None None
      (start touch_later)
    = Some (Raise (CtapError UNSUPPORTED_OPTION), start touch_later).
Proof.
  destruct (ctap1_unsupported_option 2 fido2_over_ctap1 create_data example_com
              alice [ES256] None (Some []) None true false None None "example.com"
              (start touch_later)) as (Hmake & _ & Hpublic & _).
  destruct (ctap1_unsupported_option 2 fido2_over_ctap1 get_data example_com
              alice [ES256] None (Some []) None false false None None "example.com"
              (start touch_later)) as (_ & _ & _ & Hpublic_get).
  destruct (ctap1_unsupported_option 2 fido2_over_ctap1 create_data example_com
              alice [ES256] None (Some []) None false false None None "example.com"
              (start touch_later)) as (_ & Hget & _ & _).
  split; [|split; [|split]].
  - apply Hmake. left. reflexivity.
  - apply Hget. right. right. right. reflexivity.
  - apply (Hpublic (PStr "Y2hhbGxlbmdl") "example.com").
    + left. reflexivity.
    + vm_compute. reflexivity.
    + vm_compute. reflexivity.
    + vm_compute. reflexivity.
    + vm_compute. reflexivity.
  - apply (Hpublic_get (PStr "Y2hhbGxlbmdl")).
    + right. right. right. reflexivity.
    + vm_compute. reflexivity.
    + vm_compute. reflexivity.
    + vm_compute. reflexivity.
Defined.


Lemma ctap2_pin_policy_witness :
  (∃ msg,
     Fido2Client._ctap2_make_credential fido2_over_ctap2 create_data example_com
       alice [ES256] None None false false (Some "1234") None
       (start key_without_pin_protocol)
     = Some (Raise (ValueError msg),
             informed (start key_without_pin_protocol)
               (s_info key_without_pin_protocol) key_without_pin_protocol 1)
     ∧ Fido2Client._ctap2_get_assertion fido2_over_ctap2 create_data "example.com"
         None None false false (Some "1234") None (start key_without_pin_protocol)
       = Some (Raise (ValueError msg),
               informed (start key_without_pin_protocol)
                 (s_info key_without_pin_protocol) key_without_pin_protocol 1))
  ∧ (∃ a r w',
       Fido2Client._ctap2_make_credential fido2_over_ctap2 create_data example_com
         alice [ES256] None None false false (Some "1234") None (start key_with_pin)
       = Some (r, w')
       ∧ log w' = log (start key_with_pin)
                    ++ [XGetInfo (Ok (s_info key_with_pin));
                        XGetPinToken "1234" (Ok pin_token1); XMakeCredential a r]
       ∧ mc_pin_auth a
         = Some (take 16 (hmac_sha256 pin_token1 (ClientData.hash create_data)))
       ∧ mc_pin_protocol a = Some 1%Z).
Proof.
  split.
  - apply (ctap2_pin_policy fido2_over_ctap2 create_data example_com alice [ES256]
             None None None false false (Some "1234") None "example.com"
             (start key_without_pin_protocol)
             (s_info key_without_pin_protocol) key_without_pin_protocol 1%N).
    + vm_compute. reflexivity.
    + left. split; [vm_compute; reflexivity|]. vm_compute. intros Hin.
      inversion Hin.
  - destruct (ctap2_pin_policy fido2_over_ctap2 create_data example_com alice [ES256]
                None None None false false (Some "1234") None "example.com"
                (start key_with_pin) (s_info key_with_pin) key_with_pin 1%N)
      as [_ Hpin]; [vm_compute; reflexivity|].
    apply (Hpin "1234" pin_token1
             (ctap2_key (s_info key_with_pin) [] [Ok (assertion x01 None)]) 1%N).
    + reflexivity.
    + vm_compute. reflexivity.
    + apply list_elem_of_here.
    + vm_compute. reflexivity.
Defined.


(** C9 does not hold as worded: the probe for a registered key carries
    32 zero bytes, not the hash of the ceremony's client data. *)
Lemma probe_challenge_is_not_client_data_hash :
  ¬ every_challenge_is_client_data_hash (Dev:=script).
Proof.
  intros Hclaim.
  specialize (Hclaim 2 client "https://example.com" enroll_abc [known_key] None
                (start token_with_stale_key) (returned enrolled ∅)
                (left_world enrolled)
                (default "" (returned enrolled ∅ !! "clientData"))
                (built (ClientData.from_b64
                          (default "" (returned enrolled ∅ !! "clientData"))))
                (log (left_world enrolled)) 1
                (XAuthenticate dummy_param app_example (PBytes [xaa; xbb; xcc]) true
                   (Raise wrong_data))
                dummy_param).
  assert (Hfalse : dummy_param
                   = ClientData.hash
                       (built (ClientData.from_b64
                                 (default "" (returned enrolled ∅ !! "clientData"))))).
  { apply Hclaim; vm_compute; reflexivity. }
  vm_compute in Hfalse. discriminate Hfalse.
Qed.

Lemma challenge_parameter_is_client_data_hash_witness :
  (∃ l, log (left_world enrolled) = log (start token_with_stale_key) ++ l
        ∧ ((Forall (λ x, ¬ is_register x) l ∧ ∀ h, Forall (challenge_follows h) l)
           ∨ ∃ version challenge cd,
               U2fClient.find_challenge version enroll_abc = Ok challenge
               ∧ register_client_data client challenge = Ok cd
               ∧ Forall (challenge_follows (ClientData.hash cd)) l
               ∧ returned enrolled ∅ !! "clientData" = Some (ClientData.b64 cd)))
  ∧ (∃ l, log (left_world signed) = log (start signing_token) ++ l
          ∧ (l = [] ∨ ∃ cd, sign_client_data client (PStr "abc") = Ok cd
               ∧ Forall (challenge_follows (ClientData.hash cd)) l))
  ∧ (∃ l, log (left_world made) = log (start token_with_other_credential) ++ l
          ∧ Forall (challenge_follows (ClientData.hash create_data)) l)
  ∧ (∃ l, log (left_world asserted) = log (start signing_token) ++ l
          ∧ Forall (challenge_follows (ClientData.hash get_data)) l).
Proof.
  destruct (challenge_parameter_is_client_data_hash (Dev:=script))
    as (Hregister & Hsign & Hmake & Hget).
  split; [|split; [|split]].
  - destruct (Hregister 2 client "https://example.com" enroll_abc
                [known_key] None (start token_with_stale_key)
                (Ok (returned enrolled ∅)) (left_world enrolled))
      as (l & Hlog & Hl); [vm_compute; reflexivity|].
    exists l. split; [exact Hlog|].
    destruct Hl as [Hl|(version & challenge & cd & Hch & Hcd & Hall & Hres)];
      [left; exact Hl|right].
    exists version, challenge, cd.
    split; [exact Hch|]. split; [exact Hcd|]. split; [exact Hall|].
    exact (Hres _ eq_refl).
  - apply (Hsign 2 client "https://example.com" (PStr "abc")
             [known_key] None (start signing_token)
             (Ok (returned signed ∅)) (left_world signed)).
    vm_compute. reflexivity.
  - apply (Hmake 2 fido2_over_ctap1 create_data example_com alice
             [ES256] (Some [excluded]) None false false None None
             (start token_with_other_credential)
             (Ok (returned made no_attestation)) (left_world made)).
    vm_compute. reflexivity.
  - apply (Hget 2 fido2_over_ctap1 get_data "example.com"
             (Some [allowed]) None false false None None (start signing_token)
             (Ok (returned asserted [])) (left_world asserted)).
    vm_compute. reflexivity.
Defined.


Lemma client_error_codes_witness :
  ClientError_new 5 = Ok (ClientError TIMEOUT)
  ∧ ∃ msg, ClientError_new 6 = Raise (ValueError msg).
Proof.
  destruct client_error_codes as (_ & _ & _ & _ & Hnew & Hout). split.
  - apply (Hnew 5%Z TIMEOUT). reflexivity.
  - apply (Hout 6%Z). right. lia.
Defined.

Lemma call_polling_attempts_bounded_witness :
  ∃ l, log (left_world polled_at_zero) = log (start touch_later) ++ l
       ∧ length l ≤ 120.
Proof.
  destruct (call_polling_attempts_bounded 2 250 (Some 0%Z)
              (dev_register hash_abc app_example) (XRegister hash_abc app_example)
              (start touch_later) (Ok reg1) (left_world polled_at_zero))
    as (l & Hlog & _ & _ & Hmost & _).
  - lia.
  - vm_compute. reflexivity.
  - exists l. split; [exact Hlog|]. apply Hmost; reflexivity.
Defined.

Lemma unverified_identifier_is_bad_request_witness :
  U2fClient.register 2 client "https://elsewhere.org" enroll_abc [known_key] None
    (start enrolled_token)
  = Some (Raise (ClientError BAD_REQUEST), start enrolled_token)
  ∧ Fido2Client.make_credential 2 fido2_over_ctap2 elsewhere alice
      (PStr "Y2hhbGxlbmdl") [ES256] None None false false None None
      (start key_with_pin)
    = Some (Raise (ClientError BAD_REQUEST), start key_with_pin)
  ∧ Fido2Client.get_assertion 2 fido2_over_ctap1 "elsewhere.org"
      (PStr "Y2hhbGxlbmdl") (Some [allowed]) None false false None None
      (start signing_token)
    = Some (Raise (ClientError BAD_REQUEST), start signing_token).
Proof.
  destruct (unverified_identifier_is_bad_request (Dev:=script))
    as (Hregister & _ & Hmake & Hget).
  split; [|split].
  - apply (Hregister 2 client "https://elsewhere.org" enroll_abc [known_key] None
             (start enrolled_token)).
    vm_compute. discriminate.
  - apply (Hmake 2 fido2_over_ctap2 elsewhere "elsewhere.org" alice
             (PStr "Y2hhbGxlbmdl") [ES256] None None false false None None
             (start key_with_pin)).
    + vm_compute. reflexivity.
    + vm_compute. discriminate.
  - apply (Hget 2 fido2_over_ctap1 "elsewhere.org" (PStr "Y2hhbGxlbmdl")
             (Some [allowed]) None false false None None (start signing_token)).
    vm_compute. discriminate.
Defined.

Lemma register_without_request_of_version_witness :
  U2fClient.register 2 client "https://example.com" enroll_v1 [legacy_key] None
    (start touch_later)
  = Some (Raise (ClientError DEVICE_INELIGIBLE),
          {| now := now (start touch_later) + Z.of_N 1; device := touch_later;
             log := log (start touch_later) ++ [XGetVersion (Ok "U2F_V2")] |}).
Proof.
  assert (Hother : other_version "U2F_V2" legacy_key
                   ∧ Forall (other_version "U2F_V2") enroll_v1).
  { split; [|constructor; [|constructor]];
      (exists "U2F_V1"; split; [vm_compute; reflexivity|discriminate]). }
  destruct Hother as [Hkey Hrequests].
  destruct (register_without_request_of_version 2 client "https://example.com"
              enroll_v1 [legacy_key] None (start touch_later) "U2F_V2"
              touch_later 1%N) as [Hends _].
  - vm_compute. reflexivity.
  - reflexivity.
  - exact Hrequests.
  - apply Hends. constructor; [exact Hkey|constructor].
Defined.

Lemma register_returns_registration_witness :
  enrolled = Some (Ok (returned enrolled ∅), left_world enrolled)
  ∧ ∃ cd reg,
      register_client_data client "abc" = Ok cd
      ∧ returned enrolled ∅
        = {[ "registrationData" := websafe_encode (reg_raw reg);
             "clientData" := ClientData.b64 cd ]}.
Proof.
  assert (Hrun : enrolled = Some (Ok (returned enrolled ∅), left_world enrolled)).
  { vm_compute. reflexivity. }
  split; [exact Hrun|].
  destruct (register_returns_registration 2 client "https://example.com"
              enroll_abc [known_key] None (start token_with_stale_key) _ _ Hrun)
    as (version & pre & request & post & challenge & cd & reg & l
        & _ & Hsplit & _ & _ & Hchallenge & Hcd & _ & Hres).
  exists cd, reg. split; [|exact Hres].
  destruct pre as [|q pre].
  - injection Hsplit as <- _. vm_compute in Hchallenge.
    injection Hchallenge as <-. exact Hcd.
  - destruct pre; discriminate Hsplit.
Defined.

Lemma sign_returns_signature_witness :
  signed = Some (Ok (returned signed ∅), left_world signed)
  ∧ ∃ cd sd kh,
      sign_client_data client (PStr "abc") = Ok cd
      ∧ returned signed ∅
        = {[ "clientData" := ClientData.b64 cd;
             "signatureData" := websafe_encode (sig_raw sd);
             "keyHandle" := kh ]}.
Proof.
  assert (Hrun : signed = Some (Ok (returned signed ∅), left_world signed)).
  { vm_compute. reflexivity. }
  split; [exact Hrun|].
  destruct (sign_returns_signature 2 client "https://example.com" (PStr "abc")
              [known_key] None (start signing_token) _ _ Hrun)
    as (cd & version & pre & key & post & kh & sd & l & x
        & Hcd & _ & _ & _ & _ & _ & _ & _ & Hres).
  exists cd, sd, kh. split; [exact Hcd|exact Hres].
Defined.

Lemma sign_asks_only_for_signatures_witness :
  (log (left_world signed) = log (start signing_token)
   ∧ ∃ e, Ok (returned signed ∅) = Raise e)
  ∨ (∃ e, log (left_world signed) = log (start signing_token) ++ [XGetVersion (Raise e)]
          ∧ Ok (returned signed ∅) = Raise e)
  ∨ ∃ cd version l0 lf,
      sign_client_data client (PStr "abc") = Ok cd
      ∧ log (left_world signed)
        = log (start signing_token) ++ XGetVersion (Ok version) :: l0 ++ lf
      ∧ Forall (refused_by "https://example.com" (ClientData.hash cd) version
                  [known_key]) l0
      ∧ length lf ≤ 1
      ∧ Forall (λ x, ∃ key r0, key ∈ [known_key] ∧ of_version version key
                     ∧ asks_signature "https://example.com" (ClientData.hash cd)
                         key r0 x) lf.
Proof.
  apply (sign_asks_only_for_signatures 2 client "https://example.com" (PStr "abc")
           [known_key] None (start signing_token) (Ok (returned signed ∅))
           (left_world signed)).
  vm_compute. reflexivity.
Defined.

Lemma sign_without_key_of_version_witness :
  U2fClient.sign 2 client "https://example.com" (PStr "abc") [legacy_key] None
    (start signing_token)
  = Some (Raise (ClientError DEVICE_INELIGIBLE),
          {| now := now (start signing_token) + Z.of_N 1; device := signing_token;
             log := log (start signing_token) ++ [XGetVersion (Ok "U2F_V2")] |}).
Proof.
  apply (sign_without_key_of_version 2 client "https://example.com" (PStr "abc")
           [legacy_key] None (start signing_token) sign_data "U2F_V2"
           signing_token 1%N).
  - vm_compute. reflexivity.
  - reflexivity.
  - constructor; [|constructor].
    exists "U2F_V1". split; [vm_compute; reflexivity|discriminate].
Defined.

Lemma fido2_client_stays_on_transport_witness :
  (∃ l, log (left_world created) = log (start key_without_pin) ++ l
        ∧ Forall on_ctap2 l)
  ∧ (∃ l, log (left_world got) = log (start signing_token) ++ l
          ∧ Forall on_ctap1 l).
Proof.
  split.
  - destruct (fido2_client_stays_on_transport (Dev:=script) 2 fido2_over_ctap2)
      as [Hmake _].
    exact (Hmake example_com alice (PStr "Y2hhbGxlbmdl") [ES256] None None
             false false None None (start key_without_pin)
             (Ok (returned created (no_attestation, create_data)))
             (left_world created) ltac:(vm_compute; reflexivity)).
  - destruct (fido2_client_stays_on_transport (Dev:=script) 2 fido2_over_ctap1)
      as [_ Hget].
    exact (Hget "example.com" (PStr "Y2hhbGxlbmdl") (Some [allowed]) None
             false false None None (start signing_token)
             (Ok (returned got ([], get_data))) (left_world got)
             ltac:(vm_compute; reflexivity)).
Defined.

Lemma make_credential_returns_client_data_witness :
  created = Some (Ok (no_attestation, create_data), left_world created)
  ∧ ∃ l a,
      log (left_world created)
      = log (start key_without_pin) ++ l ++ [XMakeCredential a (Ok no_attestation)]
      ∧ mc_client_data_hash a = ClientData.hash create_data
      ∧ mc_rp a = example_com.
Proof.
  assert (Hrun : created
                 = Some (Ok (no_attestation, create_data), left_world created)).
  { vm_compute. reflexivity. }
  split; [exact Hrun|].
  destruct (make_credential_returns_client_data 2 fido2_over_ctap2 example_com
              alice (PStr "Y2hhbGxlbmdl") [ES256] None None false false None None
              (start key_without_pin) _ _ _ Hrun)
    as (id & l & x & _ & _ & _ & Hlog & a & -> & Hhash & Hrp).
  exists l, a. split; [exact Hlog|]. split; [exact Hhash|exact Hrp].
Defined.

Lemma get_assertion_returns_client_data_witness :
  got = Some (Ok (returned got ([], get_data)), left_world got)
  ∧ get_client_data fido2_over_ctap1 (PStr "Y2hhbGxlbmdl")
    = Ok (returned got ([], get_data)).2
  ∧ ∃ l key_handle sd,
      log (left_world got)
      = log (start signing_token) ++ l
          ++ [XAuthenticate (ClientData.hash (returned got ([], get_data)).2)
                (sha256 (str_encode "example.com")) key_handle false (Ok sd)].
Proof.
  assert (Hrun : got = Some (Ok ((returned got ([], get_data)).1,
                                 (returned got ([], get_data)).2),
                             left_world got)).
  { vm_compute. reflexivity. }
  split; [vm_compute; reflexivity|].
  destruct (get_assertion_returns_client_data 2 fido2_over_ctap1 "example.com"
              (PStr "Y2hhbGxlbmdl") (Some [allowed]) None false false None None
              (start signing_token) _ _ _ Hrun)
    as (_ & Hcd & l & x & rest & Hlog & cred & key_handle & sd
        & _ & _ & -> & -> & _).
  split; [exact Hcd|]. exists l, key_handle, sd. exact Hlog.
Defined.

Lemma ctap2_make_credential_request_witness :
  made_with_pin = Some (Ok no_attestation, left_world made_with_pin)
  ∧ ∃ info pin_token a,
      log (left_world made_with_pin)
      = log (start key_with_pin)
          ++ XGetInfo (Ok info)
             :: [XGetPinToken "1234" (Ok pin_token)]
             ++ [XMakeCredential a (Ok no_attestation)]
      ∧ mc_pin_auth a
        = Some (take 16 (hmac_sha256 pin_token (ClientData.hash create_data)))
      ∧ mc_key_params a
        = [[("type", PStr "public-key"); ("alg", PInt ES256)];
           [("type", PStr "public-key"); ("alg", PInt RS256)]]
      ∧ options_of true false (mc_options a).
Proof.
  assert (Hrun : made_with_pin
                 = Some (Ok no_attestation, left_world made_with_pin)).
  { vm_compute. reflexivity. }
  split; [exact Hrun|].
  destruct (ctap2_make_credential_request fido2_over_ctap2 create_data example_com
              alice [ES256; RS256] None None true false (Some "1234") None
              (start key_with_pin) _ _ Hrun)
    as (l & Hlog & [[_ [e He]]|(info & pre & a & -> & Hpin & _ & _ & _ & Hparams
                                 & _ & _ & Hoptions & _)]).
  { discriminate He. }
  destruct Hpin as [(Hnone & _)|(p & pin_token & Hp & _ & -> & Hauth & _)].
  { discriminate Hnone. }
  injection Hp as <-.
  exists info, pin_token, a. split; [exact Hlog|]. split; [exact Hauth|].
  split; [exact Hparams|exact Hoptions].
Defined.

Lemma ctap2_make_credential_without_pin_witness :
  ∃ a r d2 dt2,
    dev_make_credential a key_without_pin = (r, d2, dt2)
    ∧ mc_pin_auth a = None ∧ mc_pin_protocol a = None
    ∧ Fido2Client._ctap2_make_credential fido2_over_ctap2 create_data example_com
        alice [ES256] None None false false (Some EmptyString) None
        (start key_without_pin)
      = Some (r, {| now := now (start key_without_pin) + Z.of_N 1 + Z.of_N dt2;
                    device := d2;
                    log := log (start key_without_pin)
                             ++ [XGetInfo (Ok (s_info key_without_pin));
                                 XMakeCredential a r] |}).
Proof.
  apply (ctap2_make_credential_without_pin fido2_over_ctap2 create_data example_com
           alice [ES256] None None false false (Some EmptyString) None
           (start key_without_pin) (s_info key_without_pin) key_without_pin 1%N).
  - reflexivity.
  - right. reflexivity.
  - vm_compute. discriminate.
Defined.

Lemma ctap2_get_assertion_request_witness :
  collected = Some (Ok (returned collected []), left_world collected)
  ∧ ∃ info a r0 rs,
      log (left_world collected)
      = log (start three_credentials)
          ++ XGetInfo (Ok info) :: XGetAssertion a r0 :: (XGetNextAssertion <$> rs)
      ∧ ga_rp_id a = "example.com"
      ∧ ga_client_data_hash a = ClientData.hash get_data
      ∧ ga_pin_auth a = None
      ∧ ga_options a = None.
Proof.
  assert (Hrun : collected = Some (Ok (returned collected []), left_world collected)).
  { vm_compute. reflexivity. }
  split; [exact Hrun|].
  destruct (ctap2_get_assertion_request fido2_over_ctap2 get_data "example.com"
              None None false false None None (start three_credentials) _ _ Hrun)
    as (l & Hlog & [[_ [e He]]|(info & pre & a & r0 & rs & -> & Hpin & Hrp & Hhash
                                 & _ & _ & Hoptions & _)]).
  { discriminate He. }
  destruct Hpin as [(_ & -> & Hauth & _)|(p & pin_token & Hp & _)].
  2:{ discriminate Hp. }
  exists info, a, r0, rs. split; [exact Hlog|]. split; [exact Hrp|].
  split; [exact Hhash|]. split; [exact Hauth|].
  destruct Hoptions as [Hnone _]. apply Hnone. split; reflexivity.
Defined.

Lemma ctap1_make_credential_exclude_list_witness :
  made = Some (Ok (returned made no_attestation), left_world made)
  ∧ ∃ l_probe l_reg,
      log (left_world made)
      = log (start token_with_other_credential) ++ l_probe ++ l_reg
      ∧ Forall2 (probes_credential
                   (sha256 (str_encode (default "" (example_com !! "id")))))
          [excluded] l_probe
      ∧ Forall ignored l_probe.
Proof.
  assert (Hrun : made = Some (Ok (returned made no_attestation), left_world made)).
  { vm_compute. reflexivity. }
  split; [exact Hrun|].
  destruct (ctap1_make_credential_exclude_list 2 fido2_over_ctap1 create_data
              example_com alice [ES256] (Some [excluded]) None false false None
              None (start token_with_other_credential) _ _ Hrun)
    as (probed & l_probe & l_reg & Hlog & _ & Hprobes & _ & _ & Hall & _).
  destruct Hall as [-> Hignored]; [right; eexists; reflexivity|].
  exists l_probe, l_reg. split; [exact Hlog|]. split; [exact Hprobes|exact Hignored].
Defined.

Lemma ctap1_get_assertion_returns_assertion_witness :
  asserted = Some (Ok (returned asserted []), left_world asserted)
  ∧ ∃ cred sd,
      returned asserted []
      = [ {| credential := Some cred;
             assertion_auth_data :=
               {| rp_id_hash := sha256 (str_encode "example.com");
                  flags := Z.land (user_presence sd) 1;
                  sign_count := counter sd;
                  credential_data := None |};
             assertion_signature := sig_signature sd;
             user := None;
             number_of_credentials := None |} ].
Proof.
  assert (Hrun : asserted = Some (Ok (returned asserted []), left_world asserted)).
  { vm_compute. reflexivity. }
  split; [exact Hrun|].
  destruct (ctap1_get_assertion_returns_assertion 2 fido2_over_ctap1 get_data
              "example.com" (Some [allowed]) None false false None None
              (start signing_token) _ _ Hrun)
    as (_ & _ & pre & cred & post & key_handle & sd & l & _ & _ & _ & _ & Hres & _).
  exists cred, sd. exact Hres.
Defined.

Lemma ctap1_get_assertion_asks_allow_list_witness :
  declined = Some (Raise (CtapError NO_CREDENTIALS), left_world declined)
  ∧ ∃ l0 lf,
      log (left_world declined) = log (start token_with_stale_key) ++ l0 ++ lf
      ∧ Forall (declined_by (ClientData.hash get_data)
                  (sha256 (str_encode "example.com")) [allowed]) l0
      ∧ length lf ≤ 1.
Proof.
  assert (Hrun : declined
                 = Some (Raise (CtapError NO_CREDENTIALS), left_world declined)).
  { vm_compute. reflexivity. }
  split; [exact Hrun|].
  destruct (ctap1_get_assertion_asks_allow_list 2 fido2_over_ctap1 get_data
              "example.com" (Some [allowed]) None false false None None
              (start token_with_stale_key) _ _ Hrun)
    as (_ & l0 & lf & Hlog & Hdeclined & Hshort & _).
  exists l0, lf. split; [exact Hlog|]. split; [exact Hdeclined|exact Hshort].
Defined.

Lemma missing_field_is_key_error_witness :
  Fido2Client.make_credential 2 fido2_over_ctap2 ∅ alice (PStr "Y2hhbGxlbmdl")
    [ES256] None None false false None None (start key_with_pin)
  = Some (Raise (KeyError "id"), start key_with_pin)
  ∧ U2fClient.sign 2 client "https://example.com" (PStr "abc")
      ([legacy_key] ++ nameless_key :: [known_key]) None (start signing_token)
    = Some (Raise (KeyError "version"),
            versioned (start signing_token) "U2F_V2" signing_token 1)
  ∧ U2fClient.register 2 client "https://example.com"
      ([] ++ request_without_challenge :: enroll_abc) [legacy_key] None
      (start touch_later)
    = Some (Raise (KeyError "challenge"),
            versioned (start touch_later) "U2F_V2" touch_later 1).
Proof.
  assert (Hlegacy : Forall (other_version "U2F_V2") [legacy_key]).
  { constructor; [|constructor].
    exists "U2F_V1". split; [vm_compute; reflexivity|discriminate]. }
  destruct (missing_field_is_key_error (Dev:=script))
    as (Hrp & Hkey & Hrequest).
  split; [|split].
  - apply (Hrp 2 fido2_over_ctap2 ∅ alice (PStr "Y2hhbGxlbmdl") [ES256] None None
             false false None None (start key_with_pin)).
    reflexivity.
  - apply (Hkey 2 client "https://example.com" (PStr "abc") enroll_abc
             [legacy_key] nameless_key [known_key] None (start signing_token)
             sign_data "U2F_V2" signing_token 1%N "version").
    + vm_compute. reflexivity.
    + vm_compute. reflexivity.
    + reflexivity.
    + exact Hlegacy.
    + left. split; reflexivity.
  - apply (Hrequest 2 client "https://example.com" [] request_without_challenge
             enroll_abc [legacy_key] None (start touch_later) "U2F_V2"
             touch_later 1%N).
    + vm_compute. reflexivity.
    + reflexivity.
    + exact Hlegacy.
    + constructor.
    + vm_compute. reflexivity.
    + vm_compute. reflexivity.
Defined.

Lemma unverified_key_app_id_is_bad_request_witness :
  U2fClient.register 2 client "https://example.com" enroll_abc
    ([legacy_key] ++ foreign_key :: [known_key]) None (start enrolled_token)
  = Some (Raise (ClientError BAD_REQUEST),
          versioned (start enrolled_token) "U2F_V2" enrolled_token 1)
  ∧ U2fClient.sign 2 client "https://example.com" (PStr "abc")
      ([legacy_key] ++ foreign_key :: [known_key]) None (start enrolled_token)
    = Some (Raise (ClientError BAD_REQUEST),
            versioned (start enrolled_token) "U2F_V2" enrolled_token 1).
Proof.
  apply (unverified_key_app_id_is_bad_request 2 client "https://example.com"
           (PStr "abc") enroll_abc [legacy_key] foreign_key [known_key] None
           (start enrolled_token) sign_data "U2F_V2" enrolled_token 1%N).
  - vm_compute. reflexivity.
  - vm_compute. reflexivity.
  - reflexivity.
  - constructor; [|constructor].
    exists "U2F_V1". split; [vm_compute; reflexivity|discriminate].
  - vm_compute. reflexivity.
  - vm_compute. discriminate.
Defined.

Lemma ceremonies_answer_witness :
  answers (Dev:=script)
    (U2fClient.register 121 client "https://example.com" enroll_abc [known_key]
       None)
  ∧ answers (Dev:=script)
      (Fido2Client.get_assertion 121 fido2_over_ctap1 "example.com"
         (PStr "Y2hhbGxlbmdl") (Some [allowed]) None false false None None).
Proof.
  destruct (ceremonies_answer (Dev:=script) 120 None) as [Hu2f Hfido2].
  split.
  - destruct (Hu2f client) as [Hregister _].
    + vm_compute. reflexivity.
    + vm_compute. discriminate.
    + apply Hregister.
  - destruct (Hfido2 fido2_over_ctap1) as [_ Hget].
    + vm_compute. reflexivity.
    + vm_compute. discriminate.
    + apply Hget.
Defined.

End witnesses.
